(** * OptiNLC trajectory planner (adore_planning)

    A shallow embedding of [src/optinlc_trajectory_planner.cpp] and the
    properties of its planning cycle.

    Conventions of the embedding.
    - A C++ [double] is an exact rational ([Q]): there is no rounding, no NaN
      and no infinity.  A quotient whose divisor is zero has no rational
      value; it is left to the platform through [div_by_zero], so nothing
      proved here depends on what such a quotient evaluates to.
    - The calls into [<cmath>], the spline library ([pp.*]), the OCP solver,
      the route and the map are interfaces: classes or records of functions.
    - Member variables of [OptiNLCTrajectoryPlanner] are the fields of the
      record [Planner]; every member function takes the planner and returns
      the updated one.
    - [std::vector::operator[]] outside the bounds and [*v.end ()] are
      undefined in C++.  The curvature loop of [setup_reference_velocity]
      indexes vectors whose length the code does not look at: its reads are
      checked, and a cycle that reads outside a vector, or takes the largest
      entry of an empty one, ends as [undefined_access], with no result.
      The builder reads the derivatives of its own position splines with
      [at_] and its last write is made with [assign], which leaves a vector
      without the index as it is. *)

From Stdlib Require Import QArith Qabs Qminmax Lqa ZArith Lia List Bool String.
Import ListNotations.

Open Scope Q_scope.

(** ** Numbers *)

Definition double := Q.

(** [a < b] on doubles, as a test. *)
Definition ltb (a b : double) : bool :=
  match a ?= b with Lt => true | _ => false end.

(** [a > b]. *)
Definition gtb (a b : double) : bool := ltb b a.

(** [a == b]. *)
Definition eqb (a b : double) : bool := Qeq_bool a b.

(** [std::min (a, b)] is [(b < a) ? b : a]. *)
Definition std_min (a b : double) : double := if ltb b a then b else a.

(** [std::max (a, b)] is [(a < b) ? b : a]. *)
Definition std_max (a b : double) : double := if ltb a b then b else a.

(** [std::max] on [int]. *)
Definition std_max_int (a b : Z) : Z := if (a <? b)%Z then b else a.

(** [std::abs]. *)
Definition std_abs (a : double) : double := Qabs a.

(** [std::numeric_limits<double>::max ()], the largest finite binary64. *)
Definition DBL_MAX : double := inject_Z (2 ^ 1024 - 2 ^ 971).

(** The functions of [<cmath>] the planner calls, and the value the platform
    gives to a quotient by zero (as a function of the dividend). *)
Class cmath := {
  cos : double -> double;
  sin : double -> double;
  tan : double -> double;
  atan2 : double -> double -> double;
  sqrt : double -> double;
  div_by_zero : double -> double
}.

(** The C++ operator [/] on doubles: no test of the divisor is made by the
    caller; the zero case is the platform's. *)
Definition fdiv {m : cmath} (a b : double) : double :=
  if eqb b 0 then div_by_zero a else a / b.

Notation "a ./ b" := (fdiv a b) (at level 40, left associativity) : Q_scope.

(** A double extended with the two infinities, for the bound vectors handed
    to the solver ([std::numeric_limits<double>::infinity ()]). *)
Inductive bound : Type :=
| neg_infinity
| finite (d : double)
| infinity.

(** ** Fixed-size vectors

    [VECTOR<T, n>] is a map from the index to the entry; the entries at
    [n] and above are never read. *)

Definition VECTOR (A : Type) := nat -> A.

Definition setConstant {A} (c : A) : VECTOR A := fun _ => c.

Definition vset {A} (v : VECTOR A) (i : nat) (a : A) : VECTOR A :=
  fun j => if Nat.eqb j i then a else v j.

(** A brace-initialised vector. *)
Definition of_list (l : list double) : VECTOR double := fun j => nth j l 0.

(** [enum STATES] and [enum CONTROLS], used as indices.
    Modelled from the spec: the header is not part of the sources; the order
    of the eight state channels is the one of the OCP description and of the
    initial state written in [plan_trajectory]. *)
Module STATES.
Definition X : nat := 0.
Definition Y : nat := 1.
Definition PSI : nat := 2.
Definition V : nat := 3.
Definition DELTA : nat := 4.
Definition dDELTA : nat := 5.
Definition S : nat := 6.
Definition L : nat := 7.
End STATES.

Module CONTROLS.
Definition ddDELTA : nat := 0.
End CONTROLS.

(** Modelled from the spec: the sizes of the state and of the input vector
    are constants of the header; the OCP has eight state channels and one
    control input. *)
Definition state_size : nat := 8.
Definition input_size : nat := 1.

(** ** Lists as [std::vector] *)

(** [v[i]] in the builder, on vectors that the spline library evaluates
    at the samples of the path; beyond a vector this reads [0]. *)
Definition at_ (v : list double) (i : nat) : double := nth i v 0.

(** [v[i] = a] *)
Fixpoint assign {A} (v : list A) (i : nat) (a : A) : list A :=
  match v, i with
  | [], _ => []
  | _ :: t, O => a :: t
  | h :: t, S j => h :: assign t j a
  end.

(** [v.push_back (a)] *)
Definition push_back {A} (v : list A) (a : A) : list A := v ++ [a].

(** [v[i]] where nothing bounds the index: [None] is an access outside
    the vector. *)
Definition at_checked (v : list double) (i : nat) : option double :=
  nth_error v i.

(** [*std::max_element (v.begin (), v.end ())]: the first of the largest
    entries.  On an empty vector [max_element] returns [end ()], whose
    dereference is undefined: [None]. *)
Fixpoint max_element_from (best : double) (v : list double) : double :=
  match v with
  | [] => best
  | a :: t => max_element_from (if ltb best a then a else best) t
  end.

Definition max_element (v : list double) : option double :=
  match v with
  | [] => None
  | a :: t => Some (max_element_from a t)
  end.

(** How a member function that can fail ends: it returns, it is left by
    the [std::out_of_range] of [lanes.at], or it reads outside a vector, on
    which C++ defines nothing. *)
Inductive Outcome (A : Type) : Type :=
| returns (a : A)
| throws
| undefined.

Arguments returns {A} a.
Arguments throws {A}.
Arguments undefined {A}.

(** ** Data *)

Module math.
Record Point2d := { x : double; y : double }.
Record Pose2d := { pose_x : double; pose_y : double; pose_yaw : double }.
End math.

Module dynamics.
Record VehicleStateDynamic := {
  x : double;
  y : double;
  yaw_angle : double;
  vx : double;
  steering_angle : double;
  steering_rate : double;
  ax : double;
  yaw_rate : double;
  time : double
}.

(** A default-constructed state. *)
Definition VehicleStateDynamic0 : VehicleStateDynamic :=
  {| x := 0; y := 0; yaw_angle := 0; vx := 0; steering_angle := 0;
     steering_rate := 0; ax := 0; yaw_rate := 0; time := 0 |}.

Definition set_rates (s : VehicleStateDynamic) (r a : double) :=
  {| x := x s; y := y s; yaw_angle := yaw_angle s; vx := vx s;
     steering_angle := steering_angle s; steering_rate := steering_rate s;
     ax := a; yaw_rate := r; time := time s |}.

Record Trajectory := { states : list VehicleStateDynamic }.

Record TrafficParticipant := { state : VehicleStateDynamic }.

Record TrafficParticipantSet := {
  participants : list (Z * TrafficParticipant)
}.
End dynamics.

Module map.
Record MapPoint := {
  x : double;
  y : double;
  s : double;
  parent_id : Z
}.

Record Lane := { get_width : double -> double }.

(** The route: the samples of its centre lane, a [std::map] from the arc
    length to the point and therefore visited by increasing arc length,
    and its queries. *)
Record Route := {
  center_lane : list (double * MapPoint);
  get_s : dynamics.VehicleStateDynamic -> double;
  get_s_of_point : math.Point2d -> double;
  get_pose_at_s : double -> math.Pose2d;
  get_map_point_at_s : double -> MapPoint;
  get_length : double
}.

(** The map: [lanes.at (id)] fails on an identifier the map does not
    have; [quadtree.get_nearest_point] may find nothing. *)
Record Map := {
  lanes : Z -> option Lane;
  get_lane_speed_limit : Z -> double;
  get_nearest_point : dynamics.VehicleStateDynamic -> double -> option MapPoint
}.
End map.

(** ** The spline library *)

(** Modelled from the spec: a spline is its breakpoints and coefficients;
    the planner itself only looks at [breaks]. *)
Record PiecewiseStruct := {
  breaks : list double;
  coefficients : list (list double)
}.

Definition PiecewiseStruct0 : PiecewiseStruct :=
  {| breaks := []; coefficients := [] |}.

Record route_to_piecewise_polynomial := {
  rx : PiecewiseStruct;
  ry : PiecewiseStruct;
  rheading : PiecewiseStruct
}.

(** A default-constructed [route_to_piecewise_polynomial]. *)
Definition route0 : route_to_piecewise_polynomial :=
  {| rx := PiecewiseStruct0; ry := PiecewiseStruct0; rheading := PiecewiseStruct0 |}.

(** The member [route_to_follow]. *)
Record RouteToFollow := {
  rs : list double;
  rxs : list double;
  rys : list double;
  rpsi : list double
}.

(** The member [pp] and [math::distance_2d]. *)
Class PiecewisePolynomial := {
  CubicSplineSmoother :
    list double -> list double -> list double -> double -> PiecewiseStruct;
  CubicSplineEvaluation :
    list double -> PiecewiseStruct -> list double * list double;
  findIndex : double -> PiecewiseStruct -> Z;
  splineEvaluation : Z -> double -> PiecewiseStruct -> double;
  distance_2d : math.Point2d -> math.Pose2d -> double
}.

(** ** The solver *)

Record solver_param := {
  intermediateIntegration : Z;
  OptiNLC_ACC : double;
  maxNumberOfIteration : Z;
  OSQP_verbose : bool;
  OSQP_max_iter : Z;
  OptiNLC_time_limit : double;
  perturbation : double;
  timeStep : double;
  debugPrint : bool
}.

(** The callbacks registered on the OCP.  The dynamic model writes the
    derivative it is handed and the member [tau]; it gives both back. *)
Record OptiNLC_OCP := {
  ocp_options : solver_param;
  InputUpdate : VECTOR double -> VECTOR double -> VECTOR double;
  StateLowerBounds : VECTOR double -> VECTOR double -> VECTOR bound;
  StateUpperBounds : VECTOR double -> VECTOR double -> VECTOR bound;
  InputLowerBounds : VECTOR double -> VECTOR double -> VECTOR bound;
  InputUpperBounds : VECTOR double -> VECTOR double -> VECTOR bound;
  FunctionConstraints : VECTOR double -> VECTOR double -> VECTOR double;
  FunctionConstraintsLowerBounds : VECTOR double -> VECTOR double -> VECTOR bound;
  FunctionConstraintsUpperBounds : VECTOR double -> VECTOR double -> VECTOR bound;
  ObjectiveFunction : VECTOR double -> VECTOR double -> double;
  DynamicModel :
    VECTOR double -> VECTOR double -> VECTOR double -> VECTOR double * double
}.

(** What a solve leaves behind: [get_optimal_states ()], [getTime ()],
    [get_final_objective_function ()], and the points (state, input) at
    which it called the dynamic model, in the order of the calls. *)
Record SolverRun := {
  optimal_states : VECTOR double;
  sample_times : VECTOR double;
  final_objective_function : double;
  model_calls : list (VECTOR double * VECTOR double)
}.

(** [solver.solve (time, initial_state, initial_input)] on an OCP. *)
Class OptiNLC_Solver := {
  solve : OptiNLC_OCP -> double -> VECTOR double -> VECTOR double -> SolverRun
}.

(** [std::chrono::high_resolution_clock::now ()]: the readings of one cycle,
    in the order in which they are taken. *)
Record Clock := {
  builder_start : double;
  builder_end : double;
  cycle_start : double;
  cycle_end : double
}.

(** ** The planner object *)

(** The members whose values come from the header and that no function of
    the source file assigns. *)
Record Constants := {
  control_points : nat;
  sim_time : double;
  max_forward_speed : double;
  max_reverse_speed : double;
  max_steering_velocity : double;
  max_steering_acceleration : double;
  max_steering_angle : double;
  threshold_bad_output : double;
  min_distance_in_route : double;
  position_smoothing_factor : double;
  heading_smoothing_factor : double;
  lookahead_time : double;
  safe_index : Z;
  lateral_acceleration : double;
  minimum_velocity_in_curve : double;
  desired_time_headway : double;
  front_vehicle_velocity : double;
  max_acceleration : double;
  max_deceleration : double
}.

(** The members the source file assigns.  [bad_counter] is an integer
    counter: it is increased only after the test that sets it back to 0
    above 4, so it never leaves the range of a machine integer and [Z]
    needs no wrap-around. *)
Record Planner := {
  options : solver_param;
  wheelbase : double;
  lateral_weight : double;
  heading_weight : double;
  maximum_velocity : double;
  min_distance_to_vehicle_ahead : double;
  route_x : PiecewiseStruct;
  route_y : PiecewiseStruct;
  route_heading : PiecewiseStruct;
  route_to_follow : RouteToFollow;
  reference_velocity : double;
  tau : double;
  distance_to_goal : double;
  bad_condition : bool;
  bad_counter : Z;
  previous_trajectory : dynamics.Trajectory
}.

(** Assignments to single members. *)

Definition with_options (st : Planner) (o : solver_param) : Planner :=
  {| options := o; wheelbase := wheelbase st;
     lateral_weight := lateral_weight st; heading_weight := heading_weight st;
     maximum_velocity := maximum_velocity st;
     min_distance_to_vehicle_ahead := min_distance_to_vehicle_ahead st;
     route_x := route_x st; route_y := route_y st;
     route_heading := route_heading st; route_to_follow := route_to_follow st;
     reference_velocity := reference_velocity st; tau := tau st;
     distance_to_goal := distance_to_goal st;
     bad_condition := bad_condition st; bad_counter := bad_counter st;
     previous_trajectory := previous_trajectory st |}.

Definition with_parameter (st : Planner) (name : string) (value : double) : Planner :=
  let pick key old := if String.eqb name key then value else old in
  {| options := options st;
     wheelbase := pick "wheel_base"%string (wheelbase st);
     lateral_weight := pick "lateral_weight"%string (lateral_weight st);
     heading_weight := pick "heading_weight"%string (heading_weight st);
     maximum_velocity := pick "maximum_velocity"%string (maximum_velocity st);
     min_distance_to_vehicle_ahead :=
       pick "min_distance_to_vehicle_ahead"%string (min_distance_to_vehicle_ahead st);
     route_x := route_x st; route_y := route_y st;
     route_heading := route_heading st; route_to_follow := route_to_follow st;
     reference_velocity := reference_velocity st; tau := tau st;
     distance_to_goal := distance_to_goal st;
     bad_condition := bad_condition st; bad_counter := bad_counter st;
     previous_trajectory := previous_trajectory st |}.

Definition with_route_to_follow (st : Planner) (r : RouteToFollow) : Planner :=
  {| options := options st; wheelbase := wheelbase st;
     lateral_weight := lateral_weight st; heading_weight := heading_weight st;
     maximum_velocity := maximum_velocity st;
     min_distance_to_vehicle_ahead := min_distance_to_vehicle_ahead st;
     route_x := route_x st; route_y := route_y st;
     route_heading := route_heading st; route_to_follow := r;
     reference_velocity := reference_velocity st; tau := tau st;
     distance_to_goal := distance_to_goal st;
     bad_condition := bad_condition st; bad_counter := bad_counter st;
     previous_trajectory := previous_trajectory st |}.

Definition with_reference_velocity (st : Planner) (v : double) : Planner :=
  {| options := options st; wheelbase := wheelbase st;
     lateral_weight := lateral_weight st; heading_weight := heading_weight st;
     maximum_velocity := maximum_velocity st;
     min_distance_to_vehicle_ahead := min_distance_to_vehicle_ahead st;
     route_x := route_x st; route_y := route_y st;
     route_heading := route_heading st; route_to_follow := route_to_follow st;
     reference_velocity := v; tau := tau st;
     distance_to_goal := distance_to_goal st;
     bad_condition := bad_condition st; bad_counter := bad_counter st;
     previous_trajectory := previous_trajectory st |}.

Definition with_tau (st : Planner) (t : double) : Planner :=
  {| options := options st; wheelbase := wheelbase st;
     lateral_weight := lateral_weight st; heading_weight := heading_weight st;
     maximum_velocity := maximum_velocity st;
     min_distance_to_vehicle_ahead := min_distance_to_vehicle_ahead st;
     route_x := route_x st; route_y := route_y st;
     route_heading := route_heading st; route_to_follow := route_to_follow st;
     reference_velocity := reference_velocity st; tau := t;
     distance_to_goal := distance_to_goal st;
     bad_condition := bad_condition st; bad_counter := bad_counter st;
     previous_trajectory := previous_trajectory st |}.

Definition with_distance_to_goal (st : Planner) (d : double) : Planner :=
  {| options := options st; wheelbase := wheelbase st;
     lateral_weight := lateral_weight st; heading_weight := heading_weight st;
     maximum_velocity := maximum_velocity st;
     min_distance_to_vehicle_ahead := min_distance_to_vehicle_ahead st;
     route_x := route_x st; route_y := route_y st;
     route_heading := route_heading st; route_to_follow := route_to_follow st;
     reference_velocity := reference_velocity st; tau := tau st;
     distance_to_goal := d;
     bad_condition := bad_condition st; bad_counter := bad_counter st;
     previous_trajectory := previous_trajectory st |}.

Definition with_bad_condition (st : Planner) (b : bool) : Planner :=
  {| options := options st; wheelbase := wheelbase st;
     lateral_weight := lateral_weight st; heading_weight := heading_weight st;
     maximum_velocity := maximum_velocity st;
     min_distance_to_vehicle_ahead := min_distance_to_vehicle_ahead st;
     route_x := route_x st; route_y := route_y st;
     route_heading := route_heading st; route_to_follow := route_to_follow st;
     reference_velocity := reference_velocity st; tau := tau st;
     distance_to_goal := distance_to_goal st;
     bad_condition := b; bad_counter := bad_counter st;
     previous_trajectory := previous_trajectory st |}.

Definition with_bad_counter (st : Planner) (n : Z) : Planner :=
  {| options := options st; wheelbase := wheelbase st;
     lateral_weight := lateral_weight st; heading_weight := heading_weight st;
     maximum_velocity := maximum_velocity st;
     min_distance_to_vehicle_ahead := min_distance_to_vehicle_ahead st;
     route_x := route_x st; route_y := route_y st;
     route_heading := route_heading st; route_to_follow := route_to_follow st;
     reference_velocity := reference_velocity st; tau := tau st;
     distance_to_goal := distance_to_goal st;
     bad_condition := bad_condition st; bad_counter := n;
     previous_trajectory := previous_trajectory st |}.

Definition with_previous_trajectory (st : Planner) (t : dynamics.Trajectory) : Planner :=
  {| options := options st; wheelbase := wheelbase st;
     lateral_weight := lateral_weight st; heading_weight := heading_weight st;
     maximum_velocity := maximum_velocity st;
     min_distance_to_vehicle_ahead := min_distance_to_vehicle_ahead st;
     route_x := route_x st; route_y := route_y st;
     route_heading := route_heading st; route_to_follow := route_to_follow st;
     reference_velocity := reference_velocity st; tau := tau st;
     distance_to_goal := distance_to_goal st;
     bad_condition := bad_condition st; bad_counter := bad_counter st;
     previous_trajectory := t |}.

(** [setup_reference_route]: the three splines of the built route become
    the members [route_x], [route_y] and [route_heading]. *)
Definition setup_reference_route (st : Planner)
    (reference_route : route_to_piecewise_polynomial) : Planner :=
  {| options := options st; wheelbase := wheelbase st;
     lateral_weight := lateral_weight st; heading_weight := heading_weight st;
     maximum_velocity := maximum_velocity st;
     min_distance_to_vehicle_ahead := min_distance_to_vehicle_ahead st;
     route_x := rx reference_route; route_y := ry reference_route;
     route_heading := rheading reference_route;
     route_to_follow := route_to_follow st;
     reference_velocity := reference_velocity st; tau := tau st;
     distance_to_goal := distance_to_goal st;
     bad_condition := bad_condition st; bad_counter := bad_counter st;
     previous_trajectory := previous_trajectory st |}.

(** An OCP as it is constructed on the options, before any callback is
    registered; [plan_trajectory] registers every one of them before the
    solve. *)
Definition OCP_new (o : solver_param) : OptiNLC_OCP :=
  {| ocp_options := o;
     InputUpdate := fun _ input => input;
     StateLowerBounds := fun _ _ => setConstant neg_infinity;
     StateUpperBounds := fun _ _ => setConstant infinity;
     InputLowerBounds := fun _ _ => setConstant neg_infinity;
     InputUpperBounds := fun _ _ => setConstant infinity;
     FunctionConstraints := fun _ _ => setConstant 0;
     FunctionConstraintsLowerBounds := fun _ _ => setConstant neg_infinity;
     FunctionConstraintsUpperBounds := fun _ _ => setConstant infinity;
     ObjectiveFunction := fun _ _ => 0;
     DynamicModel := fun _ _ derivative => (derivative, 0) |}.

(** ** The member functions *)

Section OptiNLCTrajectoryPlanner.

Context {m : cmath} {pp : PiecewisePolynomial} {solver : OptiNLC_Solver}.
Variable c : Constants.

(** [set_parameters]: the solver options are written anew, then every
    recognised name of the map overwrites its member. *)
Definition set_parameters (st : Planner) (params : list (string * double)) : Planner :=
  let st :=
    with_options st
      {| intermediateIntegration := 2;
         OptiNLC_ACC := 0.0001;
         maxNumberOfIteration := 500;
         OSQP_verbose := false;
         OSQP_max_iter := 500;
         OptiNLC_time_limit := 0.09;
         perturbation := 0.000001;
         timeStep := sim_time c ./ inject_Z (Z.of_nat (control_points c));
         debugPrint := false |} in
  fold_left (fun st nv => with_parameter st (fst nv) (snd nv)) params st.

(** The constructor, on the members as the header initialises them. *)
Definition OptiNLCTrajectoryPlanner (header : Planner) : Planner :=
  set_parameters header [].

(** [setup_constraints] *)
Definition setup_constraints (st : Planner) (ocp : OptiNLC_OCP) : OptiNLC_OCP :=
  {| ocp_options := ocp_options ocp;
     InputUpdate := fun _ input => of_list [input CONTROLS.ddDELTA];
     StateLowerBounds := fun _ _ =>
       let state_constraints := setConstant neg_infinity in
       let state_constraints :=
         vset state_constraints STATES.V (finite (max_reverse_speed c)) in
       let state_constraints :=
         vset state_constraints STATES.DELTA (finite (- max_steering_angle c)) in
       vset state_constraints STATES.dDELTA (finite (- max_steering_velocity c));
     StateUpperBounds := fun _ _ =>
       let state_constraints := setConstant infinity in
       let state_constraints :=
         vset state_constraints STATES.V (finite (max_forward_speed c)) in
       let state_constraints :=
         vset state_constraints STATES.DELTA (finite (max_steering_angle c)) in
       vset state_constraints STATES.dDELTA (finite (max_steering_velocity c));
     InputLowerBounds := fun _ _ =>
       vset (setConstant (finite 0)) CONTROLS.ddDELTA
            (finite (- max_steering_acceleration c));
     InputUpperBounds := fun _ _ =>
       vset (setConstant (finite 0)) CONTROLS.ddDELTA
            (finite (max_steering_acceleration c));
     FunctionConstraints := fun _ _ => setConstant 0;
     FunctionConstraintsLowerBounds := fun _ _ => setConstant neg_infinity;
     FunctionConstraintsUpperBounds := fun _ _ => setConstant infinity;
     ObjectiveFunction := ObjectiveFunction ocp;
     DynamicModel := DynamicModel ocp |}.

(** [setup_objective_function] *)
Definition setup_objective_function (ocp : OptiNLC_OCP) : OptiNLC_OCP :=
  {| ocp_options := ocp_options ocp;
     InputUpdate := InputUpdate ocp;
     StateLowerBounds := StateLowerBounds ocp;
     StateUpperBounds := StateUpperBounds ocp;
     InputLowerBounds := InputLowerBounds ocp;
     InputUpperBounds := InputUpperBounds ocp;
     FunctionConstraints := FunctionConstraints ocp;
     FunctionConstraintsLowerBounds := FunctionConstraintsLowerBounds ocp;
     FunctionConstraintsUpperBounds := FunctionConstraintsUpperBounds ocp;
     ObjectiveFunction := fun state _ => state STATES.L;
     DynamicModel := DynamicModel ocp |}.

(** The callback of [setup_dynamic_model].  It reads the members
    [reference_velocity], [wheelbase], the weights and the three splines,
    assigns the member [tau] and fills [derivative]; the result is the
    derivative and the value left in [tau]. *)
Definition dynamic_model (st : Planner)
    (state input derivative : VECTOR double) : VECTOR double * double :=
  let tau :=
    if gtb (reference_velocity st - state STATES.V) 0 then 2.5 else 1.25 in
  let derivative :=
    vset derivative STATES.X (state STATES.V * cos (state STATES.PSI)) in
  let derivative :=
    vset derivative STATES.Y (state STATES.V * sin (state STATES.PSI)) in
  let derivative :=
    vset derivative STATES.PSI
         (state STATES.V * tan (state STATES.DELTA) ./ wheelbase st) in
  let derivative :=
    vset derivative STATES.V
         ((1 ./ tau) * (reference_velocity st - state STATES.V)) in
  let derivative := vset derivative STATES.DELTA (state STATES.dDELTA) in
  let derivative := vset derivative STATES.dDELTA (input CONTROLS.ddDELTA) in
  let derivative := vset derivative STATES.S (state STATES.V) in
  let index := findIndex (state STATES.S) (route_x st) in
  let reference_x := splineEvaluation index (state STATES.S) (route_x st) in
  let reference_y := splineEvaluation index (state STATES.S) (route_y st) in
  let reference_heading :=
    splineEvaluation index (state STATES.S) (route_heading st) in
  let dx := state STATES.X - reference_x in
  let dy := state STATES.Y - reference_y in
  let cos_yaw := cos reference_heading in
  let sin_yaw := sin reference_heading in
  let lateral_cost := - dx * sin_yaw + dy * cos_yaw in
  let lateral_cost := lateral_cost * (lateral_cost * lateral_weight st) in
  let heading_cost :=
    atan2 (- sin_yaw * cos (state STATES.PSI) + cos_yaw * sin (state STATES.PSI))
          (cos_yaw * cos (state STATES.PSI) + sin_yaw * sin (state STATES.PSI)) in
  let heading_cost := heading_cost * (heading_cost * heading_weight st) in
  let derivative := vset derivative STATES.L (lateral_cost + heading_cost) in
  (derivative, tau).

(** [setup_dynamic_model] *)
Definition setup_dynamic_model (st : Planner) (ocp : OptiNLC_OCP) : OptiNLC_OCP :=
  {| ocp_options := ocp_options ocp;
     InputUpdate := InputUpdate ocp;
     StateLowerBounds := StateLowerBounds ocp;
     StateUpperBounds := StateUpperBounds ocp;
     InputLowerBounds := InputLowerBounds ocp;
     InputUpperBounds := InputUpperBounds ocp;
     FunctionConstraints := FunctionConstraints ocp;
     FunctionConstraintsLowerBounds := FunctionConstraintsLowerBounds ocp;
     FunctionConstraintsUpperBounds := FunctionConstraintsUpperBounds ocp;
     ObjectiveFunction := ObjectiveFunction ocp;
     DynamicModel := dynamic_model st |}.

(** The member [tau] after the solver made the calls [calls] of the
    dynamic model: the value the last call left, if there was one. *)
Definition tau_after (st : Planner)
    (calls : list (VECTOR double * VECTOR double)) : double :=
  fold_left
    (fun _ call => snd (dynamic_model st (fst call) (snd call) (setConstant 0)))
    calls (tau st).

(** *** The reference builder *)

(** The loop over [latest_route.center_lane]: samples behind the vehicle
    are skipped, the loop ends at the first sample further than
    [maximum_required_road_length], and a sample is kept when it lies more
    than 0.75 beyond the last one kept. *)
Fixpoint sample_center_lane (state_s maximum_required_road_length : double)
    (lane : list (double * map.MapPoint))
    (r : RouteToFollow) (w : list double) (previous_s : double)
    : RouteToFollow * list double :=
  match lane with
  | [] => (r, w)
  | (s, point) :: rest =>
      if ltb s state_s then
        sample_center_lane state_s maximum_required_road_length rest r w previous_s
      else if gtb (s - state_s) maximum_required_road_length then (r, w)
      else
        let local_progress := s - state_s in
        if gtb (local_progress - previous_s) 0.75 then
          sample_center_lane state_s maximum_required_road_length rest
            {| rs := push_back (rs r) local_progress;
               rxs := push_back (rxs r) (map.x point);
               rys := push_back (rys r) (map.y point);
               rpsi := rpsi r |}
            (push_back w 1) local_progress
        else
          sample_center_lane state_s maximum_required_road_length rest r w previous_s
  end.

(** The loop that derives the heading samples; [false] when it returns
    from the builder at a zero [dx]. *)
Fixpoint heading_loop (dx dy : list double) (indices : list nat)
    (psi : list double) : list double * bool :=
  match indices with
  | [] => (psi, true)
  | i :: rest =>
      if eqb (at_ dx i) 0 || (List.length dx <? 1)%nat || (List.length dy <? 1)%nat
      then (psi, false)
      else heading_loop dx dy rest (push_back psi (atan2 (at_ dy i) (at_ dx i)))
  end.

(** [setup_optimizer_parameters_using_route] *)
Definition setup_optimizer_parameters_using_route (st : Planner)
    (latest_route : map.Route) (current_state : dynamics.VehicleStateDynamic)
    (clock : Clock) : route_to_piecewise_polynomial * Planner :=
  let start_time := builder_start clock in
  let route := route0 in
  let maximum_required_road_length := sim_time c * max_forward_speed c in
  if ltb maximum_required_road_length (min_distance_in_route c) then (route, st)
  else
    match map.center_lane latest_route with
    | [] => (route, st)
    | _ :: _ =>
        let state_s := map.get_s latest_route current_state in
        let cleared := {| rs := []; rxs := []; rys := []; rpsi := [] |} in
        let '(r, w) :=
          sample_center_lane state_s maximum_required_road_length
            (map.center_lane latest_route) cleared [] 0 in
        if (List.length (rs r) <? 3)%nat then (route, with_route_to_follow st r)
        else
          let s := assign (rs r) 0 0 in
          let x_spline :=
            CubicSplineSmoother s (rxs r) w (position_smoothing_factor c) in
          let y_spline :=
            CubicSplineSmoother s (rys r) w (position_smoothing_factor c) in
          let route :=
            {| rx := x_spline; ry := y_spline; rheading := rheading route |} in
          let '(x, dx) := CubicSplineEvaluation s x_spline in
          let '(y, dy) := CubicSplineEvaluation s y_spline in
          let '(psi, completed) :=
            heading_loop dx dy (seq 0 (List.length s - 1)) (rpsi r) in
          if negb completed then
            (route,
             with_route_to_follow st
               {| rs := s; rxs := rxs r; rys := rys r; rpsi := psi |})
          else
            let psi := assign psi (List.length s - 1) (at_ psi (List.length s - 2)) in
            let heading_spline :=
              CubicSplineSmoother s psi w (heading_smoothing_factor c) in
            let route :=
              {| rx := rx route; ry := ry route; rheading := heading_spline |} in
            let end_time := builder_end clock in
            let elapsed_seconds := end_time - start_time in
            (route,
             with_route_to_follow st
               {| rs := s; rxs := rxs r; rys := rys r; rpsi := psi |})
    end.

(** *** The reference velocity *)

(** The loop of [calculate_idm_velocity] over the traffic participants:
    the smallest distance, relative to the vehicle, of a participant whose
    offset from the route is below the lane width.  [None] when
    [lanes.at] throws. *)
Fixpoint closest_participant (latest_route : map.Route) (latest_map : map.Map)
    (state_s : double) (ps : list (Z * dynamics.TrafficParticipant))
    (distance_to_object_min : double) : option double :=
  match ps with
  | [] => Some distance_to_object_min
  | (id, participant) :: rest =>
      let object_position :=
        {| math.x := dynamics.x (dynamics.state participant);
           math.y := dynamics.y (dynamics.state participant) |} in
      let distance_to_object := map.get_s_of_point latest_route object_position in
      let offset :=
        distance_2d object_position
          (map.get_pose_at_s latest_route distance_to_object) in
      let map_point := map.get_map_point_at_s latest_route distance_to_object in
      match map.lanes latest_map (map.parent_id map_point) with
      | None => None
      | Some lane =>
          let within_lane :=
            ltb offset (map.get_width lane (map.s map_point)) in
          let distance_to_object := distance_to_object - state_s in
          if within_lane && ltb distance_to_object distance_to_object_min
          then closest_participant latest_route latest_map state_s rest
                 distance_to_object
          else closest_participant latest_route latest_map state_s rest
                 distance_to_object_min
      end
  end.

(** [distance_for_idm], the divisor of the IDM term. *)
Definition distance_for_idm (distance_to_object_min distance_to_goal : double) : double :=
  std_min distance_to_object_min distance_to_goal.

(** The part of [calculate_idm_velocity] after the loop, from the two
    distances. *)
Definition idm_velocity_at (st : Planner)
    (current_state : dynamics.VehicleStateDynamic)
    (distance_to_object_min distance_to_goal : double) : double :=
  let distance_to_maintain_ahead := min_distance_to_vehicle_ahead st in
  let distance_for_idm := distance_for_idm distance_to_object_min distance_to_goal in
  let distance_to_maintain_ahead :=
    if ltb distance_to_goal distance_to_object_min
    then wheelbase st ./ 2 else distance_to_maintain_ahead in
  let vx := dynamics.vx current_state in
  let s_star :=
    distance_to_maintain_ahead + vx * desired_time_headway c
    + vx * (vx - front_vehicle_velocity c)
      ./ (2 * sqrt (max_acceleration c * max_deceleration c)) in
  let velocity_ratio := vx ./ maximum_velocity st in
  let idm_velocity :=
    vx + max_acceleration c
         * (1 - velocity_ratio * velocity_ratio * velocity_ratio * velocity_ratio
            - (s_star ./ distance_for_idm) * (s_star ./ distance_for_idm)) in
  std_max 0 (std_min idm_velocity (max_forward_speed c)).

(** [calculate_idm_velocity]: the velocity and the planner, whose member
    [distance_to_goal] it assigns. *)
Definition calculate_idm_velocity (st : Planner) (latest_route : map.Route)
    (current_state : dynamics.VehicleStateDynamic) (latest_map : map.Map)
    (traffic_participants : dynamics.TrafficParticipantSet)
    : option (double * Planner) :=
  let state_s := map.get_s latest_route current_state in
  match closest_participant latest_route latest_map state_s
          (dynamics.participants traffic_participants) DBL_MAX with
  | None => None
  | Some distance_to_object_min =>
      let st := with_distance_to_goal st (map.get_length latest_route - state_s) in
      Some (idm_velocity_at st current_state distance_to_object_min
              (distance_to_goal st), st)
  end.

(** The loop [for (int i = 0; i < index; i++)] of
    [setup_reference_velocity] that fills [curvature]: each turn reads
    [dpsi[i]], [route_to_follow.s[i + 1]] and [route_to_follow.s[i]];
    [None] when one of them is outside its vector. *)
Fixpoint curvature_loop (dpsi s : list double) (indices : list nat)
    (curvature : list double) : option (list double) :=
  match indices with
  | [] => Some curvature
  | i :: rest =>
      match at_checked dpsi i, at_checked s (i + 1), at_checked s i with
      | Some dpsi_i, Some s_next, Some s_i =>
          curvature_loop dpsi s rest
            (push_back curvature (std_abs (dpsi_i ./ (s_next - s_i))))
      | _, _, _ => None
      end
  end.

(** The curvature bound of [setup_reference_velocity]; [None] when the
    loop reads outside [dpsi] or [route_to_follow.s], or leaves
    [curvature] empty, so that [*std::max_element] has nothing to read. *)
Definition curvature_velocity (st : Planner)
    (current_state : dynamics.VehicleStateDynamic) : option double :=
  let index :=
    findIndex (lookahead_time c * dynamics.vx current_state) (route_x st) in
  let index := std_max_int index (safe_index c) in
  let '(psi, dpsi) :=
    CubicSplineEvaluation (rs (route_to_follow st)) (route_heading st) in
  match curvature_loop dpsi (rs (route_to_follow st)) (seq 0 (Z.to_nat index)) [] with
  | None => None
  | Some curvature =>
      match max_element curvature with
      | None => None
      | Some max_curvature =>
          Some (std_max (sqrt (lateral_acceleration c ./ max_curvature))
                        (minimum_velocity_in_curve c))
      end
  end.

(** [setup_reference_velocity]: the curvature bound is computed before
    the traffic participants are looked at. *)
Definition setup_reference_velocity (st : Planner) (latest_route : map.Route)
    (current_state : dynamics.VehicleStateDynamic) (latest_map : map.Map)
    (traffic_participants : dynamics.TrafficParticipantSet) : Outcome Planner :=
  let st := with_reference_velocity st (maximum_velocity st) in
  match curvature_velocity st current_state with
  | None => undefined
  | Some curvature_velocity =>
      let st :=
        with_reference_velocity st
          (std_min (reference_velocity st) curvature_velocity) in
      match calculate_idm_velocity st latest_route current_state latest_map
              traffic_participants with
      | None => throws
      | Some (idm_velocity, st) =>
          let st :=
            with_reference_velocity st (std_min (reference_velocity st) idm_velocity) in
          let min_dist := DBL_MAX in
          match map.get_nearest_point latest_map current_state min_dist with
          | Some nearest =>
              let current_route_point_max_speed :=
                map.get_lane_speed_limit latest_map (map.parent_id nearest) in
              returns (with_reference_velocity st
                         (std_min (reference_velocity st)
                            current_route_point_max_speed))
          | None => returns st
          end
      end
  end.

(** *** The planning cycle *)

(** The test made on sample [i] of the solver's states. *)
Definition out_of_bounds (last_objective_function : double)
    (opt_x : VECTOR double) (i : nat) : bool :=
  gtb last_objective_function (threshold_bad_output c)
  || gtb (opt_x (i * state_size + STATES.V)%nat) (max_forward_speed c)
  || ltb (opt_x (i * state_size + STATES.V)%nat) (max_reverse_speed c)
  || gtb (std_abs (opt_x (i * state_size + STATES.dDELTA)%nat))
         (max_steering_velocity c).

(** The scan of the samples: at the first one out of bounds
    [bad_condition] is set, [bad_counter] is increased and the loop is
    left. *)
Fixpoint scan (last_objective_function : double) (opt_x : VECTOR double)
    (indices : list nat) (st : Planner) : Planner :=
  match indices with
  | [] => st
  | i :: rest =>
      if out_of_bounds last_objective_function opt_x i
      then with_bad_counter (with_bad_condition st true) (bad_counter st + 1)
      else scan last_objective_function opt_x rest st
  end.

(** One sample of the planned trajectory. *)
Definition planned_state (st : Planner) (opt_x time : VECTOR double)
    (i : nat) : dynamics.VehicleStateDynamic :=
  let state :=
    {| dynamics.x := opt_x (i * state_size + STATES.X)%nat;
       dynamics.y := opt_x (i * state_size + STATES.Y)%nat;
       dynamics.yaw_angle := opt_x (i * state_size + STATES.PSI)%nat;
       dynamics.vx := opt_x (i * state_size + STATES.V)%nat;
       dynamics.steering_angle := opt_x (i * state_size + STATES.DELTA)%nat;
       dynamics.steering_rate := opt_x (i * state_size + STATES.dDELTA)%nat;
       dynamics.ax := dynamics.ax dynamics.VehicleStateDynamic0;
       dynamics.yaw_rate := dynamics.yaw_rate dynamics.VehicleStateDynamic0;
       dynamics.time := time i |} in
  if (i <? control_points c - 1)%nat then
    dynamics.set_rates state
      ((opt_x ((i + 1) * state_size + STATES.PSI)%nat
        - opt_x (i * state_size + STATES.PSI)%nat) ./ timeStep (options st))
      ((opt_x ((i + 1) * state_size + STATES.V)%nat
        - opt_x (i * state_size + STATES.V)%nat) ./ timeStep (options st))
  else state.

(** The trajectory read off the solver's states; the rates of the last
    sample are those of the one before.  The two assignments need
    [control_points >= 2]. *)
Definition planned_trajectory (st : Planner) (opt_x time : VECTOR double)
    : dynamics.Trajectory :=
  let states := map (planned_state st opt_x time) (seq 0 (control_points c)) in
  let before_last :=
    nth (control_points c - 2) states dynamics.VehicleStateDynamic0 in
  let last := nth (control_points c - 1) states dynamics.VehicleStateDynamic0 in
  let states :=
    assign states (control_points c - 1)
      (dynamics.set_rates last (dynamics.yaw_rate before_last) (dynamics.ax last)) in
  let last := nth (control_points c - 1) states dynamics.VehicleStateDynamic0 in
  let before_last :=
    nth (control_points c - 2) states dynamics.VehicleStateDynamic0 in
  {| dynamics.states :=
       assign states (control_points c - 1)
         (dynamics.set_rates last (dynamics.yaw_rate last) (dynamics.ax before_last)) |}.

(** Where the first half of a cycle ends: without a route, when [lanes.at]
    throws, at a read outside a vector in the curvature loop, or with the
    solver's run. *)
Inductive Solve : Type :=
| no_route (st : Planner)
| out_of_range
| undefined_access
| solved (st : Planner) (start_time : double) (run : SolverRun).

(** [plan_trajectory] up to the solve. *)
Definition plan_trajectory_solve (st : Planner) (latest_route : map.Route)
    (current_state : dynamics.VehicleStateDynamic) (latest_map : map.Map)
    (traffic_participants : dynamics.TrafficParticipantSet) (clock : Clock)
    : Solve :=
  let '(reference_route, st) :=
    setup_optimizer_parameters_using_route st latest_route current_state clock in
  let start_time := cycle_start clock in
  let initial_input := of_list [0] in
  let initial_state :=
    of_list [dynamics.x current_state; dynamics.y current_state;
             dynamics.yaw_angle current_state; dynamics.vx current_state;
             dynamics.steering_angle current_state; 0; 0; 0] in
  let ocp := OCP_new (options st) in
  let st := setup_reference_route st reference_route in
  if (List.length (breaks (route_x st)) <? 1)%nat then no_route st
  else
    match setup_reference_velocity st latest_route current_state latest_map
            traffic_participants with
    | throws => out_of_range
    | undefined => undefined_access
    | returns st =>
        let ocp := setup_dynamic_model st ocp in
        let ocp := setup_objective_function ocp in
        let ocp := setup_constraints st ocp in
        let run :=
          solve ocp (dynamics.time current_state) initial_state initial_input in
        solved (with_tau st (tau_after st (model_calls run))) start_time run
    end.

(** [plan_trajectory] from the solver's results on. *)
Definition plan_trajectory_validate (st : Planner) (start_time : double)
    (run : SolverRun) (clock : Clock) : dynamics.Trajectory * Planner :=
  let opt_x := optimal_states run in
  let time := sample_times run in
  let last_objective_function := final_objective_function run in
  let st := with_bad_condition st false in
  let st := if (bad_counter st >? 4)%Z then with_bad_counter st 0 else st in
  let st := scan last_objective_function opt_x (seq 0 (control_points c)) st in
  let planned_trajectory := planned_trajectory st opt_x time in
  let end_time := cycle_end clock in
  let elapsed_seconds := end_time - start_time in
  if Bool.eqb (bad_condition st) false && (bad_counter st <? 5)%Z then
    let st := with_previous_trajectory st planned_trajectory in
    let st := with_bad_counter st 0 in
    (planned_trajectory, st)
  else (previous_trajectory st, st).

(** [plan_trajectory]: the trajectory returned and the planner after the
    call; [None] when the call does not return: it is left by the exception
    of [lanes.at], or it reads outside a vector.  [plan_trajectory_solve]
    tells the two apart.  The message written to [std::cerr] without a
    route is not part of the result. *)
Definition plan_trajectory (st : Planner) (latest_route : map.Route)
    (current_state : dynamics.VehicleStateDynamic) (latest_map : map.Map)
    (traffic_participants : dynamics.TrafficParticipantSet) (clock : Clock)
    : option (dynamics.Trajectory * Planner) :=
  match plan_trajectory_solve st latest_route current_state latest_map
          traffic_participants clock with
  | no_route st => Some ({| dynamics.states := [] |}, st)
  | out_of_range => None
  | undefined_access => None
  | solved st start_time run =>
      Some (plan_trajectory_validate st start_time run clock)
  end.

End OptiNLCTrajectoryPlanner.

(** ** What the properties speak about *)

(** The inputs of one call of [plan_trajectory]. *)
Record Call := {
  latest_route : map.Route;
  current_state : dynamics.VehicleStateDynamic;
  latest_map : map.Map;
  traffic_participants : dynamics.TrafficParticipantSet;
  clock : Clock
}.

Section Observations.

Context {m : cmath} {pp : PiecewisePolynomial} {solver : OptiNLC_Solver}.
Variable c : Constants.

Definition solve_call (st : Planner) (k : Call) : Solve :=
  plan_trajectory_solve c st (latest_route k) (current_state k) (latest_map k)
    (traffic_participants k) (clock k).

Definition plan_call (st : Planner) (k : Call)
    : option (dynamics.Trajectory * Planner) :=
  plan_trajectory c st (latest_route k) (current_state k) (latest_map k)
    (traffic_participants k) (clock k).

(** A solver result is bad: the final objective is above the threshold, or
    at some sample of the horizon the velocity is outside
    [[max_reverse_speed, max_forward_speed]] or the magnitude of the
    steering rate is above [max_steering_velocity]. *)
Definition bad_result (run : SolverRun) : Prop :=
  threshold_bad_output c < final_objective_function run
  \/ exists i, (i < control_points c)%nat
       /\ (max_forward_speed c < optimal_states run (i * state_size + STATES.V)%nat
           \/ optimal_states run (i * state_size + STATES.V)%nat < max_reverse_speed c
           \/ max_steering_velocity c
              < Qabs (optimal_states run (i * state_size + STATES.dDELTA)%nat)).

(** The cycle that starts in [st] on the call [k] reaches the solver and
    its result is bad. *)
Definition bad_cycle (st : Planner) (k : Call) : Prop :=
  exists st1 start_time run,
    solve_call st k = solved st1 start_time run /\ bad_result run.

(** The cycle has no route to plan against: the builder's path has no
    breakpoints. *)
Definition no_route_cycle (st : Planner) (k : Call) : Prop :=
  exists st1, solve_call st k = no_route st1.

(** Consecutive bad cycles: from [st], the calls of the list are all bad
    cycles and leave the planner in the last argument. *)
Inductive bad_cycles : Planner -> list Call -> Planner -> Prop :=
| bad_cycles_nil : forall st, bad_cycles st [] st
| bad_cycles_cons : forall st k t st' ks st'',
    bad_cycle st k ->
    plan_call st k = Some (t, st') ->
    bad_cycles st' ks st'' ->
    bad_cycles st (k :: ks) st''.

(** The same as tests, to be evaluated: the scan finds a sample out of
    bounds in the run of the cycle. *)
Definition bad_cycleb (st : Planner) (k : Call) : bool :=
  match solve_call st k with
  | solved _ _ run =>
      existsb
        (out_of_bounds c (final_objective_function run) (optimal_states run))
        (seq 0 (control_points c))
  | _ => false
  end.

(** The planner after the calls of a list, provided each is a bad cycle. *)
Fixpoint after_bad_cycles (st : Planner) (ks : list Call) : option Planner :=
  match ks with
  | [] => Some st
  | k :: rest =>
      if bad_cycleb st k then
        match plan_call st k with
        | Some (_, st') => after_bad_cycles st' rest
        | None => None
        end
      else None
  end.

(** The divisor [distance_for_idm] that [calculate_idm_velocity] uses on
    the given inputs. *)
Definition idm_divisor (latest_route : map.Route)
    (current_state : dynamics.VehicleStateDynamic) (latest_map : map.Map)
    (traffic_participants : dynamics.TrafficParticipantSet) : option double :=
  let state_s := map.get_s latest_route current_state in
  match closest_participant latest_route latest_map state_s
          (dynamics.participants traffic_participants) DBL_MAX with
  | None => None
  | Some distance_to_object_min =>
      Some (distance_for_idm distance_to_object_min
              (map.get_length latest_route - state_s))
  end.

(** The samples the builder keeps from a route, before the first one is
    overwritten. *)
Definition kept_samples (latest_route : map.Route)
    (current_state : dynamics.VehicleStateDynamic) : list double :=
  rs (fst (sample_center_lane (map.get_s latest_route current_state)
             (sim_time c * max_forward_speed c)
             (map.center_lane latest_route)
             {| rs := []; rxs := []; rys := []; rpsi := [] |} [] 0)).

(** The desired gap [s_star] of the IDM term, from the two distances. *)
Definition desired_gap (st : Planner)
    (current_state : dynamics.VehicleStateDynamic)
    (distance_to_object_min distance_to_goal : double) : double :=
  (if ltb distance_to_goal distance_to_object_min
   then wheelbase st ./ 2 else min_distance_to_vehicle_ahead st)
  + dynamics.vx current_state * desired_time_headway c
  + dynamics.vx current_state
    * (dynamics.vx current_state - front_vehicle_velocity c)
    ./ (2 * sqrt (max_acceleration c * max_deceleration c)).

(** The reference path at a progress: the three splines evaluated at the
    index found for it. *)
Definition reference_at (st : Planner) (progress : double)
    : double * double * double :=
  let index := findIndex progress (route_x st) in
  (splineEvaluation index progress (route_x st),
   splineEvaluation index progress (route_y st),
   splineEvaluation index progress (route_heading st)).

(** The lateral error of a state against the reference path at the
    progress of the state. *)
Definition lateral_error (st : Planner) (state : VECTOR double) : double :=
  let '(reference_x, reference_y, reference_heading) :=
    reference_at st (state STATES.S) in
  - (state STATES.X - reference_x) * sin reference_heading
  + (state STATES.Y - reference_y) * cos reference_heading.

(** The heading error: the angle of the heading relative to the one of
    the reference, from its sine and cosine. *)
Definition heading_error (st : Planner) (state : VECTOR double) : double :=
  let '(reference_x, reference_y, reference_heading) :=
    reference_at st (state STATES.S) in
  atan2 (- sin reference_heading * cos (state STATES.PSI)
         + cos reference_heading * sin (state STATES.PSI))
        (cos reference_heading * cos (state STATES.PSI)
         + sin reference_heading * sin (state STATES.PSI)).

End Observations.

(** The members a cycle decides on agree: they pass unchanged through
    everything before the validation. *)
Definition same_memory (st st' : Planner) : Prop :=
  previous_trajectory st' = previous_trajectory st
  /\ bad_counter st' = bad_counter st
  /\ options st' = options st.

(** Consecutive entries are more than 0.75 apart. *)
Fixpoint spaced (l : list double) : Prop :=
  match l with
  | a :: (b :: _) as t => 0.75 < b - a /\ spaced t
  | _ => True
  end.

(** What holds of the samples kept so far and of [previous_s] while the
    loop of the builder runs. *)
Definition sampling (l : list double) (previous_s : double) : Prop :=
  (l = [] /\ previous_s = 0)
  \/ (l <> [] /\ spaced l /\ last l 0 = previous_s /\ 0.75 < hd 0 l).

(** Strictly increasing. *)
Definition increasing (l : list double) : Prop :=
  forall i j, (i < j < List.length l)%nat -> at_ l i < at_ l j.

(** The minimum of a bound and further bounds. *)
Definition minimum (first : double) (others : list double) : double :=
  fold_left Qmin others first.




(** ** Instances on which the functions are run

    Rational stand-ins for the interfaces, used to evaluate the planner on
    concrete inputs.  What is proved for every interface does not depend on
    them. *)

Module Example.

(** Newton's iteration for the square root. *)
Fixpoint newton_sqrt (n : nat) (a g : double) : double :=
  match n with
  | O => g
  | S k => newton_sqrt k a (Qred ((g + a / g) / 2))
  end.

Definition series_atan (t : double) : double := t - t * t * t / 3.

(** Truncated series; a quotient by zero is given the value 0. *)
Definition series : cmath :=
  {| cos := fun a => 1 - a * a / 2 + a * a * a * a / 24;
     sin := fun a => a - a * a * a / 6;
     tan := fun a => a + a * a * a / 3;
     atan2 := fun b a =>
       if ltb 0 a then series_atan (b / a)
       else if ltb 0 b then 1.5708 else if ltb b 0 then - 1.5708 else 0;
     sqrt := fun a => if ltb 0 a then newton_sqrt 4 a ((1 + a) / 2) else 0;
     div_by_zero := fun _ => 0 |}.

(** The same, a quotient by zero being given a large value. *)
Definition series_large : cmath :=
  {| cos := @cos series; sin := @sin series; tan := @tan series;
     atan2 := @atan2 series; sqrt := @sqrt series;
     div_by_zero := fun _ => 1000000 |}.

(** The slopes between consecutive samples; the last one is repeated. *)
Fixpoint slopes (s v : list double) : list double :=
  match s, v with
  | s0 :: (s1 :: _) as s', v0 :: (v1 :: _) as v' =>
      let d := Qred ((v1 - v0) / (s1 - s0)) in
      match s', v' with
      | [_], _ | _, [_] => [d; d]
      | _, _ => d :: slopes s' v'
      end
  | _, _ => []
  end.

(** A piecewise-linear interpolation in place of the smoothing spline:
    the breakpoints are the samples, the coefficients their values. *)
Definition linear : PiecewisePolynomial :=
  {| CubicSplineSmoother := fun s v _ _ => {| breaks := s; coefficients := [v] |};
     CubicSplineEvaluation := fun s p =>
       let v := nth 0 (coefficients p) [] in (v, slopes (breaks p) v);
     findIndex := fun a p =>
       Z.of_nat (List.length (filter (fun b => negb (ltb a b)) (breaks p)) - 1);
     splineEvaluation := fun i a p =>
       let v := nth 0 (coefficients p) [] in
       at_ v (Z.to_nat i)
       + at_ (slopes (breaks p) v) (Z.to_nat i) * (a - at_ (breaks p) (Z.to_nat i));
     distance_2d := fun p q =>
       @sqrt series
         ((math.x p - math.pose_x q) * (math.x p - math.pose_x q)
          + (math.y p - math.pose_y q) * (math.y p - math.pose_y q)) |}.

(** A solver that holds the initial state over the horizon. *)
Definition hold (c : Constants) : OptiNLC_Solver :=
  {| solve := fun ocp t0 initial_state initial_input =>
       {| optimal_states := fun j => initial_state (j mod state_size)%nat;
          sample_times := fun i =>
            t0 + inject_Z (Z.of_nat i) * timeStep (ocp_options ocp);
          final_objective_function :=
            ObjectiveFunction ocp initial_state initial_input;
          model_calls := [(initial_state, initial_input)] |} |}.


(** Constants of the kind the header gives. *)
Definition constants : Constants :=
  {| control_points := 30;
     sim_time := 3;
     max_forward_speed := 13.6;
     max_reverse_speed := - 2;
     max_steering_velocity := 0.5;
     max_steering_acceleration := 1.5;
     max_steering_angle := 0.7;
     threshold_bad_output := 20;
     min_distance_in_route := 30;
     position_smoothing_factor := 0.9;
     heading_smoothing_factor := 0.9;
     lookahead_time := 3;
     safe_index := 2;
     lateral_acceleration := 2;
     minimum_velocity_in_curve := 3;
     desired_time_headway := 3;
     front_vehicle_velocity := 0;
     max_acceleration := 2;
     max_deceleration := 2.5 |}.

(** The same with a minimum route length beyond what the horizon needs. *)
Definition constants_long : Constants :=
  {| control_points := control_points constants;
     sim_time := sim_time constants;
     max_forward_speed := max_forward_speed constants;
     max_reverse_speed := max_reverse_speed constants;
     max_steering_velocity := max_steering_velocity constants;
     max_steering_acceleration := max_steering_acceleration constants;
     max_steering_angle := max_steering_angle constants;
     threshold_bad_output := threshold_bad_output constants;
     min_distance_in_route := 50;
     position_smoothing_factor := position_smoothing_factor constants;
     heading_smoothing_factor := heading_smoothing_factor constants;
     lookahead_time := lookahead_time constants;
     safe_index := safe_index constants;
     lateral_acceleration := lateral_acceleration constants;
     minimum_velocity_in_curve := minimum_velocity_in_curve constants;
     desired_time_headway := desired_time_headway constants;
     front_vehicle_velocity := front_vehicle_velocity constants;
     max_acceleration := max_acceleration constants;
     max_deceleration := max_deceleration constants |}.

(** A newly constructed planner: no previous trajectory, no bad cycle
    counted. *)
Definition fresh : Planner :=
  @OptiNLCTrajectoryPlanner series constants
    {| options :=
         {| intermediateIntegration := 0; OptiNLC_ACC := 0;
            maxNumberOfIteration := 0; OSQP_verbose := false;
            OSQP_max_iter := 0; OptiNLC_time_limit := 0; perturbation := 0;
            timeStep := 0; debugPrint := false |};
       wheelbase := 2.7;
       lateral_weight := 0.01;
       heading_weight := 0.06;
       maximum_velocity := 5;
       min_distance_to_vehicle_ahead := 10;
       route_x := PiecewiseStruct0;
       route_y := PiecewiseStruct0;
       route_heading := PiecewiseStruct0;
       route_to_follow := {| rs := []; rxs := []; rys := []; rpsi := [] |};
       reference_velocity := 5;
       tau := 2.5;
       distance_to_goal := 100;
       bad_condition := false;
       bad_counter := 0;
       previous_trajectory := {| dynamics.states := [] |} |}.

Definition point (a : double) : map.MapPoint :=
  {| map.x := a; map.y := 0; map.s := a; map.parent_id := 1 |}.

(** A straight route along the x axis with a sample at each of the given
    arc lengths. *)
Definition straight (samples : list double) (length : double) : map.Route :=
  {| map.center_lane := map (fun a => (a, point a)) samples;
     map.get_s := fun v => dynamics.x v;
     map.get_s_of_point := fun p => math.x p;
     map.get_pose_at_s := fun a =>
       {| math.pose_x := a; math.pose_y := 0; math.pose_yaw := 0 |};
     map.get_map_point_at_s := point;
     map.get_length := length |}.

(** Four metres of road, a sample every metre. *)
Definition short_route : map.Route := straight [0; 1; 2; 3; 4] 4.

(** Twenty metres of road, a sample every five metres. *)
Definition road : map.Route := straight [0; 5; 10; 15; 20] 20.

(** A route without samples. *)
Definition empty_route : map.Route := straight [] 0.

(** One lane, 3.5 wide, limited to 8.3. *)
Definition one_lane : map.Map :=
  {| map.lanes := fun id =>
       if (id =? 1)%Z then Some {| map.get_width := fun _ => 3.5 |} else None;
     map.get_lane_speed_limit := fun _ => 8.3;
     map.get_nearest_point := fun v _ => Some (point (dynamics.x v)) |}.

(** The vehicle on the x axis at [a], driving at [v], at time [t]. *)
Definition vehicle (a v t : double) : dynamics.VehicleStateDynamic :=
  {| dynamics.x := a; dynamics.y := 0; dynamics.yaw_angle := 0;
     dynamics.vx := v; dynamics.steering_angle := 0;
     dynamics.steering_rate := 0; dynamics.ax := 0; dynamics.yaw_rate := 0;
     dynamics.time := t |}.

Definition nobody : dynamics.TrafficParticipantSet :=
  {| dynamics.participants := [] |}.

(** One participant standing on the route at [a]. *)
Definition one_at (a : double) : dynamics.TrafficParticipantSet :=
  {| dynamics.participants := [(7%Z, {| dynamics.state := vehicle a 0 0 |})] |}.

Definition readings (a : double) : Clock :=
  {| builder_start := a; builder_end := a + 0.001;
     cycle_start := a + 0.002; cycle_end := a + 0.05 |}.

(** A call on the short route at speed [v] and time [t]. *)
Definition call (v t : double) : Call :=
  {| latest_route := short_route;
     current_state := vehicle 0 v t;
     latest_map := one_lane;
     traffic_participants := nobody;
     clock := readings t |}.

(** A call at a speed inside the bounds, and one at a speed the bounds
    exclude: the solver [hold] keeps the speed over the horizon. *)
Definition good_call (t : double) : Call := call 1 t.
Definition bad_call (t : double) : Call := call 20 t.

(** A call at a speed the bounds exclude, a participant standing on the
    route three metres ahead. *)
Definition bad_call_in_traffic (t : double) : Call :=
  {| latest_route := short_route;
     current_state := vehicle 0 20 t;
     latest_map := one_lane;
     traffic_participants := one_at 3;
     clock := readings t |}.

(** A call without a route. *)
Definition empty_call : Call :=
  {| latest_route := empty_route;
     current_state := vehicle 0 1 0;
     latest_map := one_lane;
     traffic_participants := nobody;
     clock := readings 0 |}.

Definition plan (st : Planner) (k : Call) :=
  @plan_call series linear (hold constants) constants st k.

(** The planner after the calls of a list, the trajectories dropped. *)
Fixpoint after (st : Planner) (ks : list Call) : option Planner :=
  match ks with
  | [] => Some st
  | k :: rest =>
      match plan st k with
      | Some (_, st') => after st' rest
      | None => None
      end
  end.

(** A road that runs north: the x coordinate of its samples is constant. *)
Definition north_point (a : double) : map.MapPoint :=
  {| map.x := 0; map.y := a; map.s := a; map.parent_id := 1 |}.

Definition north_route : map.Route :=
  {| map.center_lane := map (fun a => (a, north_point a)) [0; 1; 2; 3; 4; 5];
     map.get_s := fun v => dynamics.y v;
     map.get_s_of_point := fun p => math.y p;
     map.get_pose_at_s := fun a =>
       {| math.pose_x := 0; math.pose_y := a; math.pose_yaw := 1.5708 |};
     map.get_map_point_at_s := north_point;
     map.get_length := 5 |}.

(** A map that has no lane at all. *)
Definition no_lanes : map.Map :=
  {| map.lanes := fun _ => None;
     map.get_lane_speed_limit := fun _ => 8.3;
     map.get_nearest_point := fun _ _ => None |}.

(** A call on the short route with a participant whose lane is unknown. *)
Definition call_unknown_lane : Call :=
  {| latest_route := short_route;
     current_state := vehicle 0 1 0;
     latest_map := no_lanes;
     traffic_participants := one_at 3;
     clock := readings 0 |}.

(** The same participant and map on the road that runs north, where the
    builder leaves the heading spline empty. *)
Definition call_north_unknown_lane : Call :=
  {| latest_route := north_route;
     current_state := vehicle 0 1 0;
     latest_map := no_lanes;
     traffic_participants := one_at 3;
     clock := readings 0 |}.

(** Five bad calls in a row, and the planner they leave. *)
Definition five_bad_calls : list Call := map bad_call [0; 1; 2; 3; 4].

Definition after_five : Planner :=
  match after fresh five_bad_calls with
  | Some st => st
  | None => fresh
  end.

(** The planner after one good call. *)
Definition after_good : Planner :=
  match after fresh [good_call 0] with
  | Some st => st
  | None => fresh
  end.

(** A road that bends to the left along [y = x * x / 10], a participant
    standing three metres ahead, and the planner after a first call there:
    it holds the reference path built on the bend. *)
Definition bend_point (a : double) : map.MapPoint :=
  {| map.x := a; map.y := a * a / 10; map.s := a; map.parent_id := 1 |}.

Definition bend : map.Route :=
  {| map.center_lane := map (fun a => (a, bend_point a)) [0; 1; 2; 3; 4];
     map.get_s := fun v => dynamics.x v;
     map.get_s_of_point := fun p => math.x p;
     map.get_pose_at_s := fun a =>
       {| math.pose_x := a; math.pose_y := a * a / 10; math.pose_yaw := a / 5 |};
     map.get_map_point_at_s := bend_point;
     map.get_length := 4 |}.

Definition call_on_bend : Call :=
  {| latest_route := bend;
     current_state := vehicle 0 1 0;
     latest_map := one_lane;
     traffic_participants := one_at 3;
     clock := readings 0 |}.

Definition after_bend : Planner :=
  match after fresh [call_on_bend] with
  | Some st => st
  | None => fresh
  end.

(** A state and an input of the dynamic model. *)
Definition model_state : VECTOR double := of_list [0; 0.5; 0; 1; 0; 0; 1; 0].
Definition model_input : VECTOR double := of_list [0.1].

End Example.

(** ** Further notions *)

(** The value a member has after the loop of [set_parameters] over
    [params], when [name] is the name that assigns it and [old] its value
    before. *)
Fixpoint assigned (name : string) (params : list (string * double))
    (old : double) : double :=
  match params with
  | [] => old
  | (n, v) :: rest => assigned name rest (if String.eqb n name then v else old)
  end.

(** The member a parameter name stands for, if any. *)
Definition tunable (name : string) (st : Planner) : option double :=
  if String.eqb name "wheel_base" then Some (wheelbase st)
  else if String.eqb name "lateral_weight" then Some (lateral_weight st)
  else if String.eqb name "heading_weight" then Some (heading_weight st)
  else if String.eqb name "maximum_velocity" then Some (maximum_velocity st)
  else if String.eqb name "min_distance_to_vehicle_ahead"
       then Some (min_distance_to_vehicle_ahead st)
  else None.

(** The members [plan_trajectory] works with but is not meant to change:
    the options and the five parameters. *)
Definition same_configuration (st st' : Planner) : Prop :=
  options st' = options st
  /\ wheelbase st' = wheelbase st
  /\ lateral_weight st' = lateral_weight st
  /\ heading_weight st' = heading_weight st
  /\ maximum_velocity st' = maximum_velocity st
  /\ min_distance_to_vehicle_ahead st' = min_distance_to_vehicle_ahead st.

(** The members that carry the fallback policy from cycle to cycle. *)
Definition same_fallback (st st' : Planner) : Prop :=
  previous_trajectory st' = previous_trajectory st
  /\ bad_counter st' = bad_counter st
  /\ bad_condition st' = bad_condition st.

(** Order on the extended doubles. *)
Definition bound_le (a b : bound) : Prop :=
  match a, b with
  | neg_infinity, _ => True
  | _, infinity => True
  | finite x, finite y => x <= y
  | _, _ => False
  end.

Section FurtherObservations.

Context {m : cmath} {pp : PiecewisePolynomial} {solver : OptiNLC_Solver}.
Variable c : Constants.

(** The planner after the calls of a list; [None] when one of them does
    not return. *)
Fixpoint after_calls (st : Planner) (ks : list Call) : option Planner :=
  match ks with
  | [] => Some st
  | k :: rest =>
      match plan_call c st k with
      | Some (_, st') => after_calls st' rest
      | None => None
      end
  end.

(** The planner as [setup_reference_velocity] finds it in a cycle: after
    the builder and [setup_reference_route]. *)
Definition at_reference_velocity (st : Planner) (k : Call) : Planner :=
  let '(reference_route, st) :=
    setup_optimizer_parameters_using_route c st (latest_route k)
      (current_state k) (clock k) in
  setup_reference_route st reference_route.

(** The position of a participant, its distance along the route relative
    to the vehicle, and whether its offset from the route is below the
    width of the lane there ([None] for a lane the map does not have). *)
Definition position_of (p : dynamics.TrafficParticipant) : math.Point2d :=
  {| math.x := dynamics.x (dynamics.state p);
     math.y := dynamics.y (dynamics.state p) |}.

Definition relative_distance (r : map.Route) (state_s : double)
    (p : dynamics.TrafficParticipant) : double :=
  map.get_s_of_point r (position_of p) - state_s.

Definition lane_of (r : map.Route) (mp : map.Map)
    (p : dynamics.TrafficParticipant) : option map.Lane :=
  map.lanes mp
    (map.parent_id
       (map.get_map_point_at_s r (map.get_s_of_point r (position_of p)))).

Definition within_lane (r : map.Route) (mp : map.Map)
    (p : dynamics.TrafficParticipant) : option bool :=
  match lane_of r mp p with
  | None => None
  | Some lane =>
      Some (ltb (distance_2d (position_of p)
                   (map.get_pose_at_s r (map.get_s_of_point r (position_of p))))
                (map.get_width lane
                   (map.s (map.get_map_point_at_s r
                             (map.get_s_of_point r (position_of p))))))
  end.

(** What the loop of the builder leaves: the samples kept and the
    weights. *)
Definition sampled (latest_route : map.Route)
    (current_state : dynamics.VehicleStateDynamic) : RouteToFollow * list double :=
  sample_center_lane (map.get_s latest_route current_state)
    (sim_time c * max_forward_speed c)
    (map.center_lane latest_route)
    {| rs := []; rxs := []; rys := []; rpsi := [] |} [] 0.

(** The splines the builder fits on the positions, and the derivatives of
    the first at the samples. *)
Definition position_splines (latest_route : map.Route)
    (current_state : dynamics.VehicleStateDynamic)
    : PiecewiseStruct * PiecewiseStruct :=
  let '(r, w) := sampled latest_route current_state in
  let s := assign (rs r) 0 0 in
  (CubicSplineSmoother s (rxs r) w (position_smoothing_factor c),
   CubicSplineSmoother s (rys r) w (position_smoothing_factor c)).

Definition x_derivatives (latest_route : map.Route)
    (current_state : dynamics.VehicleStateDynamic) : list double :=
  snd (CubicSplineEvaluation
         (assign (rs (fst (sampled latest_route current_state))) 0 0)
         (fst (position_splines latest_route current_state))).

Definition y_derivatives (latest_route : map.Route)
    (current_state : dynamics.VehicleStateDynamic) : list double :=
  snd (CubicSplineEvaluation
         (assign (rs (fst (sampled latest_route current_state))) 0 0)
         (snd (position_splines latest_route current_state))).

(** A kept sample comes from the route: coordinates [a], [b] are those of
    a point of the centre lane more than 0.75 ahead of the vehicle and no
    further than the length required, and [progress] is its distance. *)
Definition from_route (latest_route : map.Route) (state_s : double)
    (progress a b : double) : Prop :=
  exists s point,
    In (s, point) (map.center_lane latest_route)
    /\ progress = s - state_s
    /\ a = map.x point /\ b = map.y point
    /\ 0.75 < progress <= sim_time c * max_forward_speed c.

(** What the loop keeps: vectors of one length, unit weights, and in every
    place a point of the route with its distance. *)
Definition kept_from (route : map.Route) (state_s : double)
    (r : RouteToFollow) (w : list double) : Prop :=
  List.length (rxs r) = List.length (rs r)
  /\ List.length (rys r) = List.length (rs r)
  /\ List.length w = List.length (rs r)
  /\ Forall (fun a => a = 1) w
  /\ forall i, (i < List.length (rs r))%nat ->
       from_route route state_s (at_ (rs r) i) (at_ (rxs r) i) (at_ (rys r) i).

End FurtherObservations.

(** ** Statements that the code does not satisfy as they stand *)

(** Every bad cycle returns the previous trajectory, keeps it, and leaves
    the counter one above its value at the call. *)
Definition bad_cycle_counts_one : Prop :=
  forall (m : cmath) (pp : PiecewisePolynomial) (solver : OptiNLC_Solver)
         (c : Constants) (st : Planner) (k : Call),
    (0 < control_points c)%nat ->
    bad_cycle c st k ->
    exists st',
      plan_call c st k = Some (previous_trajectory st, st')
      /\ previous_trajectory st' = previous_trajectory st
      /\ bad_counter st' = (bad_counter st + 1)%Z.

(** After five consecutive bad cycles a sixth bad cycle has its solution
    returned and stored as the previous trajectory. *)
Definition sixth_bad_cycle_accepted : Prop :=
  forall (m : cmath) (pp : PiecewisePolynomial) (solver : OptiNLC_Solver)
         (c : Constants) (st st5 st1 : Planner) (ks : list Call) (k : Call)
         (start_time : double) (run : SolverRun),
    (0 < control_points c)%nat ->
    bad_counter st = 0%Z ->
    List.length ks = 5%nat ->
    bad_cycles c st ks st5 ->
    solve_call c st5 k = solved st1 start_time run ->
    bad_result c run ->
    exists st6,
      plan_call c st5 k
      = Some (planned_trajectory c st1 (optimal_states run) (sample_times run), st6)
      /\ previous_trajectory st6
         = planned_trajectory c st1 (optimal_states run) (sample_times run).

(** The trajectory returned is empty exactly when there is no route; a
    fallback after a bad solve is not empty; without a route the previous
    trajectory is untouched. *)
Definition empty_only_without_route : Prop :=
  forall (m : cmath) (pp : PiecewisePolynomial) (solver : OptiNLC_Solver)
         (c : Constants) (st st' : Planner) (k : Call) (t : dynamics.Trajectory),
    (0 < control_points c)%nat ->
    plan_call c st k = Some (t, st') ->
    (dynamics.states t = [] <-> no_route_cycle c st k)
    /\ (bad_cycle c st k -> dynamics.states t <> [])
    /\ (no_route_cycle c st k -> previous_trajectory st' = previous_trajectory st).


(** A route shorter than the horizon times the maximal forward speed gives
    a reference path without breakpoints. *)
Definition short_route_rejected : Prop :=
  forall (m : cmath) (pp : PiecewisePolynomial) (c : Constants) (st : Planner)
         (latest_route : map.Route) (current_state : dynamics.VehicleStateDynamic)
         (clock : Clock),
    map.get_length latest_route < sim_time c * max_forward_speed c ->
    breaks (rx (fst (setup_optimizer_parameters_using_route c st latest_route
                       current_state clock))) = [].

(** * Properties *)

(** ** Comparisons *)

Lemma ltb_lt (a b : double) : ltb a b = true <-> a < b.
Proof.
  unfold ltb. rewrite Qlt_alt. destruct (a ?= b); split; congruence.
Qed.

Lemma ltb_ge (a b : double) : ltb a b = false <-> b <= a.
Proof.
  split; intro H.
  - apply Qnot_lt_le. intro L. apply ltb_lt in L. congruence.
  - destruct (ltb a b) eqn:E; [|reflexivity].
    apply ltb_lt in E. exfalso. revert E. apply Qle_not_lt, H.
Qed.

Lemma gtb_gt (a b : double) : gtb a b = true <-> b < a.
Proof. apply ltb_lt. Qed.

Lemma eqb_eq (a b : double) : eqb a b = true <-> a == b.
Proof. apply Qeq_bool_iff. Qed.

Lemma std_min_Qmin (a b : double) : std_min a b == Qmin a b.
Proof.
  unfold std_min. destruct (ltb b a) eqn:E.
  - apply ltb_lt in E. symmetry. apply Q.min_r. lra.
  - apply ltb_ge in E. symmetry. apply Q.min_l. exact E.
Qed.

Lemma std_max_ge_r (a b : double) : b <= std_max a b.
Proof.
  unfold std_max. destruct (ltb a b) eqn:E.
  - lra.
  - apply ltb_ge in E. exact E.
Qed.

(** ** Vectors *)

Lemma vset_other {A} (v : VECTOR A) (i j : nat) (a : A) :
  j <> i -> vset v i a j = v j.
Proof. intro H. unfold vset. apply Nat.eqb_neq in H. rewrite H. reflexivity. Qed.

Lemma assign_length {A} (v : list A) (i : nat) (a : A) :
  List.length (assign v i a) = List.length v.
Proof.
  revert i. induction v as [|h t IH]; intros [|i]; simpl; auto.
Qed.

Lemma nth_assign_same {A} (v : list A) (i : nat) (a d : A) :
  (i < List.length v)%nat -> nth i (assign v i a) d = a.
Proof.
  revert i. induction v as [|h t IH]; intros [|i]; simpl; intro H; try lia; auto.
  apply IH. lia.
Qed.

Lemma nth_assign_other {A} (v : list A) (i j : nat) (a d : A) :
  j <> i -> nth j (assign v i a) d = nth j v d.
Proof.
  revert i j. induction v as [|h t IH]; intros [|i] [|j]; simpl; intro H;
    try congruence; auto.
Qed.

(** ** The planning cycle *)

Ltac case_match :=
  match goal with
  | |- context [match ?x with _ => _ end] => destruct x eqn:?
  | H : context [match ?x with _ => _ end] |- _ => destruct x eqn:?
  end.

Section Cycle.

Context {m : cmath} {pp : PiecewisePolynomial} {solver : OptiNLC_Solver}.
Variable c : Constants.

Lemma same_memory_refl st : same_memory st st.
Proof. repeat split. Qed.

Lemma builder_memory st r cs clk :
  same_memory st (snd (setup_optimizer_parameters_using_route c st r cs clk)).
Proof.
  unfold setup_optimizer_parameters_using_route.
  repeat case_match; simpl; repeat split.
Qed.

Lemma idm_memory st r cs mp tp v st' :
  calculate_idm_velocity c st r cs mp tp = Some (v, st') -> same_memory st st'.
Proof.
  unfold calculate_idm_velocity. intro H. case_match; [|discriminate].
  inversion H. repeat split.
Qed.

Lemma reference_velocity_memory st r cs mp tp st' :
  setup_reference_velocity c st r cs mp tp = returns st' -> same_memory st st'.
Proof.
  unfold setup_reference_velocity. intro H.
  destruct (curvature_velocity _ _ _) as [cv|]; [|discriminate].
  destruct (calculate_idm_velocity _ _ _ _ _ _) as [[v st1]|] eqn:E; [|discriminate].
  apply idm_memory in E. destruct E as (E1 & E2 & E3). simpl in E1, E2, E3.
  case_match; inversion H; subst; repeat split; simpl; assumption.
Qed.

Lemma solve_memory st k :
  match solve_call c st k with
  | no_route st1 => same_memory st st1
  | out_of_range => True
  | undefined_access => True
  | solved st1 _ _ => same_memory st st1
  end.
Proof.
  unfold solve_call, plan_trajectory_solve.
  pose proof (builder_memory st (latest_route k) (current_state k) (clock k)) as B.
  destruct (setup_optimizer_parameters_using_route _ _ _ _ _) as [rr st0].
  simpl in B. destruct B as (B1 & B2 & B3).
  destruct (_ <? 1)%nat.
  - repeat split; assumption.
  - destruct (setup_reference_velocity _ _ _ _ _ _) as [st2| |] eqn:E;
      [|exact I|exact I].
    apply reference_velocity_memory in E. destruct E as (E1 & E2 & E3).
    simpl in E1, E2, E3. repeat split; simpl; congruence.
Qed.

(** *** The scan *)

Lemma scan_spec obj x idx st :
  scan c obj x idx st
  = if existsb (out_of_bounds c obj x) idx
    then with_bad_counter (with_bad_condition st true) (bad_counter st + 1)
    else st.
Proof.
  induction idx as [|i idx IH]; simpl; [reflexivity|].
  destruct (out_of_bounds c obj x i); simpl; [reflexivity|exact IH].
Qed.

Lemma out_of_bounds_iff obj x i :
  out_of_bounds c obj x i = true <->
  threshold_bad_output c < obj
  \/ max_forward_speed c < x (i * state_size + STATES.V)%nat
  \/ x (i * state_size + STATES.V)%nat < max_reverse_speed c
  \/ max_steering_velocity c < Qabs (x (i * state_size + STATES.dDELTA)%nat).
Proof.
  unfold out_of_bounds, std_abs.
  rewrite !orb_true_iff, !gtb_gt, ltb_lt. tauto.
Qed.

Lemma bad_result_scan run :
  (0 < control_points c)%nat ->
  bad_result c run <->
  existsb (out_of_bounds c (final_objective_function run) (optimal_states run))
          (seq 0 (control_points c)) = true.
Proof.
  intro P. rewrite existsb_exists. unfold bad_result. split.
  - intros [H | (i & Hi & H)].
    + exists 0%nat. split; [apply in_seq; lia|].
      apply out_of_bounds_iff. left. exact H.
    + exists i. split; [apply in_seq; lia|].
      apply out_of_bounds_iff. right. exact H.
  - intros (i & Hi & H). apply in_seq in Hi. apply out_of_bounds_iff in H.
    destruct H as [H | H]; [left; exact H|].
    right. exists i. split; [lia|exact H].
Qed.

Lemma bad_result_dec run :
  (0 < control_points c)%nat -> bad_result c run \/ ~ bad_result c run.
Proof.
  intro P. rewrite (bad_result_scan run P).
  destruct (existsb _ _); [left; reflexivity|right; discriminate].
Qed.

(** The validation of a bad result. *)
Lemma validate_bad st start_time run clk :
  (0 < control_points c)%nat ->
  bad_result c run ->
  plan_trajectory_validate c st start_time run clk
  = (previous_trajectory st,
     with_bad_counter
       (with_bad_condition
          (if (bad_counter st >? 4)%Z
           then with_bad_counter (with_bad_condition st false) 0
           else with_bad_condition st false) true)
       ((if (bad_counter st >? 4)%Z then 0 else bad_counter st) + 1)).
Proof.
  intros P B. apply (bad_result_scan run P) in B.
  unfold plan_trajectory_validate. rewrite scan_spec, B.
  destruct (bad_counter st >? 4)%Z eqn:E; simpl; rewrite E; reflexivity.
Qed.

(** The validation of a result that is not bad. *)
Lemma validate_good st start_time run clk :
  (0 < control_points c)%nat ->
  ~ bad_result c run ->
  plan_trajectory_validate c st start_time run clk
  = (planned_trajectory c st (optimal_states run) (sample_times run),
     with_bad_counter
       (with_previous_trajectory
          (if (bad_counter st >? 4)%Z
           then with_bad_counter (with_bad_condition st false) 0
           else with_bad_condition st false)
          (planned_trajectory c st (optimal_states run) (sample_times run))) 0).
Proof.
  intros P B. rewrite (bad_result_scan run P) in B.
  apply not_true_is_false in B.
  unfold plan_trajectory_validate. rewrite scan_spec, B. simpl.
  destruct (bad_counter st >? 4)%Z eqn:E; simpl.
  - reflexivity.
  - assert ((bad_counter st <? 5)%Z = true) as -> by lia.
    reflexivity.
Qed.

Lemma plan_call_solved st k st1 start_time run :
  solve_call c st k = solved st1 start_time run ->
  plan_call c st k = Some (plan_trajectory_validate c st1 start_time run (clock k)).
Proof.
  unfold plan_call, plan_trajectory, solve_call. intros ->. reflexivity.
Qed.

Lemma plan_call_no_route st k st1 :
  solve_call c st k = no_route st1 ->
  plan_call c st k = Some ({| dynamics.states := [] |}, st1).
Proof.
  unfold plan_call, plan_trajectory, solve_call. intros ->. reflexivity.
Qed.

End Cycle.

(** ** The fallback policy *)

Section Fallback.

Context {m : cmath} {pp : PiecewisePolynomial} {solver : OptiNLC_Solver}.
Variable c : Constants.

Lemma planned_trajectory_length st x t :
  List.length (dynamics.states (planned_trajectory c st x t)) = control_points c.
Proof.
  unfold planned_trajectory. simpl.
  rewrite !assign_length, length_map, length_seq. reflexivity.
Qed.

Lemma planned_trajectory_not_empty st x t :
  (0 < control_points c)%nat ->
  dynamics.states (planned_trajectory c st x t) <> [].
Proof.
  intros P E. pose proof (planned_trajectory_length st x t) as L.
  rewrite E in L. simpl in L. lia.
Qed.

(** What a bad cycle does, in terms of the planner at the call. *)
Lemma bad_cycle_step st k :
  (0 < control_points c)%nat ->
  bad_cycle c st k ->
  exists st',
    plan_call c st k = Some (previous_trajectory st, st')
    /\ previous_trajectory st' = previous_trajectory st
    /\ bad_counter st'
       = ((if (bad_counter st >? 4)%Z then 0 else bad_counter st) + 1)%Z
    /\ options st' = options st.
Proof.
  intros P (st1 & t0 & run & S & B).
  pose proof (solve_memory c st k) as M. rewrite S in M.
  destruct M as (M1 & M2 & M3).
  rewrite (plan_call_solved c st k st1 t0 run S).
  rewrite (validate_bad c st1 t0 run (clock k) P B).
  rewrite M1, M2. eexists. split; [reflexivity|].
  simpl. destruct (bad_counter st >? 4)%Z; simpl; auto.
Qed.

(** (C1, amended) A bad cycle returns the stored previous trajectory and
    keeps it; the counter ends one above the value the reset check left:
    one above its value at the call when that was at most 4, and at 1 when
    it was above 4. *)
Theorem bad_cycle_returns_previous (st : Planner) (k : Call) :
  (0 < control_points c)%nat ->
  bad_cycle c st k ->
  exists st',
    plan_call c st k = Some (previous_trajectory st, st')
    /\ previous_trajectory st' = previous_trajectory st
    /\ ((bad_counter st <= 4)%Z -> bad_counter st' = (bad_counter st + 1)%Z)
    /\ ((bad_counter st > 4)%Z -> bad_counter st' = 1%Z).
Proof.
  intros P B. destruct (bad_cycle_step st k P B) as (st' & E & T & N & _).
  exists st'. repeat split; try assumption; intro H; rewrite N.
  - assert ((bad_counter st >? 4)%Z = false) as -> by lia. reflexivity.
  - assert ((bad_counter st >? 4)%Z = true) as -> by lia. reflexivity.
Qed.

(** Bad cycles in a row count up as long as the counter stays within 5. *)
Lemma bad_cycles_count st ks st' :
  (0 < control_points c)%nat ->
  bad_cycles c st ks st' ->
  (bad_counter st + Z.of_nat (List.length ks) <= 5)%Z ->
  bad_counter st' = (bad_counter st + Z.of_nat (List.length ks))%Z
  /\ previous_trajectory st' = previous_trajectory st.
Proof.
  intros P H. induction H as [st|st k t st1 ks st2 B E R IH]; intro L.
  - simpl. split; [lia|reflexivity].
  - simpl List.length in L.
    destruct (bad_cycle_step st k P B) as (sta & Ea & Ta & Na & _).
    rewrite E in Ea. inversion Ea; subst sta.
    assert ((bad_counter st >? 4)%Z = false) as G by lia.
    rewrite G in Na.
    destruct IH as (I1 & I2); [lia|].
    simpl List.length. split; [lia|congruence].
Qed.

(** (C2, amended) Five bad cycles in a row from a counter at 0 leave it
    at 5 and the previous trajectory as it was.  In the cycle that follows
    the counter is set back to 0 before the scan: if that cycle is bad as
    well, it returns the stored previous trajectory once more, keeps it,
    and ends with the counter at 1; its solution is returned and stored
    only if it is not bad, and the counter then ends at 0. *)
Theorem reset_after_five_bad_cycles (st st5 : Planner) (ks : list Call) :
  (0 < control_points c)%nat ->
  bad_counter st = 0%Z ->
  List.length ks = 5%nat ->
  bad_cycles c st ks st5 ->
  bad_counter st5 = 5%Z
  /\ previous_trajectory st5 = previous_trajectory st
  /\ forall k st1 start_time run,
       solve_call c st5 k = solved st1 start_time run ->
       (bad_result c run ->
        exists st6,
          plan_call c st5 k = Some (previous_trajectory st, st6)
          /\ previous_trajectory st6 = previous_trajectory st
          /\ bad_counter st6 = 1%Z)
       /\ (~ bad_result c run ->
           exists st6,
             plan_call c st5 k
             = Some (planned_trajectory c st1 (optimal_states run)
                       (sample_times run), st6)
             /\ previous_trajectory st6
                = planned_trajectory c st1 (optimal_states run) (sample_times run)
             /\ bad_counter st6 = 0%Z).
Proof.
  intros P Z0 L5 H.
  destruct (bad_cycles_count st ks st5 P H) as (N & T); [rewrite Z0, L5; lia|].
  rewrite Z0, L5 in N. simpl in N.
  split; [exact N|]. split; [exact T|].
  intros k st1 t0 run S. split; intro B.
  - assert (bad_cycle c st5 k) as BC by (exists st1, t0, run; auto).
    destruct (bad_cycle_step st5 k P BC) as (st6 & E & T6 & N6 & _).
    exists st6. rewrite <- T. repeat split; try assumption.
    rewrite N6, N. reflexivity.
  - rewrite (plan_call_solved c st5 k st1 t0 run S).
    rewrite (validate_good c st1 t0 run (clock k) P B).
    eexists. split; [reflexivity|]. split; reflexivity.
Qed.

(** (C3, amended) Of every call that returns: the trajectory is empty
    without a route and, apart from that, exactly when a bad solve falls
    back on a previous trajectory that is still empty; the fallback after
    a bad solve is the stored previous trajectory; without a route the
    previous trajectory is untouched; and a previous trajectory that is
    not empty stays so. *)
Theorem empty_trajectory_cases (st st' : Planner) (k : Call)
    (t : dynamics.Trajectory) :
  (0 < control_points c)%nat ->
  plan_call c st k = Some (t, st') ->
  (dynamics.states t = [] <->
   no_route_cycle c st k
   \/ (bad_cycle c st k /\ dynamics.states (previous_trajectory st) = []))
  /\ (bad_cycle c st k -> t = previous_trajectory st)
  /\ (no_route_cycle c st k -> previous_trajectory st' = previous_trajectory st)
  /\ (dynamics.states (previous_trajectory st) <> [] ->
      dynamics.states (previous_trajectory st') <> []).
Proof.
  intros P R.
  pose proof (solve_memory c st k) as M.
  unfold no_route_cycle, bad_cycle.
  destruct (solve_call c st k) as [st1| | |st1 t0 run] eqn:S.
  - destruct M as (M1 & M2 & M3).
    rewrite (plan_call_no_route c st k st1 S) in R. inversion R; subst.
    split; [|split; [|split]].
    + split; [intros _; left; exists st'; reflexivity|reflexivity].
    + intros (s & t & r & E & _). discriminate.
    + intros _. exact M1.
    + rewrite M1. auto.
  - unfold plan_call, plan_trajectory in R. unfold solve_call in S.
    rewrite S in R. discriminate.
  - unfold plan_call, plan_trajectory in R. unfold solve_call in S.
    rewrite S in R. discriminate.
  - destruct M as (M1 & M2 & M3).
    rewrite (plan_call_solved c st k st1 t0 run S) in R.
    destruct (bad_result_dec c run P) as [B | B].
    + rewrite (validate_bad c st1 t0 run (clock k) P B) in R. rewrite M1 in R.
      inversion R; subst.
      split; [|split; [|split]].
      * split.
        -- intro E. right. split; [|exact E]. exists st1, t0, run. auto.
        -- intros [(s & E) | (_ & E)]; [discriminate|exact E].
      * reflexivity.
      * intros (s & E). discriminate.
      * simpl. destruct (bad_counter st1 >? 4)%Z; simpl; rewrite M1; auto.
    + rewrite (validate_good c st1 t0 run (clock k) P B) in R.
      inversion R; subst.
      split; [|split; [|split]].
      * split.
        -- intro E. exfalso. revert E. apply planned_trajectory_not_empty, P.
        -- intros [(s & E) | ((s & t & r & E & B') & _)]; [discriminate|].
           inversion E; subst. contradiction.
      * intros (s & t & r & E & B'). inversion E; subst. contradiction.
      * intros (s & E). discriminate.
      * intros _. simpl. apply planned_trajectory_not_empty, P.
Qed.

(** (C10) The readings of the clock do not reach the result: with the
    same planner and the same inputs, two calls that differ in the
    readings return the same trajectory and leave the same planner. *)
Theorem clock_readings_unused (st : Planner) (latest_route : map.Route)
    (current_state : dynamics.VehicleStateDynamic) (latest_map : map.Map)
    (traffic_participants : dynamics.TrafficParticipantSet)
    (clock clock' : Clock) :
  plan_trajectory c st latest_route current_state latest_map
    traffic_participants clock
  = plan_trajectory c st latest_route current_state latest_map
      traffic_participants clock'.
Proof.
  unfold plan_trajectory, plan_trajectory_solve.
  assert (setup_optimizer_parameters_using_route c st latest_route
            current_state clock
          = setup_optimizer_parameters_using_route c st latest_route
              current_state clock') as ->.
  { unfold setup_optimizer_parameters_using_route. reflexivity. }
  destruct (setup_optimizer_parameters_using_route _ _ _ _ _) as [rr st0].
  destruct (_ <? 1)%nat; [reflexivity|].
  destruct (setup_reference_velocity _ _ _ _ _ _); reflexivity.
Qed.

End Fallback.

(** ** The shape of the trajectories *)

Section Shape.

Context {m : cmath} {pp : PiecewisePolynomial} {solver : OptiNLC_Solver}.
Variable c : Constants.

Lemma planned_states_nth st x t i :
  (i < control_points c)%nat ->
  nth i (map (planned_state c st x t) (seq 0 (control_points c)))
      dynamics.VehicleStateDynamic0
  = planned_state c st x t i.
Proof.
  intro H.
  rewrite (nth_indep _ _ (planned_state c st x t 0)) by
    (rewrite length_map, length_seq; exact H).
  rewrite map_nth, seq_nth by exact H. reflexivity.
Qed.

(** The samples of the planned trajectory, one by one. *)
Lemma planned_trajectory_nth st x t i :
  (2 <= control_points c)%nat ->
  (i < control_points c)%nat ->
  nth i (dynamics.states (planned_trajectory c st x t)) dynamics.VehicleStateDynamic0
  = if (i =? control_points c - 1)%nat
    then dynamics.set_rates (planned_state c st x t (control_points c - 1))
           (dynamics.yaw_rate (planned_state c st x t (control_points c - 2)))
           (dynamics.ax (planned_state c st x t (control_points c - 2)))
    else planned_state c st x t i.
Proof.
  intros P H. unfold planned_trajectory. simpl dynamics.states.
  set (s0 := map (planned_state c st x t) (seq 0 (control_points c))).
  assert (List.length s0 = control_points c) as L0
    by (unfold s0; rewrite length_map, length_seq; reflexivity).
  assert (forall j, (j < control_points c)%nat ->
            nth j s0 dynamics.VehicleStateDynamic0 = planned_state c st x t j) as N0
    by (intros j Hj; apply planned_states_nth, Hj).
  destruct (i =? control_points c - 1)%nat eqn:E.
  - apply Nat.eqb_eq in E. subst i.
    rewrite nth_assign_same by (rewrite assign_length, L0; lia).
    rewrite nth_assign_same by (rewrite L0; lia).
    rewrite nth_assign_other by lia.
    rewrite !N0 by lia. reflexivity.
  - apply Nat.eqb_neq in E.
    rewrite !nth_assign_other by lia.
    apply N0, H.
Qed.








End Shape.

(** ** The reference builder *)

Lemma spaced_push (l : list double) (a : double) :
  l <> [] -> spaced l -> 0.75 < a - last l 0 -> spaced (push_back l a).
Proof.
  unfold push_back. induction l as [|h t IH]; intros N S G; [congruence|].
  destruct t as [|h' t'].
  - simpl in *. split; [exact G|exact I].
  - destruct S as (S1 & S2). split; [exact S1|].
    apply IH; [discriminate|exact S2|exact G].
Qed.

Lemma hd_push (l : list double) (a d : double) :
  l <> [] -> hd d (push_back l a) = hd d l.
Proof. destruct l; [congruence|reflexivity]. Qed.

Lemma spaced_above (a : double) (t : list double) :
  spaced (a :: t) -> forall j, (j < List.length t)%nat -> a < at_ t j.
Proof.
  revert a. induction t as [|b t IH]; intros a S j Hj; simpl in Hj; [lia|].
  destruct S as (S1 & S2). destruct j as [|j].
  - unfold at_. simpl. lra.
  - unfold at_. simpl. apply Qlt_trans with b; [lra|].
    apply (IH b S2 j). lia.
Qed.

Lemma spaced_increasing (l : list double) : spaced l -> increasing l.
Proof.
  induction l as [|a t IH]; intros Sp i j (Hij & Hj); simpl in Hj; [lia|].
  destruct j as [|j]; [lia|]. destruct i as [|i].
  - unfold at_ at 1. simpl nth at 1.
    change (at_ (a :: t) (S j)) with (at_ t j).
    apply (spaced_above a t Sp j). lia.
  - change (at_ t i < at_ t j). apply IH; [|lia].
    destruct t; [exact I|apply Sp].
Qed.

Section Builder.

Context {m : cmath} {pp : PiecewisePolynomial}.
Variable c : Constants.

Lemma sample_center_lane_spaced state_s far lane r w previous_s :
  sampling (rs r) previous_s ->
  let l := rs (fst (sample_center_lane state_s far lane r w previous_s)) in
  l = [] \/ (spaced l /\ 0.75 < hd 0 l).
Proof.
  revert r w previous_s.
  induction lane as [|[s point] rest IH]; intros r w previous_s Inv; simpl.
  - destruct Inv as [(E & _) | (_ & S & _ & H)]; [left; exact E|right; auto].
  - destruct (ltb s state_s); [apply IH, Inv|].
    destruct (gtb (s - state_s) far).
    + simpl. destruct Inv as [(E & _) | (_ & S & _ & H)]; [left; exact E|right; auto].
    + destruct (gtb (s - state_s - previous_s) 0.75) eqn:G; [|apply IH, Inv].
      apply gtb_gt in G. apply IH. simpl. right.
      destruct Inv as [(E & Z) | (N & S & L & H)].
      * rewrite E. simpl. subst previous_s.
        repeat split; [discriminate | lra].
      * split; [unfold push_back; destruct (rs r); discriminate|].
        split; [apply spaced_push; [exact N|exact S|rewrite L; exact G]|].
        split; [unfold push_back; apply last_last|].
        rewrite hd_push by exact N. exact H.
Qed.

Lemma kept_samples_spaced latest_route current_state :
  let l := kept_samples c latest_route current_state in
  l = [] \/ (spaced l /\ 0.75 < hd 0 l).
Proof.
  unfold kept_samples. apply sample_center_lane_spaced. left. split; reflexivity.
Qed.

(** The first sample set to 0. *)
Lemma pinned_spaced (l : list double) :
  spaced l -> 0.75 < hd 0 l -> spaced (assign l 0 0).
Proof.
  destruct l as [|a [|b t]]; simpl; intros S H; auto.
  destruct S as (S1 & S2). split; [lra|exact S2].
Qed.

(** (C7) With fewer than three samples kept the builder returns the
    empty path.  With three or more, and the constants letting the
    builder run, the arc lengths it leaves in [route_to_follow], on which
    the splines of the path are fitted, are as many as were kept, start
    at exactly 0, lie more than 0.75 apart and increase strictly. *)
Theorem reference_samples_increasing (st : Planner) (latest_route : map.Route)
    (current_state : dynamics.VehicleStateDynamic) (clock : Clock) :
  let kept := kept_samples c latest_route current_state in
  let built :=
    setup_optimizer_parameters_using_route c st latest_route current_state clock in
  let s := rs (route_to_follow (snd built)) in
  ((List.length kept < 3)%nat -> fst built = route0)
  /\ ((3 <= List.length kept)%nat ->
      min_distance_in_route c <= sim_time c * max_forward_speed c ->
      List.length s = List.length kept
      /\ at_ s 0 = 0
      /\ spaced s
      /\ increasing s
      /\ exists v w,
           rx (fst built) = CubicSplineSmoother s v w (position_smoothing_factor c)).
Proof.
  intros kept built s.
  pose proof (kept_samples_spaced latest_route current_state) as K.
  fold kept in K. subst built s.
  unfold setup_optimizer_parameters_using_route.
  unfold kept_samples in kept.
  destruct (ltb (sim_time c * max_forward_speed c) (min_distance_in_route c)) eqn:G.
  { split; [reflexivity|]. intros _ H. apply ltb_lt in G. lra. }
  destruct (map.center_lane latest_route) as [|p lane] eqn:Lane.
  { split; [reflexivity|]. intros H _. simpl in kept. subst kept.
    simpl in H. lia. }
  destruct (sample_center_lane _ _ _ _ _ _) as [r w] eqn:Sample.
  simpl in kept. subst kept.
  destruct (List.length (rs r) <? 3)%nat eqn:Three.
  { apply Nat.ltb_lt in Three. split; [reflexivity|]. intros H _. lia. }
  apply Nat.ltb_ge in Three.
  split; [intro H; lia|]. intros _ _.
  destruct K as [K | (K1 & K2)]; [rewrite K in Three; simpl in Three; lia|].
  assert (spaced (assign (rs r) 0 0)) as Sp by (apply pinned_spaced; assumption).
  assert (at_ (assign (rs r) 0 0) 0 = 0) as Z
    by (unfold at_; apply nth_assign_same; lia).
  destruct (CubicSplineEvaluation _ (CubicSplineSmoother _ (rxs r) _ _)) as [x dx].
  destruct (CubicSplineEvaluation _ (CubicSplineSmoother _ (rys r) _ _)) as [y dy].
  destruct (heading_loop dx dy _ _) as [psi completed].
  destruct completed; simpl;
    (split; [apply assign_length|]; split; [exact Z|]; split; [exact Sp|];
     split; [apply spaced_increasing, Sp|]; exists (rxs r), w; reflexivity).
Qed.

(** (C6, amended) When the horizon times the maximal forward speed is
    below the configured minimal route length, or the route has no
    samples, the builder returns the empty path and leaves the planner as
    it was, whatever the length of the route. *)
Theorem builder_rejects_early (st : Planner) (latest_route : map.Route)
    (current_state : dynamics.VehicleStateDynamic) (clock : Clock) :
  sim_time c * max_forward_speed c < min_distance_in_route c
  \/ map.center_lane latest_route = [] ->
  setup_optimizer_parameters_using_route c st latest_route current_state clock
  = (route0, st).
Proof.
  intros [H | H]; unfold setup_optimizer_parameters_using_route.
  - apply ltb_lt in H. rewrite H. reflexivity.
  - rewrite H. destruct (ltb _ _); reflexivity.
Qed.

End Builder.

(** ** The dynamic model *)

Section DynamicModel.

Context {m : cmath} {pp : PiecewisePolynomial}.

(** (C9) The derivative the dynamic model computes: the kinematic bicycle,
    the velocity that follows the reference velocity with the time
    constant 2.5 when the reference is above the velocity and 1.25
    otherwise, the progress, and as the cost the squares of the lateral
    and of the heading error, weighted.  The entries beyond the eight
    channels are left as they were. *)
Theorem dynamic_model_equations (st : Planner)
    (state input derivative : VECTOR double) :
  let v := state STATES.V in
  let d := fst (dynamic_model st state input derivative) in
  let tau := snd (dynamic_model st state input derivative) in
  (0 < reference_velocity st - v -> tau = 2.5)
  /\ (~ 0 < reference_velocity st - v -> tau = 1.25)
  /\ d STATES.V == (reference_velocity st - v) / tau
  /\ d STATES.X = v * cos (state STATES.PSI)
  /\ d STATES.Y = v * sin (state STATES.PSI)
  /\ d STATES.PSI = v * tan (state STATES.DELTA) ./ wheelbase st
  /\ d STATES.DELTA = state STATES.dDELTA
  /\ d STATES.dDELTA = input CONTROLS.ddDELTA
  /\ d STATES.S = v
  /\ d STATES.L
     == lateral_error st state * lateral_error st state * lateral_weight st
        + heading_error st state * heading_error st state * heading_weight st
  /\ forall j, (state_size <= j)%nat -> d j = derivative j.
Proof.
  intros v d tau. subst v d tau. unfold dynamic_model. simpl fst. simpl snd.
  split; [|split; [|split]].
  - intro H. apply gtb_gt in H. rewrite H. reflexivity.
  - intro H. destruct (gtb _ 0) eqn:G; [apply gtb_gt in G; contradiction|reflexivity].
  - unfold vset. simpl.
    destruct (gtb _ 0); unfold fdiv; simpl; field.
  - repeat split; try reflexivity.
    + unfold vset. simpl. unfold lateral_error, heading_error, reference_at. ring.
    + intros j Hj. unfold state_size in Hj.
      rewrite !vset_other; [reflexivity|..];
        unfold STATES.X, STATES.Y, STATES.PSI, STATES.V, STATES.DELTA,
          STATES.dDELTA, STATES.S, STATES.L; lia.
Qed.

End DynamicModel.

(** ** The reference velocity *)

Lemma DBL_MAX_positive : 0 < DBL_MAX.
Proof. reflexivity. Qed.

Lemma fdiv_zero {m : cmath} (a b : double) : b == 0 -> a ./ b = div_by_zero a.
Proof. intro H. unfold fdiv. apply eqb_eq in H. rewrite H. reflexivity. Qed.

Lemma minimum_le_first (a : double) (l : list double) : minimum a l <= a.
Proof.
  unfold minimum. revert a. induction l as [|b l IH]; intro a; simpl.
  - apply Qle_refl.
  - apply Qle_trans with (Qmin a b); [apply IH|apply Q.le_min_l].
Qed.

Lemma minimum_le_others (a : double) (l : list double) (b : double) :
  In b l -> minimum a l <= b.
Proof.
  unfold minimum. revert a. induction l as [|b' l IH]; intros a H; simpl.
  - contradiction.
  - destruct H as [-> | H].
    + apply Qle_trans with (Qmin a b); [apply (minimum_le_first _ l)|apply Q.le_min_r].
    + apply IH, H.
Qed.

Section ReferenceVelocity.

Context {m : cmath} {pp : PiecewisePolynomial}.
Variable c : Constants.

Lemma idm_ignores_reference_velocity st v r cs mp tp :
  calculate_idm_velocity c (with_reference_velocity st v) r cs mp tp
  = match calculate_idm_velocity c st r cs mp tp with
    | Some (i, s) => Some (i, with_reference_velocity s v)
    | None => None
    end.
Proof.
  unfold calculate_idm_velocity. destruct (closest_participant _ _ _ _ _); reflexivity.
Qed.

Lemma curvature_ignores_reference_velocity st v cs :
  curvature_velocity c (with_reference_velocity st v) cs = curvature_velocity c st cs.
Proof. reflexivity. Qed.

(** The curvature loop adds one entry per turn. *)
Lemma curvature_loop_length dpsi s indices curvature filled :
  curvature_loop dpsi s indices curvature = Some filled ->
  List.length filled = (List.length curvature + List.length indices)%nat.
Proof.
  revert curvature. induction indices as [|i rest IH]; intros curvature; simpl.
  - intro H. inversion H. lia.
  - destruct (at_checked dpsi i); [|discriminate].
    destruct (at_checked s (i + 1)); [|discriminate].
    destruct (at_checked s i); [|discriminate].
    intro H. apply IH in H. unfold push_back in H. rewrite length_app in H.
    simpl in H. lia.
Qed.

(** The curvature loop over the [n] indices from [a] comes to its end if
    and only if every index it reads is inside its vector. *)
Lemma curvature_loop_defined dpsi s n a curvature :
  curvature_loop dpsi s (seq a n) curvature <> None
  <-> (n = 0 \/ (a + n <= List.length dpsi /\ a + n + 1 <= List.length s))%nat.
Proof.
  revert a curvature. induction n as [|n IH]; intros a curvature; simpl.
  - split; [intros _; left; reflexivity|discriminate].
  - unfold at_checked.
    pose proof (nth_error_Some dpsi a) as D.
    pose proof (nth_error_Some s (a + 1)) as S1.
    pose proof (nth_error_Some s a) as S0.
    destruct (nth_error dpsi a) as [d|].
    + destruct (nth_error s (a + 1)) as [s1|].
      * destruct (nth_error s a) as [s0|].
        -- assert (a < List.length dpsi)%nat as D' by (apply D; discriminate).
           assert (a + 1 < List.length s)%nat as S1' by (apply S1; discriminate).
           rewrite IH. lia.
        -- split; [congruence|].
           intros [Z | B]; [lia|]. exfalso.
           assert (a < List.length s)%nat as X by lia. apply S0 in X. congruence.
      * split; [congruence|].
        intros [Z | B]; [lia|]. exfalso.
        assert (a + 1 < List.length s)%nat as X by lia. apply S1 in X. congruence.
    + split; [congruence|].
      intros [Z | B]; [lia|]. exfalso.
      assert (a < List.length dpsi)%nat as X by lia. apply D in X. congruence.
Qed.

(** The curvature bound has a value exactly when the loop makes at least
    one turn and its reads are inside [dpsi] and [route_to_follow.s]. *)
Lemma curvature_velocity_defined st cs :
  let index :=
    Z.to_nat (std_max_int
                (findIndex (lookahead_time c * dynamics.vx cs) (route_x st))
                (safe_index c)) in
  let dpsi :=
    snd (CubicSplineEvaluation (rs (route_to_follow st)) (route_heading st)) in
  curvature_velocity c st cs <> None <->
  (1 <= index /\ index <= List.length dpsi
   /\ index + 1 <= List.length (rs (route_to_follow st)))%nat.
Proof.
  intros index dpsi. unfold curvature_velocity. fold index.
  subst dpsi. destruct (CubicSplineEvaluation _ _) as [psi dpsi]. simpl.
  pose proof (curvature_loop_defined dpsi (rs (route_to_follow st)) index 0 []) as L.
  simpl in L.
  destruct (curvature_loop dpsi (rs (route_to_follow st)) (seq 0 index) [])
    as [curvature|] eqn:E.
  - apply curvature_loop_length in E. rewrite length_seq in E. simpl in E.
    assert (n_or : (index = 0 \/ (index <= List.length dpsi
                     /\ index + 1 <= List.length (rs (route_to_follow st))))%nat)
      by (apply L; discriminate).
    destruct curvature as [|a t]; simpl in *.
    + split; [congruence|lia].
    + split; [intros _; lia|discriminate].
  - split; [congruence|]. intros (I1 & I2 & I3). exfalso.
    apply (proj2 L); [right; lia|reflexivity].
Qed.

(** A curvature bound that has a value is at least the minimal velocity
    in a curve. *)
Lemma curvature_velocity_floor st cs curvature :
  curvature_velocity c st cs = Some curvature ->
  minimum_velocity_in_curve c <= curvature.
Proof.
  unfold curvature_velocity. destruct (CubicSplineEvaluation _ _) as [psi dpsi].
  destruct (curvature_loop _ _ _ _) as [l|]; [|discriminate].
  destruct (max_element l); [|discriminate].
  intro H. inversion H. apply std_max_ge_r.
Qed.

(** [setup_reference_velocity] returns exactly when the curvature bound
    has a value and [lanes.at] does not throw. *)
Lemma setup_reference_velocity_returns st r cs mp tp :
  (exists st', setup_reference_velocity c st r cs mp tp = returns st')
  <-> curvature_velocity c st cs <> None
      /\ calculate_idm_velocity c st r cs mp tp <> None.
Proof.
  unfold setup_reference_velocity.
  change (curvature_velocity c (with_reference_velocity st (maximum_velocity st)) cs)
    with (curvature_velocity c st cs).
  destruct (curvature_velocity c st cs) as [cv|].
  - rewrite !idm_ignores_reference_velocity.
    destruct (calculate_idm_velocity c st r cs mp tp) as [[v st1]|].
    + split; [intros _; split; discriminate|]. intros _.
      destruct (map.get_nearest_point _ _ _); eexists; reflexivity.
    + split; [intros (s & E); discriminate|]. intros (_ & N). congruence.
  - split; [intros (s & E); discriminate|]. intros (N & _). congruence.
Qed.

(** (C4) Whenever the curvature loop reads within its vectors, so that
    the curvature velocity has a value, and [lanes.at] does not throw,
    [setup_reference_velocity] returns, and the reference velocity it
    leaves is the minimum of the configured maximal velocity, the
    curvature velocity, the IDM velocity and, when the map has a nearest
    point, the speed limit of its lane; it is at most each of them, and
    the curvature velocity is at least the minimal velocity in a curve. *)
Theorem reference_velocity_is_minimum (st st1 : Planner) (latest_route : map.Route)
    (current_state : dynamics.VehicleStateDynamic) (latest_map : map.Map)
    (traffic_participants : dynamics.TrafficParticipantSet)
    (curvature idm_velocity : double) :
  curvature_velocity c st current_state = Some curvature ->
  calculate_idm_velocity c st latest_route current_state latest_map
    traffic_participants = Some (idm_velocity, st1) ->
  let limits :=
    match map.get_nearest_point latest_map current_state DBL_MAX with
    | Some nearest => [map.get_lane_speed_limit latest_map (map.parent_id nearest)]
    | None => []
    end in
  exists st',
    setup_reference_velocity c st latest_route current_state latest_map
      traffic_participants = returns st'
    /\ reference_velocity st'
       == minimum (maximum_velocity st) (curvature :: idm_velocity :: limits)
    /\ reference_velocity st' <= maximum_velocity st
    /\ reference_velocity st' <= curvature
    /\ minimum_velocity_in_curve c <= curvature
    /\ reference_velocity st' <= idm_velocity
    /\ forall limit, In limit limits -> reference_velocity st' <= limit.
Proof.
  intros C H limits.
  assert (exists st',
            setup_reference_velocity c st latest_route current_state latest_map
              traffic_participants = returns st'
            /\ reference_velocity st'
               == minimum (maximum_velocity st) (curvature :: idm_velocity :: limits))
    as (st' & E & R).
  { unfold setup_reference_velocity.
    change (curvature_velocity c
              (with_reference_velocity st (maximum_velocity st)) current_state)
      with (curvature_velocity c st current_state).
    rewrite C, !idm_ignores_reference_velocity, H. subst limits.
    destruct (map.get_nearest_point _ _ _) as [nearest|];
      eexists; (split; [reflexivity|]); unfold minimum; simpl;
      rewrite !std_min_Qmin; reflexivity. }
  exists st'. split; [exact E|]. split; [exact R|].
  split; [rewrite R; apply minimum_le_first|].
  split; [rewrite R; apply minimum_le_others; left; reflexivity|].
  split; [exact (curvature_velocity_floor st current_state curvature C)|].
  split; [rewrite R; apply minimum_le_others; right; left; reflexivity|].
  intros limit L. rewrite R. apply minimum_le_others. right. right. exact L.
Qed.

End ReferenceVelocity.

(** ** The divisor of the IDM term *)

Section IDM.

Context {m : cmath} {pp : PiecewisePolynomial}.
Variable c : Constants.

(** With a zero divisor the quotient of the IDM term is the one the
    platform gives to a division by zero: no test stands before it. *)
Lemma idm_velocity_at_zero st cs distance_to_object_min distance_to_goal :
  distance_for_idm distance_to_object_min distance_to_goal == 0 ->
  let vx := dynamics.vx cs in
  let velocity_ratio := vx ./ maximum_velocity st in
  let s_star := desired_gap c st cs distance_to_object_min distance_to_goal in
  idm_velocity_at c st cs distance_to_object_min distance_to_goal
  = std_max 0
      (std_min
         (vx + max_acceleration c
               * (1 - velocity_ratio * velocity_ratio * velocity_ratio * velocity_ratio
                  - div_by_zero s_star * div_by_zero s_star))
         (max_forward_speed c)).
Proof.
  intros Z vx velocity_ratio s_star. unfold idm_velocity_at.
  rewrite !(fdiv_zero _ _ Z). reflexivity.
Qed.

(** The vehicle at the end of the route, nobody around. *)
Lemma idm_divisor_at_route_end r cs mp tp :
  dynamics.participants tp = [] ->
  map.get_length r - map.get_s r cs == 0 ->
  exists d, idm_divisor r cs mp tp = Some d /\ d == 0.
Proof.
  intros N Z. unfold idm_divisor. rewrite N. simpl.
  eexists. split; [reflexivity|].
  unfold distance_for_idm, std_min.
  assert (ltb (map.get_length r - map.get_s r cs) DBL_MAX = true) as ->.
  { apply ltb_lt. rewrite Z. apply DBL_MAX_positive. }
  exact Z.
Qed.

(** A participant within the lane at the arc length of the vehicle, the
    end of the route not behind the vehicle. *)
Lemma idm_divisor_at_participant r cs mp tp id p lane :
  dynamics.participants tp = [(id, p)] ->
  let position :=
    {| math.x := dynamics.x (dynamics.state p);
       math.y := dynamics.y (dynamics.state p) |} in
  let at_s := map.get_s_of_point r position in
  map.lanes mp (map.parent_id (map.get_map_point_at_s r at_s)) = Some lane ->
  distance_2d position (map.get_pose_at_s r at_s)
  < map.get_width lane (map.s (map.get_map_point_at_s r at_s)) ->
  at_s - map.get_s r cs == 0 ->
  0 <= map.get_length r - map.get_s r cs ->
  exists d, idm_divisor r cs mp tp = Some d /\ d == 0.
Proof.
  intros N position at_s La W Z G. unfold idm_divisor. rewrite N. simpl.
  fold position. fold at_s. rewrite La.
  apply ltb_lt in W. rewrite W.
  assert (ltb (at_s - map.get_s r cs) DBL_MAX = true) as ->.
  { apply ltb_lt. rewrite Z. apply DBL_MAX_positive. }
  simpl. eexists. split; [reflexivity|].
  unfold distance_for_idm, std_min.
  assert (ltb (map.get_length r - map.get_s r cs) (at_s - map.get_s r cs) = false) as ->.
  { apply ltb_ge. rewrite Z. exact G. }
  exact Z.
Qed.

(** [calculate_idm_velocity] on inputs whose divisor is zero. *)
Lemma calculate_idm_velocity_at_zero st r cs mp tp d :
  idm_divisor r cs mp tp = Some d ->
  d == 0 ->
  exists distance_to_object_min,
    closest_participant r mp (map.get_s r cs) (dynamics.participants tp) DBL_MAX
    = Some distance_to_object_min
    /\ let vx := dynamics.vx cs in
       let velocity_ratio := vx ./ maximum_velocity st in
       let s_star :=
         desired_gap c st cs distance_to_object_min
           (map.get_length r - map.get_s r cs) in
       calculate_idm_velocity c st r cs mp tp
       = Some (std_max 0
                 (std_min
                    (vx + max_acceleration c
                          * (1 - velocity_ratio * velocity_ratio
                                 * velocity_ratio * velocity_ratio
                             - div_by_zero s_star * div_by_zero s_star))
                    (max_forward_speed c)),
               with_distance_to_goal st (map.get_length r - map.get_s r cs)).
Proof.
  unfold idm_divisor, calculate_idm_velocity. intros H Z.
  destruct (closest_participant _ _ _ _ _) as [dmin|]; [|discriminate].
  inversion H as [D]. exists dmin. split; [reflexivity|].
  rewrite <- D in Z. simpl distance_to_goal.
  rewrite (idm_velocity_at_zero _ cs dmin _ Z). reflexivity.
Qed.

End IDM.

(** (C5) The quotient by [distance_for_idm] is taken without a test of the
    divisor: on inputs for which the divisor is zero
    [calculate_idm_velocity] returns the velocity computed from what the
    platform makes of a division by zero.  The divisor is zero for a vehicle
    at the very end of the route with nobody around, and for a participant
    within the lane at the arc length of the vehicle; both inputs exist, and
    on the first the velocity returned changes with the value of the
    quotient by zero. *)
Theorem idm_division_by_zero_reachable :
  (forall (m : cmath) (pp : PiecewisePolynomial) (c : Constants) (st : Planner)
          (r : map.Route) (cs : dynamics.VehicleStateDynamic) (mp : map.Map)
          (tp : dynamics.TrafficParticipantSet) (d : double),
     idm_divisor r cs mp tp = Some d ->
     d == 0 ->
     exists distance_to_object_min,
       closest_participant r mp (map.get_s r cs) (dynamics.participants tp) DBL_MAX
       = Some distance_to_object_min
       /\ calculate_idm_velocity c st r cs mp tp
          = Some (std_max 0
                    (std_min
                       (dynamics.vx cs
                        + max_acceleration c
                          * (1 - (dynamics.vx cs ./ maximum_velocity st)
                                 * (dynamics.vx cs ./ maximum_velocity st)
                                 * (dynamics.vx cs ./ maximum_velocity st)
                                 * (dynamics.vx cs ./ maximum_velocity st)
                             - div_by_zero
                                 (desired_gap c st cs distance_to_object_min
                                    (map.get_length r - map.get_s r cs))
                               * div_by_zero
                                   (desired_gap c st cs distance_to_object_min
                                      (map.get_length r - map.get_s r cs))))
                       (max_forward_speed c)),
                  with_distance_to_goal st (map.get_length r - map.get_s r cs)))
  /\ (exists d,
        @idm_divisor Example.linear Example.road (Example.vehicle 20 1 0)
          Example.one_lane Example.nobody = Some d
        /\ d == 0)
  /\ (exists d,
        @idm_divisor Example.linear Example.road (Example.vehicle 5 1 0)
          Example.one_lane (Example.one_at 5) = Some d
        /\ d == 0)
  /\ (exists v v' st st',
        @calculate_idm_velocity Example.series Example.linear Example.constants
          Example.fresh Example.road (Example.vehicle 20 1 0) Example.one_lane
          Example.nobody = Some (v, st)
        /\ @calculate_idm_velocity Example.series_large Example.linear
             Example.constants Example.fresh Example.road (Example.vehicle 20 1 0)
             Example.one_lane Example.nobody = Some (v', st')
        /\ ~ v == v').
Proof.
  split.
  { intros m pp c st r cs mp tp d H Z.
    exact (calculate_idm_velocity_at_zero c st r cs mp tp d H Z). }
  split.
  { apply idm_divisor_at_route_end; reflexivity. }
  split.
  { apply (idm_divisor_at_participant Example.road (Example.vehicle 5 1 0)
             Example.one_lane (Example.one_at 5) 7%Z
             {| dynamics.state := Example.vehicle 5 0 0 |}
             {| map.get_width := fun _ => 3.5 |}); reflexivity || discriminate. }
  eexists. eexists. eexists. eexists.
  split; [vm_compute; reflexivity|]. split; [vm_compute; reflexivity|].
  vm_compute. discriminate.
Qed.

(** ** The properties on the instances *)

(** The builder on four metres of road keeps the samples 1, 2, 3, 4 and
    fits the splines on 0, 2, 3, 4. *)
Example builder_on_short_route :
  let built :=
    @setup_optimizer_parameters_using_route Example.series Example.linear
      Example.constants Example.fresh Example.short_route
      (Example.vehicle 0 1 0) (Example.readings 0) in
  @kept_samples Example.constants Example.short_route (Example.vehicle 0 1 0)
  = [1; 2; 3; 4]
  /\ rs (route_to_follow (snd built)) = [0; 2; 3; 4]
  /\ breaks (rx (fst built)) = [0; 2; 3; 4].
Proof. vm_compute. repeat split. Qed.

(** Six bad calls in a row: the counter goes 1, 2, 3, 4, 5, 1. *)
Example counter_over_six_bad_calls :
  map (fun n =>
         option_map bad_counter
           (Example.after Example.fresh (firstn n (map Example.bad_call [0; 1; 2; 3; 4; 5]))))
      [1; 2; 3; 4; 5; 6]%nat
  = map Some [1; 2; 3; 4; 5; 1]%Z.
Proof. vm_compute. reflexivity. Qed.

(** Without a route the trajectory is empty and the previous one is kept. *)
Example call_without_route :
  option_map (fun r => (dynamics.states (fst r), previous_trajectory (snd r)))
    (Example.plan Example.after_good Example.empty_call)
  = Some ([], previous_trajectory Example.after_good)
  /\ List.length (dynamics.states (previous_trajectory Example.after_good)) = 30%nat.
Proof. vm_compute. split; reflexivity. Qed.

Lemma bad_cycleb_sound {m : cmath} {pp : PiecewisePolynomial}
    {solver : OptiNLC_Solver} (c : Constants) (st : Planner) (k : Call) :
  (0 < control_points c)%nat -> bad_cycleb c st k = true -> bad_cycle c st k.
Proof.
  intros P H. unfold bad_cycleb in H. unfold bad_cycle.
  destruct (solve_call c st k) as [st1| | |st1 t0 run]; try discriminate.
  exists st1, t0, run. split; [reflexivity|].
  apply (bad_result_scan c run P). exact H.
Qed.

Lemma after_bad_cycles_sound {m : cmath} {pp : PiecewisePolynomial}
    {solver : OptiNLC_Solver} (c : Constants) (ks : list Call) :
  (0 < control_points c)%nat ->
  forall st st', after_bad_cycles c st ks = Some st' -> bad_cycles c st ks st'.
Proof.
  intro P. induction ks as [|k ks IH]; intros st st' H; simpl in H.
  - inversion H. constructor.
  - destruct (bad_cycleb c st k) eqn:B; [|discriminate].
    destruct (plan_call c st k) as [[t st1]|] eqn:E; [|discriminate].
    apply (bad_cycles_cons c st k t st1 ks st').
    + apply bad_cycleb_sound; assumption.
    + exact E.
    + apply IH, H.
Qed.

(** A bad first cycle of a new planner: the previous trajectory is
    returned and kept, the counter goes from 0 to 1. *)
Lemma bad_cycle_returns_previous_witness :
  (0 < control_points Example.constants)%nat
  /\ @bad_cycle Example.series Example.linear (Example.hold Example.constants)
       Example.constants Example.fresh (Example.bad_call 0)
  /\ exists st',
       Example.plan Example.fresh (Example.bad_call 0)
       = Some (previous_trajectory Example.fresh, st')
       /\ previous_trajectory st' = previous_trajectory Example.fresh
       /\ ((bad_counter Example.fresh <= 4)%Z ->
           bad_counter st' = (bad_counter Example.fresh + 1)%Z)
       /\ ((bad_counter Example.fresh > 4)%Z -> bad_counter st' = 1%Z).
Proof.
  assert (0 < control_points Example.constants)%nat as P by (vm_compute; lia).
  assert (@bad_cycle Example.series Example.linear (Example.hold Example.constants)
            Example.constants Example.fresh (Example.bad_call 0)) as B
    by (apply bad_cycleb_sound; [exact P|vm_compute; reflexivity]).
  split; [exact P|]. split; [exact B|].
  exact (@bad_cycle_returns_previous Example.series Example.linear
           (Example.hold Example.constants) Example.constants Example.fresh
           (Example.bad_call 0) P B).
Defined.

(** The sixth bad cycle in a row starts with the counter at 5 and ends with
    it at 1, not at 6. *)
Lemma bad_cycle_counts_one_fails : ~ bad_cycle_counts_one.
Proof.
  intro H.
  destruct (H Example.series Example.linear (Example.hold Example.constants)
              Example.constants Example.after_five (Example.bad_call 5))
    as (st' & E & _ & N).
  - vm_compute. lia.
  - apply bad_cycleb_sound; [vm_compute; lia|vm_compute; reflexivity].
  - assert (option_map (fun r => bad_counter (snd r))
              (@plan_call Example.series Example.linear
                 (Example.hold Example.constants) Example.constants
                 Example.after_five (Example.bad_call 5)) = Some 1%Z) as R
      by (vm_compute; reflexivity).
    rewrite E in R. simpl in R. inversion R as [R1].
    assert (bad_counter Example.after_five = 5%Z) as F by (vm_compute; reflexivity).
    rewrite F in N. lia.
Qed.

(** Five bad cycles of a new planner, then the sixth call. *)
Lemma reset_after_five_bad_cycles_witness :
  (0 < control_points Example.constants)%nat
  /\ bad_counter Example.fresh = 0%Z
  /\ List.length Example.five_bad_calls = 5%nat
  /\ @bad_cycles Example.series Example.linear (Example.hold Example.constants)
       Example.constants Example.fresh Example.five_bad_calls Example.after_five
  /\ bad_counter Example.after_five = 5%Z
  /\ previous_trajectory Example.after_five = previous_trajectory Example.fresh
  /\ forall k st1 start_time run,
       @solve_call Example.series Example.linear (Example.hold Example.constants)
         Example.constants Example.after_five k = solved st1 start_time run ->
       (bad_result Example.constants run ->
        exists st6,
          Example.plan Example.after_five k
          = Some (previous_trajectory Example.fresh, st6)
          /\ previous_trajectory st6 = previous_trajectory Example.fresh
          /\ bad_counter st6 = 1%Z)
       /\ (~ bad_result Example.constants run ->
           exists st6,
             Example.plan Example.after_five k
             = Some (@planned_trajectory Example.series Example.constants st1
                       (optimal_states run) (sample_times run), st6)
             /\ previous_trajectory st6
                = @planned_trajectory Example.series Example.constants st1
                    (optimal_states run) (sample_times run)
             /\ bad_counter st6 = 0%Z).
Proof.
  assert (0 < control_points Example.constants)%nat as P by (vm_compute; lia).
  assert (@bad_cycles Example.series Example.linear (Example.hold Example.constants)
            Example.constants Example.fresh Example.five_bad_calls Example.after_five)
    as B by (apply after_bad_cycles_sound; [exact P|vm_compute; reflexivity]).
  split; [exact P|]. split; [reflexivity|]. split; [reflexivity|]. split; [exact B|].
  exact (@reset_after_five_bad_cycles Example.series Example.linear
           (Example.hold Example.constants) Example.constants Example.fresh
           Example.after_five Example.five_bad_calls P eq_refl eq_refl B).
Defined.

(** The sixth bad cycle in a row returns the previous trajectory, here the
    empty one of a new planner, and not the thirty samples of its
    solution. *)
Lemma sixth_bad_cycle_accepted_fails : ~ sixth_bad_cycle_accepted.
Proof.
  intro H.
  destruct (@solve_call Example.series Example.linear (Example.hold Example.constants)
              Example.constants Example.after_five (Example.bad_call 5))
    as [st1| | |st1 t0 run] eqn:S; try (vm_compute in S; discriminate).
  assert (0 < control_points Example.constants)%nat as P by (vm_compute; lia).
  assert (bad_result Example.constants run) as B.
  { apply (bad_result_scan Example.constants run P).
    assert (@bad_cycleb Example.series Example.linear (Example.hold Example.constants)
              Example.constants Example.after_five (Example.bad_call 5) = true) as C
      by (vm_compute; reflexivity).
    unfold bad_cycleb in C. rewrite S in C. exact C. }
  destruct (H Example.series Example.linear (Example.hold Example.constants)
              Example.constants Example.fresh Example.after_five st1
              Example.five_bad_calls (Example.bad_call 5) t0 run P eq_refl eq_refl)
    as (st6 & E & _); [|exact S|exact B|].
  - apply after_bad_cycles_sound; [exact P|vm_compute; reflexivity].
  - assert (option_map (fun r => List.length (dynamics.states (fst r)))
              (@plan_call Example.series Example.linear
                 (Example.hold Example.constants) Example.constants
                 Example.after_five (Example.bad_call 5)) = Some 0%nat) as R
      by (vm_compute; reflexivity).
    rewrite E in R. cbn [option_map fst] in R.
    rewrite planned_trajectory_length in R.
    vm_compute in R. discriminate.
Qed.

(** A bad call in traffic after a good call: the cycle falls back on the
    stored trajectory of thirty samples, which stays. *)
Lemma empty_trajectory_cases_witness :
  (0 < control_points Example.constants)%nat
  /\ @bad_cycle Example.series Example.linear (Example.hold Example.constants)
       Example.constants Example.after_good (Example.bad_call_in_traffic 1)
  /\ exists t st',
       Example.plan Example.after_good (Example.bad_call_in_traffic 1) = Some (t, st')
       /\ t = previous_trajectory Example.after_good
       /\ dynamics.states t <> []
       /\ dynamics.states (previous_trajectory st') <> [].
Proof.
  assert (0 < control_points Example.constants)%nat as P by (vm_compute; lia).
  assert (@bad_cycle Example.series Example.linear (Example.hold Example.constants)
            Example.constants Example.after_good (Example.bad_call_in_traffic 1)) as B
    by (apply bad_cycleb_sound; [exact P|vm_compute; reflexivity]).
  assert (dynamics.states (previous_trajectory Example.after_good) <> []) as N
    by (vm_compute; discriminate).
  split; [exact P|]. split; [exact B|].
  destruct (Example.plan Example.after_good (Example.bad_call_in_traffic 1))
    as [[t st']|] eqn:E; [|vm_compute in E; discriminate].
  exists t, st'. split; [reflexivity|].
  destruct (@empty_trajectory_cases Example.series Example.linear
              (Example.hold Example.constants) Example.constants Example.after_good
              st' (Example.bad_call_in_traffic 1) t P E)
    as (_ & F & _ & K).
  split; [exact (F B)|]. split; [rewrite (F B); exact N|exact (K N)].
Defined.

(** The first cycle of a new planner, bad: a route is there and the
    trajectory returned is empty all the same. *)
Lemma empty_only_without_route_fails : ~ empty_only_without_route.
Proof.
  intro H.
  destruct (@plan_call Example.series Example.linear (Example.hold Example.constants)
              Example.constants Example.fresh (Example.bad_call 0))
    as [[t st']|] eqn:E; [|vm_compute in E; discriminate].
  assert (dynamics.states t = []) as Empty.
  { assert (option_map (fun r => dynamics.states (fst r))
              (@plan_call Example.series Example.linear
                 (Example.hold Example.constants) Example.constants
                 Example.fresh (Example.bad_call 0)) = Some []) as R
      by (vm_compute; reflexivity).
    rewrite E in R. inversion R. reflexivity. }
  destruct (H Example.series Example.linear (Example.hold Example.constants)
              Example.constants Example.fresh st' (Example.bad_call 0) t)
    as ((N & _) & _); [vm_compute; lia|exact E|].
  destruct (N Empty) as (st1 & S). vm_compute in S. discriminate.
Qed.

(** The planner that a first cycle has left with the reference path of
    the bend: four samples, three derivatives of the heading, none of them
    zero.  The vehicle is at the start at speed 1, so that the curvature
    loop makes two turns; a participant stands three metres ahead.  The
    curvature velocity is below the configured maximum. *)
Lemma reference_velocity_is_minimum_witness :
  List.length (rs (route_to_follow Example.after_bend)) = 4%nat
  /\ exists curvature v st1,
       @curvature_velocity Example.series Example.linear Example.constants
         Example.after_bend (Example.vehicle 0 1 0) = Some curvature
       /\ curvature < maximum_velocity Example.after_bend
       /\ @calculate_idm_velocity Example.series Example.linear Example.constants
            Example.after_bend Example.bend (Example.vehicle 0 1 0)
            Example.one_lane (Example.one_at 3) = Some (v, st1)
       /\ exists st',
            @setup_reference_velocity Example.series Example.linear
              Example.constants Example.after_bend Example.bend
              (Example.vehicle 0 1 0) Example.one_lane (Example.one_at 3)
            = returns st'
            /\ reference_velocity st' <= maximum_velocity Example.after_bend
            /\ reference_velocity st' <= curvature
            /\ minimum_velocity_in_curve Example.constants <= curvature
            /\ reference_velocity st' <= v.
Proof.
  split; [vm_compute; reflexivity|].
  destruct (@curvature_velocity Example.series Example.linear Example.constants
              Example.after_bend (Example.vehicle 0 1 0))
    as [curvature|] eqn:C; [|vm_compute in C; discriminate].
  assert (curvature < maximum_velocity Example.after_bend) as A.
  { assert (match @curvature_velocity Example.series Example.linear
                    Example.constants Example.after_bend (Example.vehicle 0 1 0)
            with
            | Some a => ltb a (maximum_velocity Example.after_bend)
            | None => false
            end = true) as R by (vm_compute; reflexivity).
    rewrite C in R. apply ltb_lt. exact R. }
  destruct (@calculate_idm_velocity Example.series Example.linear Example.constants
              Example.after_bend Example.bend (Example.vehicle 0 1 0)
              Example.one_lane (Example.one_at 3))
    as [[v st1]|] eqn:E; [|vm_compute in E; discriminate].
  exists curvature, v, st1.
  split; [reflexivity|]. split; [exact A|]. split; [reflexivity|].
  destruct (@reference_velocity_is_minimum Example.series Example.linear
              Example.constants Example.after_bend st1 Example.bend
              (Example.vehicle 0 1 0) Example.one_lane (Example.one_at 3)
              curvature v C E)
    as (st' & S & _ & M & R & F & I & _).
  exists st'. split; [exact S|]. split; [exact M|]. split; [exact R|].
  split; [exact F|exact I].
Defined.

(** The vehicle at the end of the road: the divisor is zero. *)
Lemma idm_division_by_zero_reachable_witness :
  @idm_divisor Example.linear Example.road (Example.vehicle 20 1 0)
    Example.one_lane Example.nobody = Some (20 - 20)
  /\ 20 - 20 == 0
  /\ exists distance_to_object_min v,
       @calculate_idm_velocity Example.series Example.linear Example.constants
         Example.fresh Example.road (Example.vehicle 20 1 0) Example.one_lane
         Example.nobody
       = Some (v, with_distance_to_goal Example.fresh (20 - 20))
       /\ v = std_max 0
                (std_min
                   (1 + 2 * (1 - (@fdiv Example.series 1 5) * (@fdiv Example.series 1 5)
                                 * (@fdiv Example.series 1 5)
                                 * (@fdiv Example.series 1 5)
                             - @div_by_zero Example.series
                                 (@desired_gap Example.series Example.constants
                                    Example.fresh (Example.vehicle 20 1 0)
                                    distance_to_object_min (20 - 20))
                               * @div_by_zero Example.series
                                   (@desired_gap Example.series Example.constants
                                      Example.fresh (Example.vehicle 20 1 0)
                                      distance_to_object_min (20 - 20))))
                   13.6).
Proof.
  assert (@idm_divisor Example.linear Example.road (Example.vehicle 20 1 0)
            Example.one_lane Example.nobody = Some (20 - 20)) as D by reflexivity.
  assert (20 - 20 == 0) as Z by reflexivity.
  split; [exact D|]. split; [exact Z|].
  destruct (proj1 idm_division_by_zero_reachable Example.series Example.linear
              Example.constants Example.fresh Example.road (Example.vehicle 20 1 0)
              Example.one_lane Example.nobody (20 - 20) D Z)
    as (dmin & _ & E).
  exists dmin. eexists. split; [exact E|reflexivity].
Defined.

(** A minimal route length of 50 against 40.8 for the horizon. *)
Lemma builder_rejects_early_witness :
  (sim_time Example.constants_long * max_forward_speed Example.constants_long
   < min_distance_in_route Example.constants_long
   \/ map.center_lane Example.short_route = [])
  /\ @setup_optimizer_parameters_using_route Example.series Example.linear
       Example.constants_long Example.fresh Example.short_route
       (Example.vehicle 0 1 0) (Example.readings 0)
     = (route0, Example.fresh).
Proof.
  assert (sim_time Example.constants_long * max_forward_speed Example.constants_long
          < min_distance_in_route Example.constants_long
          \/ map.center_lane Example.short_route = []) as H
    by (left; reflexivity).
  split; [exact H|].
  exact (@builder_rejects_early Example.series Example.linear Example.constants_long
           Example.fresh Example.short_route (Example.vehicle 0 1 0)
           (Example.readings 0) H).
Defined.

(** Four metres of road against the 40.8 of the horizon: the path is built
    on the breakpoints 0, 2, 3, 4. *)
Lemma short_route_rejected_fails : ~ short_route_rejected.
Proof.
  intro H.
  specialize (H Example.series Example.linear Example.constants Example.fresh
                Example.short_route (Example.vehicle 0 1 0) (Example.readings 0)).
  assert (map.get_length Example.short_route
          < sim_time Example.constants * max_forward_speed Example.constants) as L
    by reflexivity.
  specialize (H L). vm_compute in H. discriminate.
Qed.

(** The short route: the samples 1, 2, 3, 4 are kept. *)
Lemma reference_samples_increasing_witness :
  let kept :=
    @kept_samples Example.constants Example.short_route (Example.vehicle 0 1 0) in
  let s :=
    rs (route_to_follow
          (snd (@setup_optimizer_parameters_using_route Example.series
                  Example.linear Example.constants Example.fresh
                  Example.short_route (Example.vehicle 0 1 0)
                  (Example.readings 0)))) in
  (3 <= List.length kept)%nat
  /\ min_distance_in_route Example.constants
     <= sim_time Example.constants * max_forward_speed Example.constants
  /\ List.length s = List.length kept
  /\ at_ s 0 = 0
  /\ spaced s
  /\ increasing s.
Proof.
  intros kept s.
  assert (3 <= List.length kept)%nat as K by (vm_compute; lia).
  assert (min_distance_in_route Example.constants
          <= sim_time Example.constants * max_forward_speed Example.constants) as G
    by (vm_compute; discriminate).
  split; [exact K|]. split; [exact G|].
  destruct (proj2 (@reference_samples_increasing Example.series Example.linear
                     Example.constants Example.fresh Example.short_route
                     (Example.vehicle 0 1 0) (Example.readings 0)) K G)
    as (A & B & C & D & _).
  split; [exact A|]. split; [exact B|]. split; [exact C|exact D].
Defined.



(** The model at a state slower than the reference velocity. *)
Lemma dynamic_model_equations_witness :
  0 < reference_velocity Example.fresh - Example.model_state STATES.V
  /\ snd (@dynamic_model Example.series Example.linear Example.fresh
            Example.model_state Example.model_input (setConstant 0)) = 2.5
  /\ fst (@dynamic_model Example.series Example.linear Example.fresh
            Example.model_state Example.model_input (setConstant 0)) STATES.V
     == (reference_velocity Example.fresh - Example.model_state STATES.V) / 2.5.
Proof.
  assert (0 < reference_velocity Example.fresh - Example.model_state STATES.V) as H
    by reflexivity.
  split; [exact H|].
  destruct (@dynamic_model_equations Example.series Example.linear Example.fresh
              Example.model_state Example.model_input (setConstant 0))
    as (T & _ & V & _).
  split; [exact (T H)|]. rewrite (T H) in V. exact V.
Defined.

(** * Further properties *)

(** ** [set_parameters] *)

Lemma assigned_absent (name : string) (params : list (string * double)) (old : double) :
  ~ In name (map fst params) -> assigned name params old = old.
Proof.
  revert old. induction params as [|[n v] rest IH]; intros old H; simpl; [reflexivity|].
  simpl in H. destruct (String.eqb n name) eqn:E.
  - apply String.eqb_eq in E. tauto.
  - apply IH. tauto.
Qed.

Lemma assigned_present (name : string) (params : list (string * double))
    (old v : double) :
  NoDup (map fst params) -> In (name, v) params -> assigned name params old = v.
Proof.
  revert old. induction params as [|[n v0] rest IH]; intros old D H; simpl; [contradiction|].
  simpl in D. inversion D as [|? ? N D']; subst.
  destruct H as [H | H].
  - inversion H; subst. rewrite String.eqb_refl. apply assigned_absent, N.
  - destruct (String.eqb n name) eqn:E.
    + apply String.eqb_eq in E. subst n. exfalso. apply N.
      apply (in_map fst) in H. exact H.
    + apply IH; assumption.
Qed.

(** The loop either leaves a member alone or gives it a value of the map. *)
Lemma assigned_cases (name : string) (params : list (string * double)) :
  (forall a, assigned name params a = a)
  \/ (forall a b, assigned name params a = assigned name params b).
Proof.
  induction params as [|[n v] rest IH]; simpl; [left; reflexivity|].
  destruct (String.eqb n name).
  - right. reflexivity.
  - exact IH.
Qed.

(** The loop of [set_parameters], member by member. *)
Lemma parameter_loop (params : list (string * double)) (st : Planner) :
  fold_left (fun st nv => with_parameter st (fst nv) (snd nv)) params st
  = {| options := options st;
       wheelbase := assigned "wheel_base" params (wheelbase st);
       lateral_weight := assigned "lateral_weight" params (lateral_weight st);
       heading_weight := assigned "heading_weight" params (heading_weight st);
       maximum_velocity := assigned "maximum_velocity" params (maximum_velocity st);
       min_distance_to_vehicle_ahead :=
         assigned "min_distance_to_vehicle_ahead" params
           (min_distance_to_vehicle_ahead st);
       route_x := route_x st; route_y := route_y st;
       route_heading := route_heading st; route_to_follow := route_to_follow st;
       reference_velocity := reference_velocity st; tau := tau st;
       distance_to_goal := distance_to_goal st;
       bad_condition := bad_condition st; bad_counter := bad_counter st;
       previous_trajectory := previous_trajectory st |}.
Proof.
  revert st. induction params as [|[n v] rest IH]; intro st; simpl.
  - destruct st. reflexivity.
  - rewrite IH. reflexivity.
Qed.

Section SetParameters.

Context {m : cmath}.
Variable c : Constants.

Lemma tunable_set_parameters (name : string) (st : Planner)
    (params : list (string * double)) :
  tunable name (set_parameters c st params)
  = match tunable name st with
    | Some old => Some (assigned name params old)
    | None => None
    end.
Proof.
  unfold set_parameters. rewrite parameter_loop. unfold tunable. simpl.
  destruct (String.eqb name "wheel_base") eqn:E1;
    [apply String.eqb_eq in E1; subst; reflexivity|].
  destruct (String.eqb name "lateral_weight") eqn:E2;
    [apply String.eqb_eq in E2; subst; reflexivity|].
  destruct (String.eqb name "heading_weight") eqn:E3;
    [apply String.eqb_eq in E3; subst; reflexivity|].
  destruct (String.eqb name "maximum_velocity") eqn:E4;
    [apply String.eqb_eq in E4; subst; reflexivity|].
  destruct (String.eqb name "min_distance_to_vehicle_ahead") eqn:E5;
    [apply String.eqb_eq in E5; subst; reflexivity|].
  reflexivity.
Qed.

(** (X1) [set_parameters] on a map of parameters: a recognised name that
    the map holds gives its member the value the map has for it, and a
    recognised name that the map does not hold leaves its member as it
    was. *)
Theorem set_parameters_assigns (st : Planner) (params : list (string * double))
    (name : string) (old : double) :
  NoDup (map fst params) ->
  tunable name st = Some old ->
  (forall v, In (name, v) params ->
     tunable name (set_parameters c st params) = Some v)
  /\ (~ In name (map fst params) ->
      tunable name (set_parameters c st params) = Some old).
Proof.
  intros D T. rewrite tunable_set_parameters, T. split.
  - intros v H. f_equal. apply assigned_present; assumption.
  - intro H. f_equal. apply assigned_absent, H.
Qed.

(** (X2) Names that [set_parameters] does not recognise are ignored: a map
    that holds only such names has the effect of the empty map. *)
Theorem set_parameters_ignores_unknown_names (st : Planner)
    (params : list (string * double)) :
  (forall n v, In (n, v) params -> tunable n st = None) ->
  set_parameters c st params = set_parameters c st [].
Proof.
  intro H. unfold set_parameters. simpl fold_left.
  set (o := {| intermediateIntegration := 2; OptiNLC_ACC := 0.0001;
               maxNumberOfIteration := 500; OSQP_verbose := false;
               OSQP_max_iter := 500; OptiNLC_time_limit := 0.09;
               perturbation := 0.000001;
               timeStep := sim_time c ./ inject_Z (Z.of_nat (control_points c));
               debugPrint := false |}).
  assert (forall n v, In (n, v) params -> tunable n (with_options st o) = None) as H'
    by (intros n v I; apply (H n v I)).
  clear H. revert H'. generalize (with_options st o). clear st.
  induction params as [|[n v] rest IH]; intros st H; simpl; [reflexivity|].
  assert (with_parameter st n v = st) as ->.
  { pose proof (H n v (or_introl eq_refl)) as T. unfold tunable in T.
    destruct (String.eqb n "wheel_base") eqn:E1; [discriminate|].
    destruct (String.eqb n "lateral_weight") eqn:E2; [discriminate|].
    destruct (String.eqb n "heading_weight") eqn:E3; [discriminate|].
    destruct (String.eqb n "maximum_velocity") eqn:E4; [discriminate|].
    destruct (String.eqb n "min_distance_to_vehicle_ahead") eqn:E5; [discriminate|].
    unfold with_parameter. rewrite E1, E2, E3, E4, E5. destruct st. reflexivity. }
  apply IH. intros n' v' I. apply (H n' v'). right. exact I.
Qed.

(** (X3) Two updates in a row amount to one update with the second list
    after the first; in particular the same update twice is the update
    once. *)
Theorem set_parameters_composes (st : Planner) (p q : list (string * double)) :
  set_parameters c (set_parameters c st p) q = set_parameters c st (p ++ q)
  /\ set_parameters c (set_parameters c st p) p = set_parameters c st p.
Proof.
  assert (forall l, set_parameters c (set_parameters c st p) l
                    = fold_left (fun st nv => with_parameter st (fst nv) (snd nv)) l
                        (set_parameters c st p)) as Step.
  { intro l. unfold set_parameters at 1. f_equal.
    unfold set_parameters. rewrite parameter_loop. reflexivity. }
  split.
  - rewrite Step. unfold set_parameters. rewrite fold_left_app. reflexivity.
  - rewrite Step. unfold set_parameters. rewrite !parameter_loop. simpl.
    assert (forall name old,
              assigned name p (assigned name p old) = assigned name p old) as Idem.
    { intros name old. destruct (assigned_cases name p) as [K | K].
      - rewrite !K. reflexivity.
      - apply K. }
    rewrite !Idem. reflexivity.
Qed.

(** (X4) Whatever the map holds, [set_parameters] leaves the time step at
    the simulated time over the number of control points and does not touch
    what the planner has stored: the previous trajectory, the counter, the
    reference velocity and the reference splines. *)
Theorem set_parameters_keeps_memory (st : Planner) (params : list (string * double)) :
  let st' := set_parameters c st params in
  timeStep (options st') = sim_time c ./ inject_Z (Z.of_nat (control_points c))
  /\ same_fallback st st'
  /\ reference_velocity st' = reference_velocity st
  /\ route_x st' = route_x st /\ route_y st' = route_y st
  /\ route_heading st' = route_heading st
  /\ route_to_follow st' = route_to_follow st.
Proof.
  intro st'. subst st'. unfold set_parameters. rewrite parameter_loop.
  unfold same_fallback. simpl. repeat split.
Qed.

End SetParameters.

(** ** [calculate_idm_velocity] *)

Lemma std_min_below (a b : double) : std_min a b <= b.
Proof.
  unfold std_min. destruct (ltb b a) eqn:E.
  - apply Qle_refl.
  - apply ltb_ge in E. exact E.
Qed.

Lemma std_min_monotone (a a' b : double) : a <= a' -> std_min a b <= std_min a' b.
Proof.
  intro H. unfold std_min.
  destruct (ltb b a) eqn:E; destruct (ltb b a') eqn:E';
    try apply ltb_lt in E; try apply ltb_lt in E';
    try apply ltb_ge in E; try apply ltb_ge in E'; lra.
Qed.

Lemma std_max_monotone (a b b' : double) : b <= b' -> std_max a b <= std_max a b'.
Proof.
  intro H. unfold std_max.
  destruct (ltb a b) eqn:E; destruct (ltb a b') eqn:E';
    try apply ltb_lt in E; try apply ltb_lt in E';
    try apply ltb_ge in E; try apply ltb_ge in E'; lra.
Qed.

Lemma std_max_above (a b : double) : a <= std_max a b.
Proof.
  unfold std_max. destruct (ltb a b) eqn:E.
  - apply ltb_lt in E. lra.
  - apply Qle_refl.
Qed.

Lemma fdiv_nonzero {m : cmath} (a b : double) : ~ b == 0 -> a ./ b = a / b.
Proof.
  intro H. unfold fdiv. destruct (eqb b 0) eqn:E; [|reflexivity].
  apply eqb_eq in E. contradiction.
Qed.

Section IDMVelocity.

Context {m : cmath} {pp : PiecewisePolynomial}.
Variable c : Constants.

Lemma idm_velocity_at_clamped st cs a b :
  0 <= idm_velocity_at c st cs a b
  /\ (0 <= max_forward_speed c -> idm_velocity_at c st cs a b <= max_forward_speed c).
Proof.
  unfold idm_velocity_at.
  match goal with |- context [std_min ?x ?y] => generalize x end.
  intro x. split.
  - apply std_max_above.
  - intro P. unfold std_max. destruct (ltb 0 (std_min x _)).
    + apply std_min_below.
    + exact P.
Qed.

(** (X5) The velocity [calculate_idm_velocity] returns is never negative,
    and with a maximal forward speed that is not negative it is at most
    that speed, whatever the distances and whatever a division by zero
    gives. *)
Theorem idm_velocity_clamped (st st' : Planner) (r : map.Route)
    (cs : dynamics.VehicleStateDynamic) (mp : map.Map)
    (tp : dynamics.TrafficParticipantSet) (v : double) :
  0 <= max_forward_speed c ->
  calculate_idm_velocity c st r cs mp tp = Some (v, st') ->
  0 <= v <= max_forward_speed c.
Proof.
  intros P H. unfold calculate_idm_velocity in H.
  destruct (closest_participant _ _ _ _ _) as [d|]; [|discriminate].
  inversion H; subst.
  destruct (idm_velocity_at_clamped
              (with_distance_to_goal st (map.get_length r - map.get_s r cs)) cs d
              (distance_to_goal
                 (with_distance_to_goal st (map.get_length r - map.get_s r cs))))
    as (A & B).
  split; [exact A|exact (B P)].
Qed.

(** (X6) With an object not further away than the end of the route, a
    divisor that is not zero, an acceleration that is not negative and a
    desired gap that is not negative, a larger distance to keep to the
    vehicle ahead never gives a larger IDM velocity. *)
Theorem idm_velocity_decreases_with_gap (st : Planner)
    (cs : dynamics.VehicleStateDynamic)
    (distance_to_object_min distance_to_goal g1 g2 : double) :
  let near := with_parameter st "min_distance_to_vehicle_ahead" g1 in
  let far := with_parameter st "min_distance_to_vehicle_ahead" g2 in
  distance_to_object_min <= distance_to_goal ->
  ~ distance_for_idm distance_to_object_min distance_to_goal == 0 ->
  0 <= max_acceleration c ->
  0 <= desired_gap c near cs distance_to_object_min distance_to_goal ->
  g1 <= g2 ->
  idm_velocity_at c far cs distance_to_object_min distance_to_goal
  <= idm_velocity_at c near cs distance_to_object_min distance_to_goal.
Proof.
  intros near far G Z A S L.
  unfold idm_velocity_at. apply std_max_monotone, std_min_monotone.
  unfold desired_gap in S.
  apply ltb_ge in G. rewrite G in *.
  rewrite !(fdiv_nonzero _ _ Z).
  change (min_distance_to_vehicle_ahead near) with g1 in *.
  change (min_distance_to_vehicle_ahead far) with g2.
  change (maximum_velocity far) with (maximum_velocity st).
  change (maximum_velocity near) with (maximum_velocity st).
  set (d := distance_for_idm distance_to_object_min distance_to_goal) in *.
  set (k := dynamics.vx cs * desired_time_headway c) in *.
  set (q := dynamics.vx cs * (dynamics.vx cs - front_vehicle_velocity c)
            ./ (2 * sqrt (max_acceleration c * max_deceleration c))) in *.
  set (ratio := dynamics.vx cs ./ maximum_velocity st).
  unfold Qdiv. set (i := / d).
  assert (0 <= i * i) as I by nra.
  assert ((g1 + k + q) * (g1 + k + q) <= (g2 + k + q) * (g2 + k + q)) as Sq by nra.
  assert ((g1 + k + q) * i * ((g1 + k + q) * i) <= (g2 + k + q) * i * ((g2 + k + q) * i))
    as Sq' by nra.
  nra.
Qed.

(** The least distance over the participants within the lane. *)
Lemma closest_participant_spec r mp state_s ps d0 d :
  closest_participant r mp state_s ps d0 = Some d ->
  d <= d0
  /\ (forall id p, In (id, p) ps -> within_lane r mp p = Some true ->
        d <= relative_distance r state_s p)
  /\ (d = d0
      \/ exists id p, In (id, p) ps /\ within_lane r mp p = Some true
           /\ d = relative_distance r state_s p).
Proof.
  revert d0. induction ps as [|[id p] rest IH]; intros d0 H; simpl in H.
  - inversion H; subst. split; [apply Qle_refl|]. split; [intros ? ? []|left; reflexivity].
  - change (map.lanes mp _) with (lane_of r mp p) in H.
    destruct (lane_of r mp p) as [lane|] eqn:La; [|discriminate].
    change {| math.x := dynamics.x (dynamics.state p);
              math.y := dynamics.y (dynamics.state p) |} with (position_of p) in H.
    change (map.get_s_of_point r (position_of p) - state_s)
      with (relative_distance r state_s p) in H.
    assert (within_lane r mp p
            = Some (ltb (distance_2d (position_of p)
                           (map.get_pose_at_s r (map.get_s_of_point r (position_of p))))
                        (map.get_width lane
                           (map.s (map.get_map_point_at_s r
                                     (map.get_s_of_point r (position_of p)))))))
      as W by (unfold within_lane; rewrite La; reflexivity).
    destruct (ltb (distance_2d _ _) _) eqn:In_lane; simpl in H.
    + destruct (ltb (relative_distance r state_s p) d0) eqn:Less.
      * apply ltb_lt in Less. destruct (IH _ H) as (A & B & C).
        split; [lra|]. split.
        -- intros id' p' [E | I] Wp; [inversion E; subst; exact A|exact (B id' p' I Wp)].
        -- destruct C as [C | (id' & p' & I & Wp & C)].
           ++ right. exists id, p. split; [left; reflexivity|]. split; assumption.
           ++ right. exists id', p'. split; [right; exact I|]. split; assumption.
      * apply ltb_ge in Less. destruct (IH _ H) as (A & B & C).
        split; [exact A|]. split.
        -- intros id' p' [E | I] Wp; [inversion E; subst; lra|exact (B id' p' I Wp)].
        -- destruct C as [C | (id' & p' & I & Wp & C)]; [left; exact C|].
           right. exists id', p'. split; [right; exact I|]. split; assumption.
    + destruct (IH _ H) as (A & B & C).
      split; [exact A|]. split.
      * intros id' p' [E | I] Wp; [inversion E; subst; congruence|exact (B id' p' I Wp)].
      * destruct C as [C | (id' & p' & I & Wp & C)]; [left; exact C|].
        right. exists id', p'. split; [right; exact I|]. split; assumption.
Qed.

(** (X7) The divisor of the IDM term is at most the distance to the end of
    the route and at most the distance, relative to the vehicle, of every
    participant within the lane, also of one behind the vehicle, whose
    distance is negative; and it is one of these distances or the largest
    double. *)
Theorem idm_divisor_least (r : map.Route) (cs : dynamics.VehicleStateDynamic)
    (mp : map.Map) (tp : dynamics.TrafficParticipantSet) (d : double) :
  idm_divisor r cs mp tp = Some d ->
  d <= map.get_length r - map.get_s r cs
  /\ (forall id p, In (id, p) (dynamics.participants tp) ->
        within_lane r mp p = Some true ->
        d <= relative_distance r (map.get_s r cs) p)
  /\ (d = map.get_length r - map.get_s r cs
      \/ d = DBL_MAX
      \/ exists id p, In (id, p) (dynamics.participants tp)
           /\ within_lane r mp p = Some true
           /\ d = relative_distance r (map.get_s r cs) p).
Proof.
  unfold idm_divisor. intro H.
  destruct (closest_participant _ _ _ _ _) as [dmin|] eqn:E; [|discriminate].
  inversion H; subst. clear H.
  destruct (closest_participant_spec _ _ _ _ _ _ E) as (A & B & C).
  unfold distance_for_idm, std_min.
  destruct (ltb (map.get_length r - map.get_s r cs) dmin) eqn:L.
  - apply ltb_lt in L. split; [apply Qle_refl|]. split; [|left; reflexivity].
    intros id p I W. specialize (B id p I W). lra.
  - apply ltb_ge in L. split; [exact L|]. split; [exact B|].
    right. destruct C as [C | C]; [left; exact C|right; exact C].
Qed.

End IDMVelocity.

(** ** The cycle as a whole *)

Section WholeCycle.

Context {m : cmath} {pp : PiecewisePolynomial} {solver : OptiNLC_Solver}.
Variable c : Constants.

Lemma closest_participant_none r mp state_s ps d0 :
  closest_participant r mp state_s ps d0 = None <->
  exists id p, In (id, p) ps /\ lane_of r mp p = None.
Proof.
  revert d0. induction ps as [|[id p] rest IH]; intro d0; simpl.
  - split; [discriminate|intros (? & ? & [] & _)].
  - change (map.lanes mp _) with (lane_of r mp p).
    destruct (lane_of r mp p) as [lane|] eqn:La.
    + destruct (_ && _); rewrite IH; split.
      * intros (i & q & I & N). exists i, q. split; [right; exact I|exact N].
      * intros (i & q & [E | I] & N); [inversion E; subst; congruence|].
        exists i, q. split; assumption.
      * intros (i & q & I & N). exists i, q. split; [right; exact I|exact N].
      * intros (i & q & [E | I] & N); [inversion E; subst; congruence|].
        exists i, q. split; assumption.
    + split; [|reflexivity]. intros _. exists id, p. split; [left; reflexivity|exact La].
Qed.

(** (X8) A cycle of [plan_trajectory] is left by the exception of
    [lanes.at] exactly when the builder gave a path with breakpoints, the
    curvature loop, which comes first, read within its vectors and found
    an entry, and some traffic participant lies on a lane the map does
    not have.  Without a route the lanes are never looked up, and a read
    outside a vector comes before they are. *)
Theorem plan_trajectory_throws_iff (st : Planner) (k : Call) :
  solve_call c st k = out_of_range <->
  ~ no_route_cycle c st k
  /\ curvature_velocity c (at_reference_velocity c st k) (current_state k) <> None
  /\ exists id p, In (id, p) (dynamics.participants (traffic_participants k))
       /\ lane_of (latest_route k) (latest_map k) p = None.
Proof.
  unfold no_route_cycle, solve_call, plan_trajectory_solve, at_reference_velocity.
  destruct (setup_optimizer_parameters_using_route _ _ _ _ _) as [rr st0].
  destruct (_ <? 1)%nat.
  - split; [discriminate|]. intros (N & _). exfalso. apply N. eexists. reflexivity.
  - unfold setup_reference_velocity.
    rewrite curvature_ignores_reference_velocity.
    destruct (curvature_velocity c (setup_reference_route st0 rr) (current_state k))
      as [cv|].
    + unfold calculate_idm_velocity.
      destruct (closest_participant _ _ _ _ _) as [d|] eqn:E.
      * split.
        -- destruct (map.get_nearest_point _ _ _); discriminate.
        -- intros (_ & _ & X).
           rewrite (proj2 (closest_participant_none _ _ _ _ _) X) in E. discriminate.
      * split; [|reflexivity]. intros _. split; [|split].
        -- intros (s1 & S). discriminate.
        -- discriminate.
        -- apply closest_participant_none in E. exact E.
    + split; [discriminate|]. intros (_ & N & _). congruence.
Qed.

(** Everything before the validation keeps the configuration and the
    members of the fallback policy. *)
Lemma solve_keeps st k :
  match solve_call c st k with
  | no_route st1 =>
      same_configuration st st1 /\ same_fallback st st1
      /\ reference_velocity st1 = reference_velocity st /\ tau st1 = tau st
  | out_of_range => True
  | undefined_access => True
  | solved st1 _ _ => same_configuration st st1 /\ same_fallback st st1
  end.
Proof.
  unfold solve_call, plan_trajectory_solve.
  assert (let st0 := snd (setup_optimizer_parameters_using_route c st
                            (latest_route k) (current_state k) (clock k)) in
          same_configuration st st0 /\ same_fallback st st0
          /\ reference_velocity st0 = reference_velocity st /\ tau st0 = tau st) as B.
  { unfold setup_optimizer_parameters_using_route, same_configuration, same_fallback.
    repeat case_match; simpl; repeat split. }
  destruct (setup_optimizer_parameters_using_route _ _ _ _ _) as [rr st0].
  simpl in B. destruct B as (B1 & B2 & B3 & B4).
  destruct (_ <? 1)%nat.
  - unfold same_configuration, same_fallback in *. simpl. tauto.
  - unfold setup_reference_velocity, calculate_idm_velocity.
    destruct (curvature_velocity _ _ _); [|exact I].
    destruct (closest_participant _ _ _ _ _); [|exact I].
    unfold same_configuration, same_fallback in *.
    destruct (map.get_nearest_point _ _ _); simpl; tauto.
Qed.

Lemma validate_keeps_configuration st t0 run clk :
  same_configuration st (snd (plan_trajectory_validate c st t0 run clk)).
Proof.
  unfold plan_trajectory_validate, same_configuration. rewrite scan_spec. simpl.
  destruct (bad_counter st >? 4)%Z; destruct (existsb _ _); simpl;
    repeat case_match; simpl; repeat split.
Qed.

(** (X9) No call of [plan_trajectory] changes the configuration: the
    solver options and the five parameters are after the call what they
    were before. *)
Theorem plan_trajectory_keeps_configuration (st st' : Planner) (k : Call)
    (t : dynamics.Trajectory) :
  plan_call c st k = Some (t, st') -> same_configuration st st'.
Proof.
  intro E. pose proof (solve_keeps st k) as K.
  destruct (solve_call c st k) as [st1| | |st1 t0 run] eqn:S.
  - rewrite (plan_call_no_route c st k st1 S) in E. inversion E; subst. apply K.
  - unfold plan_call, plan_trajectory in E. unfold solve_call in S.
    rewrite S in E. discriminate.
  - unfold plan_call, plan_trajectory in E. unfold solve_call in S.
    rewrite S in E. discriminate.
  - rewrite (plan_call_solved c st k st1 t0 run S) in E. inversion E; subst.
    destruct K as (K & _).
    pose proof (validate_keeps_configuration st1 t0 run (clock k)) as V.
    rewrite H0 in V. simpl in V.
    unfold same_configuration in *. intuition congruence.
Qed.

(** (X10) A cycle whose solver result is not bad has its solution
    accepted whatever the counter was at the call: the planned trajectory,
    with as many samples as control points, is returned and stored as the
    previous trajectory, and the counter is left at 0. *)
Theorem good_cycle_accepted (st st1 : Planner) (k : Call) (start_time : double)
    (run : SolverRun) :
  (0 < control_points c)%nat ->
  solve_call c st k = solved st1 start_time run ->
  ~ bad_result c run ->
  exists t st',
    plan_call c st k = Some (t, st')
    /\ t = planned_trajectory c st1 (optimal_states run) (sample_times run)
    /\ List.length (dynamics.states t) = control_points c
    /\ previous_trajectory st' = t
    /\ bad_counter st' = 0%Z
    /\ bad_condition st' = false.
Proof.
  intros P S B.
  rewrite (plan_call_solved c st k st1 start_time run S).
  rewrite (validate_good c st1 start_time run (clock k) P B).
  eexists. eexists. split; [reflexivity|]. split; [reflexivity|].
  split; [apply planned_trajectory_length|]. simpl.
  destruct (bad_counter st1 >? 4)%Z; repeat split.
Qed.

Lemma plan_call_counter st k t st' :
  (0 < control_points c)%nat ->
  plan_call c st k = Some (t, st') ->
  (bad_counter st' = bad_counter st
   \/ bad_counter st' = 0%Z
   \/ bad_counter st' = 1%Z
   \/ ((bad_counter st <= 4)%Z /\ bad_counter st' = (bad_counter st + 1)%Z))
  /\ (previous_trajectory st' = previous_trajectory st
      \/ List.length (dynamics.states (previous_trajectory st')) = control_points c).
Proof.
  intros P E. pose proof (solve_memory c st k) as M.
  destruct (solve_call c st k) as [st1| | |st1 t0 run] eqn:S.
  - rewrite (plan_call_no_route c st k st1 S) in E. inversion E; subst.
    destruct M as (M1 & M2 & _). split; [left; exact M2|left; exact M1].
  - unfold plan_call, plan_trajectory in E. unfold solve_call in S.
    rewrite S in E. discriminate.
  - unfold plan_call, plan_trajectory in E. unfold solve_call in S.
    rewrite S in E. discriminate.
  - destruct M as (M1 & M2 & _).
    rewrite (plan_call_solved c st k st1 t0 run S) in E.
    destruct (bad_result_dec c run P) as [B | B].
    + rewrite (validate_bad c st1 t0 run (clock k) P B) in E. inversion E; subst.
      simpl. rewrite M2. split.
      * destruct (bad_counter st >? 4)%Z eqn:G; [right; right; left; reflexivity|].
        right. right. right. split; [lia|reflexivity].
      * left. destruct (bad_counter st >? 4)%Z; exact M1.
    + rewrite (validate_good c st1 t0 run (clock k) P B) in E. inversion E; subst.
      simpl. split; [right; left; reflexivity|].
      right. apply planned_trajectory_length.
Qed.

(** (X11) Over any sequence of calls the counter of bad cycles stays
    between 0 and 5 once it is there, and the previous trajectory stays
    empty or of as many samples as there are control points. *)
Theorem counter_stays_in_range (st st' : Planner) (ks : list Call) :
  (0 < control_points c)%nat ->
  (0 <= bad_counter st <= 5)%Z ->
  (dynamics.states (previous_trajectory st) = []
   \/ List.length (dynamics.states (previous_trajectory st)) = control_points c) ->
  after_calls c st ks = Some st' ->
  (0 <= bad_counter st' <= 5)%Z
  /\ (dynamics.states (previous_trajectory st') = []
      \/ List.length (dynamics.states (previous_trajectory st')) = control_points c).
Proof.
  intro P. revert st. induction ks as [|k ks IH]; intros st R T H; simpl in H.
  - inversion H; subst. split; assumption.
  - destruct (plan_call c st k) as [[t st1]|] eqn:E; [|discriminate].
    destruct (plan_call_counter st k t st1 P E) as (N & V).
    apply (IH st1); [lia| |exact H].
    destruct V as [V | V]; [rewrite V; exact T|right; exact V].
Qed.

Lemma builder_few_samples st r cs clk :
  sim_time c * max_forward_speed c < min_distance_in_route c
  \/ (List.length (kept_samples c r cs) < 3)%nat ->
  exists f,
    setup_optimizer_parameters_using_route c st r cs clk
    = (route0, with_route_to_follow st f).
Proof.
  intro H. unfold setup_optimizer_parameters_using_route.
  assert (st = with_route_to_follow st (route_to_follow st)) as Eta
    by (destruct st; reflexivity).
  destruct (ltb _ (min_distance_in_route c)) eqn:G.
  { exists (route_to_follow st). rewrite <- Eta. reflexivity. }
  destruct H as [H | H]; [apply ltb_lt in H; congruence|].
  unfold kept_samples in H.
  destruct (map.center_lane r) as [|p lane] eqn:Lane.
  { exists (route_to_follow st). rewrite <- Eta. reflexivity. }
  destruct (sample_center_lane _ _ _ _ _ _) as [f w]. simpl in H.
  apply Nat.ltb_lt in H. rewrite H. exists f. reflexivity.
Qed.

(** (X12) When the constants reject every route, or fewer than three
    samples of the route are kept, the call returns the empty trajectory
    without reaching the solver; the reference splines of the planner are
    then empty, and the previous trajectory, the counter, the bad-condition
    flag, the reference velocity and the time constant are what they
    were. *)
Theorem too_few_samples_no_route (st : Planner) (k : Call) :
  sim_time c * max_forward_speed c < min_distance_in_route c
  \/ (List.length (kept_samples c (latest_route k) (current_state k)) < 3)%nat ->
  exists st',
    plan_call c st k = Some ({| dynamics.states := [] |}, st')
    /\ no_route_cycle c st k
    /\ route_x st' = PiecewiseStruct0
    /\ route_y st' = PiecewiseStruct0
    /\ route_heading st' = PiecewiseStruct0
    /\ same_fallback st st'
    /\ reference_velocity st' = reference_velocity st
    /\ tau st' = tau st.
Proof.
  intro H.
  destruct (builder_few_samples st (latest_route k) (current_state k) (clock k) H)
    as (f & B).
  assert (solve_call c st k
          = no_route (setup_reference_route (with_route_to_follow st f) route0)) as S
    by (unfold solve_call, plan_trajectory_solve; rewrite B; reflexivity).
  eexists. split; [apply plan_call_no_route, S|].
  split; [eexists; exact S|].
  unfold same_fallback. simpl. repeat split.
Qed.

End WholeCycle.

(** ** The samples of the builder *)

Section Samples.

Context {m : cmath} {pp : PiecewisePolynomial}.
Variable c : Constants.

Lemma at_push_back (l : list double) (a : double) (i : nat) :
  (i <= List.length l)%nat ->
  at_ (push_back l a) i = if (i =? List.length l)%nat then a else at_ l i.
Proof.
  intro H. unfold at_, push_back. destruct (i =? List.length l)%nat eqn:E.
  - apply Nat.eqb_eq in E. subst i. rewrite nth_middle. reflexivity.
  - apply Nat.eqb_neq in E. apply app_nth1. lia.
Qed.

Lemma sample_center_lane_kept route state_s lane r w previous_s :
  (forall x, In x lane -> In x (map.center_lane route)) ->
  0 <= previous_s ->
  kept_from c route state_s r w ->
  let result :=
    sample_center_lane state_s (sim_time c * max_forward_speed c) lane r w previous_s in
  kept_from c route state_s (fst result) (snd result).
Proof.
  revert r w previous_s.
  induction lane as [|[s point] rest IH]; intros r w previous_s Sub P K; simpl;
    [exact K|].
  assert (forall x, In x rest -> In x (map.center_lane route)) as Sub'
    by (intros x I; apply Sub; right; exact I).
  destruct (ltb s state_s); [apply IH; assumption|].
  destruct (gtb (s - state_s) _) eqn:Far; [exact K|].
  unfold gtb in Far. apply ltb_ge in Far.
  destruct (gtb (s - state_s - previous_s) 0.75) eqn:G; [|apply IH; assumption].
  apply gtb_gt in G. apply IH; [exact Sub'|lra|].
  destruct K as (K1 & K2 & K3 & K4 & K5).
  unfold kept_from, push_back. simpl. rewrite !length_app. simpl.
  split; [lia|]. split; [lia|]. split; [lia|].
  split; [apply Forall_app; split; [exact K4|repeat constructor]|].
  intros i Hi.
  fold (push_back (rs r) (s - state_s)). fold (push_back (rxs r) (map.x point)).
  fold (push_back (rys r) (map.y point)).
  rewrite !at_push_back by lia. rewrite K1, K2.
  destruct (i =? List.length (rs r))%nat eqn:E.
  - exists s, point. split; [apply Sub; left; reflexivity|].
    repeat split; try reflexivity; lra.
  - apply Nat.eqb_neq in E. apply K5. lia.
Qed.

Lemma sampled_kept route cs :
  kept_from c route (map.get_s route cs) (fst (sampled c route cs))
    (snd (sampled c route cs)).
Proof.
  unfold sampled. apply sample_center_lane_kept.
  - auto.
  - apply Qle_refl.
  - unfold kept_from. simpl. repeat split; try constructor. intros i H. lia.
Qed.

Lemma heading_loop_zero dx dy indices psi :
  (exists i, In i indices /\ at_ dx i == 0) ->
  snd (heading_loop dx dy indices psi) = false.
Proof.
  revert psi. induction indices as [|j rest IH]; intros psi (i & I & Z); simpl.
  - contradiction.
  - destruct (eqb (at_ dx j) 0) eqn:E; simpl; [reflexivity|].
    destruct ((List.length dx <? 1)%nat || (List.length dy <? 1)%nat); [reflexivity|].
    apply IH. destruct I as [I | I].
    + subst j. apply eqb_eq in Z. congruence.
    + exists i. split; assumption.
Qed.

(** The builder when it reaches the splines. *)
Lemma builder_ran st route cs clk :
  min_distance_in_route c <= sim_time c * max_forward_speed c ->
  (3 <= List.length (kept_samples c route cs))%nat ->
  exists heading psi,
    setup_optimizer_parameters_using_route c st route cs clk
    = ({| rx := fst (position_splines c route cs);
          ry := snd (position_splines c route cs);
          rheading := heading |},
       with_route_to_follow st
         {| rs := assign (rs (fst (sampled c route cs))) 0 0;
            rxs := rxs (fst (sampled c route cs));
            rys := rys (fst (sampled c route cs));
            rpsi := psi |})
    /\ ((exists i, (i < List.length (kept_samples c route cs) - 1)%nat
                   /\ at_ (x_derivatives c route cs) i == 0) ->
        heading = PiecewiseStruct0).
Proof.
  intros G K.
  unfold setup_optimizer_parameters_using_route, x_derivatives, position_splines,
    kept_samples, sampled in *.
  apply ltb_ge in G. rewrite G.
  destruct (map.center_lane route) as [|p lane] eqn:Lane; [simpl in K; lia|].
  destruct (sample_center_lane _ _ _ _ _ _) as [r w]. simpl in K. simpl fst. simpl snd.
  assert ((List.length (rs r) <? 3)%nat = false) as -> by (apply Nat.ltb_ge; exact K).
  destruct (CubicSplineEvaluation _ (CubicSplineSmoother _ (rxs r) _ _)) as [x dx] eqn:Ex.
  destruct (CubicSplineEvaluation _ (CubicSplineSmoother _ (rys r) _ _)) as [y dy].
  simpl snd.
  destruct (heading_loop dx dy _ _) as [psi completed] eqn:H.
  destruct completed; simpl.
  - eexists. eexists. split; [reflexivity|].
    intros (i & Hi & Z). exfalso.
    assert (snd (heading_loop dx dy
                   (seq 0 (List.length (assign (rs r) 0 0) - 1)) (rpsi r)) = false) as F.
    { apply heading_loop_zero. exists i. split; [|exact Z].
      apply in_seq. rewrite assign_length. lia. }
    rewrite H in F. discriminate.
  - eexists. eexists. split; [reflexivity|]. intros _. reflexivity.
Qed.

Lemma sample_center_lane_rpsi state_s far lane r w previous_s :
  rpsi (fst (sample_center_lane state_s far lane r w previous_s)) = rpsi r.
Proof.
  revert r w previous_s.
  induction lane as [|[s point] rest IH]; intros r w previous_s; simpl; [reflexivity|].
  destruct (ltb s state_s); [apply IH|].
  destruct (gtb (s - state_s) far); [reflexivity|].
  destruct (gtb (s - state_s - previous_s) 0.75); [|apply IH].
  rewrite IH. reflexivity.
Qed.

Lemma heading_loop_completes dx dy indices psi :
  dx <> [] -> dy <> [] ->
  (forall i, In i indices -> ~ at_ dx i == 0) ->
  heading_loop dx dy indices psi
  = (psi ++ map (fun i => atan2 (at_ dy i) (at_ dx i)) indices, true).
Proof.
  intros X Y. revert psi.
  induction indices as [|j rest IH]; intros psi N; simpl.
  - rewrite app_nil_r. reflexivity.
  - destruct (eqb (at_ dx j) 0) eqn:E.
    + apply eqb_eq in E. exfalso. apply (N j); [left; reflexivity|exact E].
    + assert ((List.length dx <? 1)%nat = false) as ->
        by (apply Nat.ltb_ge; destruct dx; [congruence|simpl; lia]).
      assert ((List.length dy <? 1)%nat = false) as ->
        by (apply Nat.ltb_ge; destruct dy; [congruence|simpl; lia]).
      simpl. rewrite IH by (intros i I; apply N; right; exact I).
      unfold push_back. rewrite <- app_assoc. reflexivity.
Qed.

Lemma assign_beyond {A} (v : list A) (i : nat) (a : A) :
  (List.length v <= i)%nat -> assign v i a = v.
Proof.
  revert i. induction v as [|h t IH]; intros [|i] H; simpl in *; try reflexivity; try lia.
  rewrite IH by lia. reflexivity.
Qed.

(** (X21) When no derivative of the x spline is zero, the heading spline
    is fitted on the arc lengths and weights of the position splines but on
    a vector of headings that is one entry shorter: the loop derives a
    heading for every sample but the last, and the assignment meant for the
    last entry does not add one. *)
Theorem heading_samples_one_short (st : Planner) (route : map.Route)
    (cs : dynamics.VehicleStateDynamic) (clk : Clock) :
  min_distance_in_route c <= sim_time c * max_forward_speed c ->
  (3 <= List.length (kept_samples c route cs))%nat ->
  x_derivatives c route cs <> [] ->
  y_derivatives c route cs <> [] ->
  (forall i, (i < List.length (kept_samples c route cs) - 1)%nat ->
     ~ at_ (x_derivatives c route cs) i == 0) ->
  let built := setup_optimizer_parameters_using_route c st route cs clk in
  let s := rs (route_to_follow (snd built)) in
  let psi := rpsi (route_to_follow (snd built)) in
  rheading (fst built)
  = CubicSplineSmoother s psi (snd (sampled c route cs)) (heading_smoothing_factor c)
  /\ List.length psi = (List.length s - 1)%nat
  /\ List.length (snd (sampled c route cs)) = List.length s
  /\ forall i, (i < List.length s - 1)%nat ->
       at_ psi i
       = atan2 (at_ (y_derivatives c route cs) i) (at_ (x_derivatives c route cs) i).
Proof.
  intros G K X Y N built s psi. subst built s psi.
  pose proof (sampled_kept route cs) as (_ & _ & K3 & _ & _).
  pose proof (sample_center_lane_rpsi (map.get_s route cs)
                (sim_time c * max_forward_speed c) (map.center_lane route)
                {| rs := []; rxs := []; rys := []; rpsi := [] |} [] 0) as P.
  fold (sampled c route cs) in P. simpl in P.
  unfold setup_optimizer_parameters_using_route, x_derivatives, y_derivatives,
    position_splines, kept_samples in *.
  apply ltb_ge in G. rewrite G.
  unfold sampled in *.
  destruct (map.center_lane route) as [|p lane] eqn:Lane; [simpl in K; lia|].
  destruct (sample_center_lane _ _ _ _ _ _) as [r w]. simpl in K, K3, P, X, Y, N.
  simpl fst. simpl snd.
  assert ((List.length (rs r) <? 3)%nat = false) as -> by (apply Nat.ltb_ge; exact K).
  destruct (CubicSplineEvaluation _ (CubicSplineSmoother _ (rxs r) _ _)) as [x dx].
  destruct (CubicSplineEvaluation _ (CubicSplineSmoother _ (rys r) _ _)) as [y dy].
  simpl in X, Y, N. rewrite P.
  rewrite (heading_loop_completes dx dy _ [] X Y)
    by (intros i I; apply in_seq in I; rewrite assign_length in I; apply N; lia).
  simpl negb. cbv iota. simpl app.
  rewrite (assign_beyond (map (fun i => atan2 (at_ dy i) (at_ dx i)) _))
    by (rewrite length_map, length_seq, assign_length; lia).
  simpl. rewrite length_map, length_seq, assign_length.
  split; [reflexivity|]. split; [reflexivity|]. split; [exact K3|].
  intros i Hi. unfold at_ at 1.
  rewrite (nth_indep _ 0 (atan2 (at_ dy 0) (at_ dx 0)))
    by (rewrite length_map, length_seq, ?assign_length; exact Hi).
  rewrite (map_nth (fun i => atan2 (at_ dy i) (at_ dx i))).
  rewrite seq_nth by (rewrite ?assign_length; exact Hi). reflexivity.
Qed.

(** (X13) When the builder fits its splines, the smoother gets arc
    lengths, coordinates and weights of one and the same length, at least
    three; every weight is 1 and every arc length lies between 0 and the
    length of road required, the horizon times the maximal forward speed. *)
Theorem smoother_inputs (st : Planner) (route : map.Route)
    (cs : dynamics.VehicleStateDynamic) (clk : Clock) :
  min_distance_in_route c <= sim_time c * max_forward_speed c ->
  (3 <= List.length (kept_samples c route cs))%nat ->
  exists s vx vy w,
    rx (fst (setup_optimizer_parameters_using_route c st route cs clk))
    = CubicSplineSmoother s vx w (position_smoothing_factor c)
    /\ ry (fst (setup_optimizer_parameters_using_route c st route cs clk))
       = CubicSplineSmoother s vy w (position_smoothing_factor c)
    /\ (3 <= List.length s)%nat
    /\ List.length vx = List.length s
    /\ List.length vy = List.length s
    /\ List.length w = List.length s
    /\ Forall (fun a => a = 1) w
    /\ forall i, (i < List.length s)%nat ->
         0 <= at_ s i <= sim_time c * max_forward_speed c.
Proof.
  intros G K. destruct (builder_ran st route cs clk G K) as (h & psi & B & _).
  rewrite B. simpl fst. simpl rx. simpl ry.
  pose proof (sampled_kept route cs) as (K1 & K2 & K3 & K4 & K5).
  unfold position_splines. unfold kept_samples in K. fold (sampled c route cs) in K.
  destruct (sampled c route cs) as [r w]. simpl in *.
  exists (assign (rs r) 0 0), (rxs r), (rys r), w.
  rewrite assign_length. repeat split; try assumption; try reflexivity.
  - destruct i as [|i].
    + unfold at_. rewrite nth_assign_same by lia. apply Qle_refl.
    + unfold at_. rewrite nth_assign_other by lia.
      destruct (K5 (S i) H) as (s & pt & _ & E & _ & _ & R).
      unfold at_ in R. lra.
  - destruct i as [|i].
    + unfold at_. rewrite nth_assign_same by lia.
      destruct (K5 0%nat H) as (s & pt & _ & E & _ & _ & R). lra.
    + unfold at_. rewrite nth_assign_other by lia.
      destruct (K5 (S i) H) as (s & pt & _ & E & _ & _ & R).
      unfold at_ in R. lra.
Qed.

(** (X14) Every sample the builder leaves in [route_to_follow] carries the
    coordinates of a point of the centre lane that lies more than 0.75
    ahead of the vehicle and within the length of road required.  From the
    second sample on, the arc length is the distance of that point from the
    vehicle; the first sample has the arc length 0 and yet the coordinates
    of a point more than 0.75 ahead. *)
Theorem samples_from_route (st : Planner) (route : map.Route)
    (cs : dynamics.VehicleStateDynamic) (clk : Clock) :
  min_distance_in_route c <= sim_time c * max_forward_speed c ->
  (3 <= List.length (kept_samples c route cs))%nat ->
  let f :=
    route_to_follow (snd (setup_optimizer_parameters_using_route c st route cs clk)) in
  forall i, (i < List.length (rs f))%nat ->
    exists progress,
      from_route c route (map.get_s route cs) progress (at_ (rxs f) i) (at_ (rys f) i)
      /\ at_ (rs f) i = if (i =? 0)%nat then 0 else progress.
Proof.
  intros G K. destruct (builder_ran st route cs clk G K) as (h & psi & B & _).
  rewrite B. simpl. intros i Hi. rewrite assign_length in Hi.
  pose proof (sampled_kept route cs) as (_ & _ & _ & _ & K5).
  exists (at_ (rs (fst (sampled c route cs))) i). split; [apply K5, Hi|].
  unfold at_. destruct i as [|i]; simpl Nat.eqb; cbv iota.
  - apply nth_assign_same. exact Hi.
  - apply nth_assign_other. lia.
Qed.

(** (X15) When the derivative of the x spline is zero at one of the
    samples but the last, the builder does not return the empty path: it
    returns the two position splines it has fitted, with the heading spline
    left empty. *)
Theorem zero_tangent_keeps_position_splines (st : Planner) (route : map.Route)
    (cs : dynamics.VehicleStateDynamic) (clk : Clock) :
  min_distance_in_route c <= sim_time c * max_forward_speed c ->
  (3 <= List.length (kept_samples c route cs))%nat ->
  (exists i, (i < List.length (kept_samples c route cs) - 1)%nat
             /\ at_ (x_derivatives c route cs) i == 0) ->
  fst (setup_optimizer_parameters_using_route c st route cs clk)
  = {| rx := fst (position_splines c route cs);
       ry := snd (position_splines c route cs);
       rheading := PiecewiseStruct0 |}.
Proof.
  intros G K Z. destruct (builder_ran st route cs clk G K) as (h & psi & B & H).
  rewrite B. simpl. rewrite (H Z). reflexivity.
Qed.

End Samples.

(** ** The OCP *)

Section OCP.

Context {m : cmath} {pp : PiecewisePolynomial} {solver : OptiNLC_Solver}.
Variable c : Constants.

(** (X16) With weights that are not negative the derivative of the cost
    channel is never negative: the objective, the cost channel at the end
    of the horizon, cannot decrease along a trajectory of the model. *)
Theorem cost_rate_not_negative (st : Planner) (state input derivative : VECTOR double) :
  0 <= lateral_weight st ->
  0 <= heading_weight st ->
  0 <= fst (dynamic_model st state input derivative) STATES.L.
Proof.
  intros L H. unfold dynamic_model. simpl fst. unfold vset. simpl.
  match goal with
  | |- 0 <= ?a * (?a * _) + ?b * (?b * _) => generalize a, b
  end.
  intros a b.
  assert (0 <= a * a) by nra. assert (0 <= b * b) by nra. nra.
Qed.

(** (X17) The derivative of the velocity has the sign of the gap to the
    reference velocity: positive below the reference, negative above it,
    zero on it. *)
Theorem velocity_moves_to_reference (st : Planner)
    (state input derivative : VECTOR double) :
  let rate := fst (dynamic_model st state input derivative) STATES.V in
  (state STATES.V < reference_velocity st -> 0 < rate)
  /\ (reference_velocity st < state STATES.V -> rate < 0)
  /\ (state STATES.V == reference_velocity st -> rate == 0).
Proof.
  intro rate. subst rate. unfold dynamic_model. simpl fst. unfold vset. simpl.
  destruct (gtb (reference_velocity st - state STATES.V) 0) eqn:G;
    [apply gtb_gt in G|unfold gtb in G; apply ltb_ge in G];
    unfold fdiv; simpl; unfold Qdiv.
  - assert (0 < / 2.5) as I by reflexivity. repeat split; intro H; try lra.
    apply Qmult_lt_0_compat; lra.
  - assert (0 < / 1.25) as I by reflexivity. repeat split; intro H; try lra.
    + setoid_replace 0 with ((1 * / 1.25) * 0) by ring.
      apply Qmult_lt_l; lra.
    + rewrite H. ring.
Qed.

(** (X18) With at least two control points every sample of the planned
    trajectory carries the position, the heading, the velocity, the
    steering angle, the steering rate and the time stamp the solver gave
    for it; setting the rates of the last sample changes nothing else. *)
Theorem planned_trajectory_copies_states (st : Planner) (opt_x time : VECTOR double)
    (i : nat) :
  (2 <= control_points c)%nat ->
  (i < control_points c)%nat ->
  let sample :=
    nth i (dynamics.states (planned_trajectory c st opt_x time))
        dynamics.VehicleStateDynamic0 in
  dynamics.x sample = opt_x (i * state_size + STATES.X)%nat
  /\ dynamics.y sample = opt_x (i * state_size + STATES.Y)%nat
  /\ dynamics.yaw_angle sample = opt_x (i * state_size + STATES.PSI)%nat
  /\ dynamics.vx sample = opt_x (i * state_size + STATES.V)%nat
  /\ dynamics.steering_angle sample = opt_x (i * state_size + STATES.DELTA)%nat
  /\ dynamics.steering_rate sample = opt_x (i * state_size + STATES.dDELTA)%nat
  /\ dynamics.time sample = time i.
Proof.
  intros P H sample. subst sample. rewrite planned_trajectory_nth by assumption.
  destruct (i =? control_points c - 1)%nat eqn:E.
  - apply Nat.eqb_eq in E. rewrite <- E. unfold planned_state.
    destruct (i <? control_points c - 1)%nat; simpl; repeat split.
  - unfold planned_state.
    destruct (i <? control_points c - 1)%nat; simpl; repeat split.
Qed.

Lemma tau_after_calls st calls :
  calls <> [] -> tau_after st calls = 2.5 \/ tau_after st calls = 1.25.
Proof.
  intro N. destruct (exists_last N) as (front & [state input] & ->).
  unfold tau_after. rewrite fold_left_app. simpl.
  destruct (gtb _ 0); [left|right]; reflexivity.
Qed.

(** (X19) After a cycle that reached the solver the time constant [tau]
    is 2.5 or 1.25 if the solver evaluated the dynamic model at all, and
    what it was before the call if it did not. *)
Theorem tau_after_cycle (st st1 : Planner) (k : Call) (start_time : double)
    (run : SolverRun) (t : dynamics.Trajectory) (st' : Planner) :
  solve_call c st k = solved st1 start_time run ->
  plan_call c st k = Some (t, st') ->
  (model_calls run <> [] -> tau st' = 2.5 \/ tau st' = 1.25)
  /\ (model_calls run = [] -> tau st' = tau st).
Proof.
  intros S E. rewrite (plan_call_solved c st k st1 start_time run S) in E.
  inversion E as [V]. clear E.
  assert (tau st' = tau st1) as T.
  { assert (st' = snd (plan_trajectory_validate c st1 start_time run (clock k))) as ->
      by (rewrite V; reflexivity).
    unfold plan_trajectory_validate. rewrite scan_spec.
    simpl. destruct (bad_counter st1 >? 4)%Z; destruct (existsb _ _); simpl;
      repeat case_match; reflexivity. }
  rewrite T. clear V T.
  unfold solve_call, plan_trajectory_solve in S.
  assert (tau (snd (setup_optimizer_parameters_using_route c st (latest_route k)
                      (current_state k) (clock k))) = tau st) as B.
  { unfold setup_optimizer_parameters_using_route. repeat case_match; reflexivity. }
  destruct (setup_optimizer_parameters_using_route _ _ _ _ _) as [rr st0].
  simpl in B. destruct (_ <? 1)%nat; [discriminate|].
  destruct (setup_reference_velocity _ _ _ _ _ _) as [st2| |] eqn:R;
    [|discriminate|discriminate].
  assert (tau st2 = tau st) as T2.
  { unfold setup_reference_velocity, calculate_idm_velocity in R.
    destruct (curvature_velocity _ _ _); [|discriminate].
    destruct (closest_participant _ _ _ _ _); [|discriminate].
    destruct (map.get_nearest_point _ _ _); inversion R; subst; exact B. }
  inversion S; subst. simpl. split.
  - apply tau_after_calls.
  - intros ->. exact T2.
Qed.

(** (X20) With a reverse speed limit not above the forward one and limits
    of the steering that are not negative, the bounds that
    [setup_constraints] registers are consistent: on every state channel
    and on the input the lower bound is at most the upper bound, and the
    channels of position, heading, progress and cost are unbounded on both
    sides. *)
Theorem constraints_consistent (st : Planner) (ocp : OptiNLC_OCP)
    (state input : VECTOR double) :
  max_reverse_speed c <= max_forward_speed c ->
  0 <= max_steering_angle c ->
  0 <= max_steering_velocity c ->
  0 <= max_steering_acceleration c ->
  let registered := setup_constraints c st ocp in
  (forall j, bound_le (StateLowerBounds registered state input j)
               (StateUpperBounds registered state input j))
  /\ bound_le (InputLowerBounds registered state input CONTROLS.ddDELTA)
       (InputUpperBounds registered state input CONTROLS.ddDELTA)
  /\ (forall j, j = STATES.X \/ j = STATES.Y \/ j = STATES.PSI
                \/ j = STATES.S \/ j = STATES.L ->
        StateLowerBounds registered state input j = neg_infinity
        /\ StateUpperBounds registered state input j = infinity).
Proof.
  intros V A R U registered. subst registered. simpl. split; [|split].
  - intro j. unfold vset, setConstant.
    destruct (j =? STATES.dDELTA)%nat; [simpl; lra|].
    destruct (j =? STATES.DELTA)%nat; [simpl; lra|].
    destruct (j =? STATES.V)%nat; simpl; [exact V|exact I].
  - unfold vset. simpl. lra.
  - intros j [-> | [-> | [-> | [-> | ->]]]]; split; reflexivity.
Qed.

End OCP.

(** ** The further properties on the instances *)

(** A map with the wheel base and a weight. *)
Lemma set_parameters_assigns_witness :
  NoDup (map fst [("lateral_weight"%string, 0.5); ("wheel_base"%string, 3)])
  /\ tunable "wheel_base" Example.fresh = Some 2.7
  /\ tunable "wheel_base"
       (@set_parameters Example.series Example.constants Example.fresh
          [("lateral_weight"%string, 0.5); ("wheel_base"%string, 3)]) = Some 3.
Proof.
  assert (NoDup (map fst [("lateral_weight"%string, 0.5); ("wheel_base"%string, 3)]))
    as D.
  { simpl. constructor; [intros [H | []]; discriminate|].
    constructor; [intros []|constructor]. }
  assert (tunable "wheel_base" Example.fresh = Some 2.7) as T by reflexivity.
  split; [exact D|]. split; [exact T|].
  apply (proj1 (@set_parameters_assigns Example.series Example.constants
                  Example.fresh _ "wheel_base" 2.7 D T)).
  right. left. reflexivity.
Defined.

(** A map of two names the planner does not know: [wheelbase] is not the
    name of the wheel base. *)
Lemma set_parameters_ignores_unknown_names_witness :
  (forall n v, In (n, v) [("wheelbase"%string, 3); ("speed"%string, 9)] ->
     tunable n Example.fresh = None)
  /\ @set_parameters Example.series Example.constants Example.fresh
       [("wheelbase"%string, 3); ("speed"%string, 9)]
     = @set_parameters Example.series Example.constants Example.fresh [].
Proof.
  assert (forall n v, In (n, v) [("wheelbase"%string, 3); ("speed"%string, 9)] ->
            tunable n Example.fresh = None) as H.
  { intros n v [E | [E | []]]; inversion E; reflexivity. }
  split; [exact H|].
  exact (@set_parameters_ignores_unknown_names Example.series Example.constants
           Example.fresh _ H).
Defined.

(** The IDM velocity at the start of the short route. *)
Lemma idm_velocity_clamped_witness :
  0 <= max_forward_speed Example.constants
  /\ exists v st',
       @calculate_idm_velocity Example.series Example.linear Example.constants
         Example.fresh Example.short_route (Example.vehicle 0 1 0) Example.one_lane
         Example.nobody = Some (v, st')
       /\ 0 <= v <= max_forward_speed Example.constants.
Proof.
  assert (0 <= max_forward_speed Example.constants) as P
    by (apply Qle_bool_iff; reflexivity).
  split; [exact P|].
  destruct (@calculate_idm_velocity Example.series Example.linear Example.constants
              Example.fresh Example.short_route (Example.vehicle 0 1 0)
              Example.one_lane Example.nobody) as [[v st']|] eqn:E;
    [|vm_compute in E; discriminate].
  exists v, st'. split; [reflexivity|].
  exact (@idm_velocity_clamped Example.series Example.linear Example.constants
           Example.fresh st' Example.short_route (Example.vehicle 0 1 0)
           Example.one_lane Example.nobody v P E).
Defined.

(** An object 15 ahead, the end of the route 20 ahead; 5 and 10 to keep. *)
Lemma idm_velocity_decreases_with_gap_witness :
  15 <= 20
  /\ ~ distance_for_idm 15 20 == 0
  /\ 0 <= max_acceleration Example.constants
  /\ 0 <= @desired_gap Example.series Example.constants
            (with_parameter Example.fresh "min_distance_to_vehicle_ahead" 5)
            (Example.vehicle 0 1 0) 15 20
  /\ 5 <= 10
  /\ @idm_velocity_at Example.series Example.constants
       (with_parameter Example.fresh "min_distance_to_vehicle_ahead" 10)
       (Example.vehicle 0 1 0) 15 20
     <= @idm_velocity_at Example.series Example.constants
          (with_parameter Example.fresh "min_distance_to_vehicle_ahead" 5)
          (Example.vehicle 0 1 0) 15 20.
Proof.
  assert (15 <= 20) as G by (apply Qle_bool_iff; reflexivity).
  assert (~ distance_for_idm 15 20 == 0) as Z
    by (intro H; apply Qeq_bool_iff in H; vm_compute in H; discriminate).
  assert (0 <= max_acceleration Example.constants) as A
    by (apply Qle_bool_iff; reflexivity).
  assert (0 <= @desired_gap Example.series Example.constants
                 (with_parameter Example.fresh "min_distance_to_vehicle_ahead" 5)
                 (Example.vehicle 0 1 0) 15 20) as S
    by (apply Qle_bool_iff; vm_compute; reflexivity).
  assert (5 <= 10) as L by (apply Qle_bool_iff; reflexivity).
  split; [exact G|]. split; [exact Z|]. split; [exact A|]. split; [exact S|].
  split; [exact L|].
  exact (@idm_velocity_decreases_with_gap Example.series Example.constants
           Example.fresh (Example.vehicle 0 1 0) 15 20 5 10 G Z A S L).
Defined.

(** A participant 5 ahead of the vehicle on the road of 20. *)
Lemma idm_divisor_least_witness :
  exists d,
    @idm_divisor Example.linear Example.road (Example.vehicle 0 1 0)
      Example.one_lane (Example.one_at 5) = Some d
    /\ d <= map.get_length Example.road
            - map.get_s Example.road (Example.vehicle 0 1 0)
    /\ forall id p, In (id, p) (dynamics.participants (Example.one_at 5)) ->
         @within_lane Example.linear Example.road Example.one_lane p = Some true ->
         d <= relative_distance Example.road
                (map.get_s Example.road (Example.vehicle 0 1 0)) p.
Proof.
  destruct (@idm_divisor Example.linear Example.road (Example.vehicle 0 1 0)
              Example.one_lane (Example.one_at 5)) as [d|] eqn:E;
    [|vm_compute in E; discriminate].
  exists d. split; [reflexivity|].
  destruct (@idm_divisor_least Example.linear Example.road (Example.vehicle 0 1 0)
              Example.one_lane (Example.one_at 5) d E) as (A & B & _).
  split; [exact A|exact B].
Defined.

(** A participant on a lane the map does not have: on the short route the
    cycle throws; on the road that runs north the curvature loop reads
    outside the empty derivatives of the heading first, and the cycle
    does not get to the exception. *)
Lemma plan_trajectory_throws_iff_witness :
  @solve_call Example.series Example.linear (Example.hold Example.constants)
    Example.constants Example.fresh Example.call_unknown_lane = out_of_range
  /\ @solve_call Example.series Example.linear (Example.hold Example.constants)
       Example.constants Example.fresh Example.call_north_unknown_lane
     <> out_of_range.
Proof.
  split.
  - apply (proj2 (@plan_trajectory_throws_iff Example.series Example.linear
                    (Example.hold Example.constants) Example.constants Example.fresh
                    Example.call_unknown_lane)).
    split; [|split].
    + intros (st1 & S). vm_compute in S. discriminate.
    + vm_compute. discriminate.
    + exists 7%Z, {| dynamics.state := Example.vehicle 3 0 0 |}.
      split; [left; reflexivity|reflexivity].
  - intro S.
    apply (proj1 (@plan_trajectory_throws_iff Example.series Example.linear
                    (Example.hold Example.constants) Example.constants Example.fresh
                    Example.call_north_unknown_lane)) in S.
    destruct S as (_ & C & _). apply C. vm_compute. reflexivity.
Defined.

(** A good call of a new planner. *)
Lemma plan_trajectory_keeps_configuration_witness :
  exists t st',
    Example.plan Example.fresh (Example.good_call 0) = Some (t, st')
    /\ same_configuration Example.fresh st'.
Proof.
  destruct (Example.plan Example.fresh (Example.good_call 0)) as [[t st']|] eqn:E;
    [|vm_compute in E; discriminate].
  exists t, st'. split; [reflexivity|].
  exact (@plan_trajectory_keeps_configuration Example.series Example.linear
           (Example.hold Example.constants) Example.constants Example.fresh st'
           (Example.good_call 0) t E).
Defined.

Lemma good_cycle_accepted_witness :
  (0 < control_points Example.constants)%nat
  /\ exists st1 start_time run,
       @solve_call Example.series Example.linear (Example.hold Example.constants)
         Example.constants Example.fresh (Example.good_call 0)
       = solved st1 start_time run
       /\ ~ bad_result Example.constants run
       /\ exists t st',
            Example.plan Example.fresh (Example.good_call 0) = Some (t, st')
            /\ t = @planned_trajectory Example.series Example.constants st1
                     (optimal_states run) (sample_times run)
            /\ List.length (dynamics.states t) = control_points Example.constants
            /\ previous_trajectory st' = t
            /\ bad_counter st' = 0%Z
            /\ bad_condition st' = false.
Proof.
  assert (0 < control_points Example.constants)%nat as P by (vm_compute; lia).
  split; [exact P|].
  destruct (@solve_call Example.series Example.linear (Example.hold Example.constants)
              Example.constants Example.fresh (Example.good_call 0))
    as [st1| | |st1 t0 run] eqn:S; try (vm_compute in S; discriminate).
  assert (~ bad_result Example.constants run) as B.
  { intro B. apply (bad_result_scan Example.constants run P) in B.
    assert (@bad_cycleb Example.series Example.linear (Example.hold Example.constants)
              Example.constants Example.fresh (Example.good_call 0) = false) as C
      by (vm_compute; reflexivity).
    unfold bad_cycleb in C. rewrite S in C. congruence. }
  exists st1, t0, run. split; [reflexivity|]. split; [exact B|].
  exact (@good_cycle_accepted Example.series Example.linear
           (Example.hold Example.constants) Example.constants Example.fresh st1
           (Example.good_call 0) t0 run P S B).
Defined.

(** Six bad calls of a new planner. *)
Lemma counter_stays_in_range_witness :
  (0 < control_points Example.constants)%nat
  /\ (0 <= bad_counter Example.fresh <= 5)%Z
  /\ exists st',
       @after_calls Example.series Example.linear (Example.hold Example.constants)
         Example.constants Example.fresh (map Example.bad_call [0; 1; 2; 3; 4; 5])
       = Some st'
       /\ (0 <= bad_counter st' <= 5)%Z.
Proof.
  assert (0 < control_points Example.constants)%nat as P by (vm_compute; lia).
  assert (0 <= bad_counter Example.fresh <= 5)%Z as R by (vm_compute; split; discriminate).
  split; [exact P|]. split; [exact R|].
  destruct (@after_calls Example.series Example.linear (Example.hold Example.constants)
              Example.constants Example.fresh (map Example.bad_call [0; 1; 2; 3; 4; 5]))
    as [st'|] eqn:E; [|vm_compute in E; discriminate].
  exists st'. split; [reflexivity|].
  exact (proj1 (@counter_stays_in_range Example.series Example.linear
                  (Example.hold Example.constants) Example.constants Example.fresh st'
                  _ P R (or_introl eq_refl) E)).
Defined.

(** A route without samples, after a good call. *)
Lemma too_few_samples_no_route_witness :
  (List.length (kept_samples Example.constants (latest_route Example.empty_call)
                  (current_state Example.empty_call)) < 3)%nat
  /\ exists st',
       Example.plan Example.after_good Example.empty_call
       = Some ({| dynamics.states := [] |}, st')
       /\ route_x st' = PiecewiseStruct0
       /\ same_fallback Example.after_good st'.
Proof.
  assert (List.length (kept_samples Example.constants (latest_route Example.empty_call)
                         (current_state Example.empty_call)) < 3)%nat as K
    by (vm_compute; lia).
  split; [exact K|].
  destruct (@too_few_samples_no_route Example.series Example.linear
              (Example.hold Example.constants) Example.constants Example.after_good
              Example.empty_call (or_intror K))
    as (st' & E & _ & X & _ & _ & F & _).
  exists st'. split; [exact E|]. split; [exact X|exact F].
Defined.

(** The short route: four samples go to the smoother. *)
Lemma smoother_inputs_witness :
  min_distance_in_route Example.constants
  <= sim_time Example.constants * max_forward_speed Example.constants
  /\ (3 <= List.length (kept_samples Example.constants Example.short_route
                          (Example.vehicle 0%Q 1%Q 0%Q)))%nat
  /\ exists s vx (vy : list double) w,
       rx (fst (@setup_optimizer_parameters_using_route Example.series Example.linear
                  Example.constants Example.fresh Example.short_route
                  (Example.vehicle 0 1 0) (Example.readings 0)))
       = @CubicSplineSmoother Example.linear s vx w
           (position_smoothing_factor Example.constants)
       /\ (3 <= List.length s)%nat
       /\ List.length vx = List.length s
       /\ List.length vy = List.length s
       /\ List.length w = List.length s.
Proof.
  assert (min_distance_in_route Example.constants
          <= sim_time Example.constants * max_forward_speed Example.constants) as G
    by (apply Qle_bool_iff; reflexivity).
  assert (3 <= List.length (kept_samples Example.constants Example.short_route
                              (Example.vehicle 0%Q 1%Q 0%Q)))%nat as K by (vm_compute; lia).
  split; [exact G|]. split; [exact K|].
  destruct (@smoother_inputs Example.series Example.linear Example.constants
              Example.fresh Example.short_route (Example.vehicle 0 1 0)
              (Example.readings 0) G K)
    as (s & vx & vy & w & A & _ & B & C & D & E & _).
  exists s, vx, vy, w. repeat split; assumption.
Defined.

(** The short route: the first sample has the arc length 0 and the
    coordinates of the point one metre ahead. *)
Lemma samples_from_route_witness :
  let f :=
    route_to_follow
      (snd (@setup_optimizer_parameters_using_route Example.series Example.linear
              Example.constants Example.fresh Example.short_route
              (Example.vehicle 0 1 0) (Example.readings 0))) in
  min_distance_in_route Example.constants
  <= sim_time Example.constants * max_forward_speed Example.constants
  /\ (3 <= List.length (kept_samples Example.constants Example.short_route
                          (Example.vehicle 0%Q 1%Q 0%Q)))%nat
  /\ (0 < List.length (rs f))%nat
  /\ exists progress,
       from_route Example.constants Example.short_route
         (map.get_s Example.short_route (Example.vehicle 0 1 0)) progress
         (at_ (rxs f) 0) (at_ (rys f) 0)
       /\ at_ (rs f) 0 = 0.
Proof.
  intro f.
  assert (min_distance_in_route Example.constants
          <= sim_time Example.constants * max_forward_speed Example.constants) as G
    by (apply Qle_bool_iff; reflexivity).
  assert (3 <= List.length (kept_samples Example.constants Example.short_route
                              (Example.vehicle 0%Q 1%Q 0%Q)))%nat as K by (vm_compute; lia).
  assert (0 < List.length (rs f))%nat as P by (vm_compute; lia).
  split; [exact G|]. split; [exact K|]. split; [exact P|].
  exact (@samples_from_route Example.series Example.linear Example.constants
           Example.fresh Example.short_route (Example.vehicle 0 1 0)
           (Example.readings 0) G K 0%nat P).
Defined.

(** The road that runs north: the x spline is flat, and the path comes
    back with its position splines and no heading spline. *)
Lemma zero_tangent_keeps_position_splines_witness :
  min_distance_in_route Example.constants
  <= sim_time Example.constants * max_forward_speed Example.constants
  /\ (3 <= List.length (kept_samples Example.constants Example.north_route
                          (Example.vehicle 0%Q 1%Q 0%Q)))%nat
  /\ at_ (@x_derivatives Example.linear Example.constants Example.north_route
            (Example.vehicle 0 1 0)) 0 == 0
  /\ fst (@setup_optimizer_parameters_using_route Example.series Example.linear
            Example.constants Example.fresh Example.north_route
            (Example.vehicle 0 1 0) (Example.readings 0))
     = {| rx := fst (@position_splines Example.linear Example.constants
                       Example.north_route (Example.vehicle 0 1 0));
          ry := snd (@position_splines Example.linear Example.constants
                       Example.north_route (Example.vehicle 0 1 0));
          rheading := PiecewiseStruct0 |}.
Proof.
  assert (min_distance_in_route Example.constants
          <= sim_time Example.constants * max_forward_speed Example.constants) as G
    by (apply Qle_bool_iff; reflexivity).
  assert (3 <= List.length (kept_samples Example.constants Example.north_route
                              (Example.vehicle 0%Q 1%Q 0%Q)))%nat as K by (vm_compute; lia).
  assert (at_ (@x_derivatives Example.linear Example.constants Example.north_route
                 (Example.vehicle 0 1 0)) 0 == 0) as Z
    by (apply Qeq_bool_iff; vm_compute; reflexivity).
  split; [exact G|]. split; [exact K|]. split; [exact Z|].
  apply (@zero_tangent_keeps_position_splines Example.series Example.linear
           Example.constants Example.fresh Example.north_route
           (Example.vehicle 0 1 0) (Example.readings 0) G K).
  exists 0%nat. split; [vm_compute; lia|exact Z].
Defined.

(** The weights of a new planner. *)
Lemma cost_rate_not_negative_witness :
  0 <= lateral_weight Example.fresh
  /\ 0 <= heading_weight Example.fresh
  /\ 0 <= fst (@dynamic_model Example.series Example.linear Example.fresh
                 Example.model_state Example.model_input (setConstant 0)) STATES.L.
Proof.
  assert (0 <= lateral_weight Example.fresh) as L by (apply Qle_bool_iff; reflexivity).
  assert (0 <= heading_weight Example.fresh) as H by (apply Qle_bool_iff; reflexivity).
  split; [exact L|]. split; [exact H|].
  exact (@cost_rate_not_negative Example.series Example.linear Example.fresh
           Example.model_state Example.model_input (setConstant 0) L H).
Defined.

(** The fourth of thirty samples. *)
Lemma planned_trajectory_copies_states_witness :
  (2 <= control_points Example.constants)%nat
  /\ (3 < control_points Example.constants)%nat
  /\ forall opt_x time,
       dynamics.vx
         (nth 3 (dynamics.states
                   (@planned_trajectory Example.series Example.constants
                      Example.fresh opt_x time))
              dynamics.VehicleStateDynamic0)
       = opt_x (3 * state_size + STATES.V)%nat.
Proof.
  assert (2 <= control_points Example.constants)%nat as P by (vm_compute; lia).
  assert (3 < control_points Example.constants)%nat as H by (vm_compute; lia).
  split; [exact P|]. split; [exact H|].
  intros opt_x time.
  destruct (@planned_trajectory_copies_states Example.series Example.constants
              Example.fresh opt_x time 3%nat P H) as (_ & _ & _ & V & _).
  exact V.
Defined.

(** A good call of a new planner: the solver [Example.hold] evaluates the
    model once. *)
Lemma tau_after_cycle_witness :
  exists st1 start_time run t st',
    @solve_call Example.series Example.linear (Example.hold Example.constants)
      Example.constants Example.fresh (Example.good_call 0)
    = solved st1 start_time run
    /\ Example.plan Example.fresh (Example.good_call 0) = Some (t, st')
    /\ model_calls run <> []
    /\ (tau st' = 2.5 \/ tau st' = 1.25).
Proof.
  destruct (@solve_call Example.series Example.linear (Example.hold Example.constants)
              Example.constants Example.fresh (Example.good_call 0))
    as [st1| | |st1 t0 run] eqn:S; try (vm_compute in S; discriminate).
  destruct (Example.plan Example.fresh (Example.good_call 0)) as [[t st']|] eqn:E;
    [|vm_compute in E; discriminate].
  assert (model_calls run <> []) as N.
  { assert (match @solve_call Example.series Example.linear
                    (Example.hold Example.constants) Example.constants
                    Example.fresh (Example.good_call 0) with
            | solved _ _ r => List.length (model_calls r)
            | _ => 0%nat
            end = 1%nat) as C by (vm_compute; reflexivity).
    rewrite S in C. intro Z. rewrite Z in C. discriminate. }
  exists st1, t0, run, t, st'. split; [reflexivity|]. split; [reflexivity|].
  split; [exact N|].
  exact (proj1 (@tau_after_cycle Example.series Example.linear
                  (Example.hold Example.constants) Example.constants Example.fresh
                  st1 (Example.good_call 0) t0 run t st' S E) N).
Defined.

(** The limits of the instance. *)
Lemma constraints_consistent_witness :
  max_reverse_speed Example.constants <= max_forward_speed Example.constants
  /\ 0 <= max_steering_angle Example.constants
  /\ 0 <= max_steering_velocity Example.constants
  /\ 0 <= max_steering_acceleration Example.constants
  /\ forall state input j,
       bound_le
         (StateLowerBounds
            (setup_constraints Example.constants Example.fresh
               (OCP_new (options Example.fresh))) state input j)
         (StateUpperBounds
            (setup_constraints Example.constants Example.fresh
               (OCP_new (options Example.fresh))) state input j).
Proof.
  assert (max_reverse_speed Example.constants <= max_forward_speed Example.constants)
    as V by (apply Qle_bool_iff; reflexivity).
  assert (0 <= max_steering_angle Example.constants) as A
    by (apply Qle_bool_iff; reflexivity).
  assert (0 <= max_steering_velocity Example.constants) as R
    by (apply Qle_bool_iff; reflexivity).
  assert (0 <= max_steering_acceleration Example.constants) as U
    by (apply Qle_bool_iff; reflexivity).
  split; [exact V|]. split; [exact A|]. split; [exact R|]. split; [exact U|].
  intros state input j.
  exact (proj1 (@constraints_consistent Example.constants Example.fresh
                  (OCP_new (options Example.fresh)) state input V A R U) j).
Defined.

(** The short route: four arc lengths, three headings. *)
Lemma heading_samples_one_short_witness :
  let built :=
    @setup_optimizer_parameters_using_route Example.series Example.linear
      Example.constants Example.fresh Example.short_route
      (Example.vehicle 0 1 0) (Example.readings 0) in
  @x_derivatives Example.linear Example.constants Example.short_route
    (Example.vehicle 0 1 0) <> []
  /\ @y_derivatives Example.linear Example.constants Example.short_route
       (Example.vehicle 0 1 0) <> []
  /\ List.length (rs (route_to_follow (snd built))) = 4%nat
  /\ List.length (rpsi (route_to_follow (snd built))) = (4 - 1)%nat.
Proof.
  intro built.
  assert (min_distance_in_route Example.constants
          <= sim_time Example.constants * max_forward_speed Example.constants) as G
    by (apply Qle_bool_iff; reflexivity).
  assert (List.length (kept_samples Example.constants Example.short_route
                         (Example.vehicle 0 1 0)) = 4%nat) as K4 by reflexivity.
  assert (3 <= List.length (kept_samples Example.constants Example.short_route
                              (Example.vehicle 0%Q 1%Q 0%Q)))%nat as K by (rewrite K4; lia).
  assert (@x_derivatives Example.linear Example.constants Example.short_route
            (Example.vehicle 0 1 0) <> []) as X by (vm_compute; discriminate).
  assert (@y_derivatives Example.linear Example.constants Example.short_route
            (Example.vehicle 0 1 0) <> []) as Y by (vm_compute; discriminate).
  assert (forall i,
            (i < List.length (kept_samples Example.constants Example.short_route
                                (Example.vehicle 0%Q 1%Q 0%Q)) - 1)%nat ->
            ~ at_ (@x_derivatives Example.linear Example.constants
                     Example.short_route (Example.vehicle 0 1 0)) i == 0) as N.
  { rewrite K4. intros i Hi Z. apply Qeq_bool_iff in Z.
    destruct i as [|[|[|i]]]; [vm_compute in Z; discriminate..|lia]. }
  assert (List.length (rs (route_to_follow (snd built))) = 4%nat) as L by reflexivity.
  split; [exact X|]. split; [exact Y|]. split; [exact L|].
  destruct (@heading_samples_one_short Example.series Example.linear
              Example.constants Example.fresh Example.short_route
              (Example.vehicle 0 1 0) (Example.readings 0) G K X Y N)
    as (_ & P & _).
  fold built in P. rewrite L in P. exact P.
Defined.
